(** * Ask Oromia bot: a model of [bot.js] and its properties

    The bot keeps all of its state in seven MongoDB collections and reacts to
    Telegram updates.  The model follows the source:

    - a collection is the list of its documents in insertion order, and the
      driver calls used by the code ([findOne], [insertOne], [updateOne],
      [deleteOne], [updateMany], upserts) are list functions (module [Mongo]);
    - every helper of [dbHelpers] is a function on the database value [Db.t],
      returning the new database next to its JavaScript result;
    - every handler ([bot.command], [bot.action], [bot.on]) is a function from
      the database and the update to the new database and the list of
      transport calls it made;
    - a JavaScript string is the list of its UTF-16 code units.

    Store calls are taken to succeed (the [catch] branches of the helpers are
    reached only on a driver error).  Identifiers handed to [new ObjectId]
    are taken to be well formed.  Transport calls whose failure changes what
    is written afterwards carry an explicit outcome in the update. *)

From Stdlib Require Import ZArith NArith List Bool String Ascii Lia.
From Stdlib Require Import DecimalString Sorted.
Import ListNotations.
Open Scope Z_scope.

(** ** JavaScript strings *)

Module JsString.

(** A string is its sequence of UTF-16 code units. *)
Definition text := list N.

Definition of_string (s : string) : text :=
  map N_of_ascii (list_ascii_of_string s).

Definition length (t : text) : Z := Z.of_nat (List.length t).

(** [/[A-Z]/]: the code units U+0041 .. U+005A. *)
Definition isCapital (u : N) : bool := ((65 <=? u) && (u <=? 90))%N.

Definition lowerUnit (u : N) : N := if isCapital u then (u + 32)%N else u.

(** [String.prototype.toLowerCase].  The letters A-Z are mapped to a-z.
    JavaScript also maps letters outside ASCII; the results are again
    outside ASCII, except U+212A (to k) and U+0130 (to i followed by
    U+0307), and no banned word of [contentFilter] contains a k or an i
    followed by U+0307: the searches of [contentFilter], the only user of
    this function, give the same answer when those letters are left as
    they are. *)
Definition toLowerCase (t : text) : text := map lowerUnit t.

Fixpoint startsWith (t w : text) {struct w} : bool :=
  match w, t with
  | [], _ => true
  | _ :: _, [] => false
  | c :: w', u :: t' => (u =? c)%N && startsWith t' w'
  end.

(** [String.prototype.includes]: [w] occurs at some position of [t]. *)
Fixpoint includes (t w : text) : bool :=
  startsWith t w ||
  match t with
  | [] => false
  | _ :: t' => includes t' w
  end.

(** The line terminators, which [.] does not match in a regular expression
    without the [s] flag: LF, CR, U+2028, U+2029. *)
Definition isLineTerminator (u : N) : bool :=
  ((u =? 10) || (u =? 13) || (u =? 8232) || (u =? 8233))%N.

(** [t] starts with [n] copies of the code unit [c]. *)
Fixpoint startsWithCopies (c : N) (n : nat) (t : text) : bool :=
  match n with
  | O => true
  | S n' =>
      match t with
      | [] => false
      | u :: t' => (u =? c)%N && startsWithCopies c n' t'
      end
  end.

(** [/(.)\1{10,}/.test(t)]: at some position there is a code unit that is
    not a line terminator, followed by at least ten more copies of it. *)
Fixpoint repetitivePattern_test (t : text) : bool :=
  match t with
  | [] => false
  | c :: t' =>
      (negb (isLineTerminator c) && startsWithCopies c 10 t')
      || repetitivePattern_test t'
  end.

(** A string is truthy when it is not empty. *)
Definition truthy (t : text) : bool :=
  match t with [] => false | _ :: _ => true end.

(** The decimal rendering of a number inside a template literal. *)
Definition of_Z (z : Z) : text := of_string (NilZero.string_of_int (Z.to_int z)).

End JsString.

Import JsString.

(** ** Content filter *)

Record FilterResult := mkFilterResult { allowed : bool; reason : string }.

Definition bannedWords : list text :=
  map of_string
    ["spam"; "scam"; "http://"; "https://"; "telegram.me"; "t.me/joinchat";
     "bit.ly"; "tinyurl"]%string.

Definition capitalLetters (t : text) : Z :=
  Z.of_nat (List.length (filter isCapital t)).

(** [capitalLetters / text.length > 0.7] on doubles.  The quotient of two
    integers is rounded to the nearest double and [0.7] is the double nearest
    to 7/10, so a quotient of at most 7/10 never compares greater; a quotient
    above 7/10 exceeds it by at least 1/(10 * length), far more than the
    rounding error for any length a string can have.  For the empty string
    the quotient is NaN and the comparison is false.  Hence the comparison is
    the exact one. *)
Definition capitalRatio_gt_0_7 (capitals len : Z) : bool :=
  7 * len <? 10 * capitals.

Definition contentFilter (t : text) : FilterResult :=
  let lowerText := toLowerCase t in
  if existsb (fun word => includes lowerText word) bannedWords then
    mkFilterResult false "Contains banned content"
  else if 2000 <? JsString.length t then
    mkFilterResult false "Content too long (max 2000 characters)"
  else if capitalRatio_gt_0_7 (capitalLetters t) (JsString.length t)
          && (20 <? JsString.length t) then
    mkFilterResult false "Too many capital letters"
  else if repetitivePattern_test t then
    mkFilterResult false "Repetitive text detected"
  else
    mkFilterResult true EmptyString.


(** ** The driver calls on a collection *)

Module Mongo.

Section Collection.
Context {A : Type}.

(** [findOne(filter)]: the first document that matches. *)
Definition findOne (p : A -> bool) (c : list A) : option A := find p c.

(** [find(filter).toArray()]. *)
Definition findAll (p : A -> bool) (c : list A) : list A := filter p c.

Definition countDocuments (p : A -> bool) (c : list A) : Z :=
  Z.of_nat (List.length (filter p c)).

Definition insertOne (d : A) (c : list A) : list A := c ++ [d].

(** [updateOne(filter, update)]: the first matching document is updated,
    nothing happens when none matches. *)
Fixpoint updateOne (p : A -> bool) (f : A -> A) (c : list A) : list A :=
  match c with
  | [] => []
  | d :: c' => if p d then f d :: c' else d :: updateOne p f c'
  end.

(** [updateMany(filter, update)]. *)
Definition updateMany (p : A -> bool) (f : A -> A) (c : list A) : list A :=
  map (fun d => if p d then f d else d) c.

(** [deleteOne(filter)]: the first matching document is removed. *)
Fixpoint deleteOne (p : A -> bool) (c : list A) : list A :=
  match c with
  | [] => []
  | d :: c' => if p d then c' else d :: deleteOne p c'
  end.

(** [updateOne(filter, update, { upsert: true })]: as [updateOne] when a
    document matches, otherwise [fresh] is inserted.  With a [$setOnInsert]
    update [f] is the identity; with a [$set] update [fresh] is the filter's
    fields with the update applied. *)
Definition upsertOne (p : A -> bool) (f : A -> A) (fresh : A) (c : list A)
  : list A :=
  if existsb p c then updateOne p f c else insertOne fresh c.

End Collection.

End Mongo.

(** ** Documents *)

(** Telegram user identifiers and dates are numbers; an [ObjectId] is taken
    as a natural number. *)
Definition UserId := Z.
Definition ObjectId := N.
Definition Date := Z.

Module User.
Record t := mk {
  user_id : UserId;
  username : text;
  points : Z;
  questions_asked : Z;
  answers_given : Z;
  join_date : Date
}.
End User.

Module Question.
Record t := mk {
  _id : ObjectId;
  user_id : UserId;
  username : text;
  question : text;
  topic : text;
  approved : bool;
  channel_message_id : option Z;
  answer_count : Z;
  created_at : Date
}.
End Question.

Module Answer.
Record t := mk {
  _id : ObjectId;
  question_id : ObjectId;
  user_id : UserId;
  username : text;
  answer : text;
  channel_message_id : option Z;
  votes : Z;
  created_at : Date
}.
End Answer.

Inductive Step :=
| awaiting_question
| awaiting_topic
| confirm_question
| editing_question
| awaiting_answer
| awaiting_feedback.

(** The session object: one bag of optional fields shared by all flows. *)
Module SessionData.
Record t := mk {
  step : Step;
  question : option text;
  topic : option text;
  waitingForCustomTopic : bool;
  questionId : option ObjectId;
  questionText : option text;
  channelMessageId : option Z
}.
End SessionData.

Module Session.
Record t := mk {
  user_id : UserId;
  data : SessionData.t;
  updated_at : Date
}.
End Session.

Module Subscription.
Record t := mk {
  user_id : UserId;
  question_id : ObjectId;
  created_at : Date
}.
End Subscription.

Inductive VoteType := up | down.

Module Vote.
Record t := mk {
  user_id : UserId;
  answer_id : ObjectId;
  vote_type : VoteType;
  created_at : Date
}.
End Vote.

Inductive NotificationType := new_answer | question_approved | vote_received.

(** The [data] object of a notification, one shape per call site. *)
Inductive NotificationData :=
| NewAnswerData (questionId : ObjectId) (answer : text) (answererId : UserId)
| QuestionApprovedData (question : text) (channelMessageId : Z)
| VoteReceivedData (answerId : ObjectId) (answer : text) (voteType : VoteType).

Module Notification.
Record t := mk {
  user_id : UserId;
  type : NotificationType;
  data : NotificationData;
  read : bool;
  created_at : Date
}.
End Notification.

(** The database: the seven collections, and the next [ObjectId] the driver
    hands out on [insertOne]. *)
Module Db.
Record t := mk {
  users : list User.t;
  questions : list Question.t;
  answers : list Answer.t;
  sessions : list Session.t;
  subscriptions : list Subscription.t;
  votes : list Vote.t;
  notifications : list Notification.t;
  next_id : ObjectId
}.

Definition empty : t := mk [] [] [] [] [] [] [] 0%N.

Definition set_users (f : list User.t -> list User.t) (db : t) : t :=
  mk (f (users db)) (questions db) (answers db) (sessions db)
     (subscriptions db) (votes db) (notifications db) (next_id db).
Definition set_questions (f : list Question.t -> list Question.t) (db : t) : t :=
  mk (users db) (f (questions db)) (answers db) (sessions db)
     (subscriptions db) (votes db) (notifications db) (next_id db).
Definition set_answers (f : list Answer.t -> list Answer.t) (db : t) : t :=
  mk (users db) (questions db) (f (answers db)) (sessions db)
     (subscriptions db) (votes db) (notifications db) (next_id db).
Definition set_sessions (f : list Session.t -> list Session.t) (db : t) : t :=
  mk (users db) (questions db) (answers db) (f (sessions db))
     (subscriptions db) (votes db) (notifications db) (next_id db).
Definition set_subscriptions
  (f : list Subscription.t -> list Subscription.t) (db : t) : t :=
  mk (users db) (questions db) (answers db) (sessions db)
     (f (subscriptions db)) (votes db) (notifications db) (next_id db).
Definition set_votes (f : list Vote.t -> list Vote.t) (db : t) : t :=
  mk (users db) (questions db) (answers db) (sessions db)
     (subscriptions db) (f (votes db)) (notifications db) (next_id db).
Definition set_notifications
  (f : list Notification.t -> list Notification.t) (db : t) : t :=
  mk (users db) (questions db) (answers db) (sessions db)
     (subscriptions db) (votes db) (f (notifications db)) (next_id db).

(** A fresh [ObjectId] for an inserted document. *)
Definition fresh_id (db : t) : ObjectId * t :=
  (next_id db,
   mk (users db) (questions db) (answers db) (sessions db)
      (subscriptions db) (votes db) (notifications db) (N.succ (next_id db))).
End Db.

(** ** Transport calls *)

Inductive Chat := ToUser (u : UserId) | ToChannel.

(** What a handler sends through Telegram.  A message is recorded by the
    words of its heading (emoji and markup left out); a call that throws is
    not recorded. *)
Inductive Out :=
| answerCbQuery (text : string)
| reply (heading : string)
| editMessageText (heading : string)
| sendMessage (chat : Chat) (heading : string).

(** [ctx.from]. *)
Module From.
Record t := mk {
  id : UserId;
  username : option text;
  first_name : text
}.
End From.

(** [a || b] on an optional string. *)
Definition or_else (a : option text) (b : text) : text :=
  match a with
  | Some s => if truthy s then s else b
  | None => b
  end.

Definition truthy_opt (a : option text) : bool :=
  match a with
  | Some s => truthy s
  | None => false
  end.

Definition TOPICS : list text :=
  [ [0xD83D; 0xDC91; 32]%N ++ of_string "Relationships";
    [0xD83D; 0xDCBB; 32]%N ++ of_string "Technology";
    [0xD83D; 0xDCDA; 32]%N ++ of_string "Education";
    [0xD83D; 0xDCBC; 32]%N ++ of_string "Business";
    [0xD83D; 0xDC68; 0x200D; 0xD83D; 0xDC69; 0x200D; 0xD83D; 0xDC67; 0x200D;
     0xD83D; 0xDC66; 32]%N ++ of_string "Family";
    [0xD83C; 0xDFAF; 32]%N ++ of_string "Others" ].

(** ** The helpers of [dbHelpers] *)

Module dbHelpers.

Definition getUser (db : Db.t) (userId : UserId) : option User.t :=
  Mongo.findOne (fun u => User.user_id u =? userId) (Db.users db).

Definition createUser (db : Db.t) (userId : UserId) (username : text)
  (now : Date) : Db.t * option User.t :=
  let user :=
    User.mk userId
      (if truthy username then username
       else of_string "user_" ++ JsString.of_Z userId)
      0 0 0 now in
  let db' :=
    Db.set_users
      (Mongo.upsertOne (fun u => User.user_id u =? userId) (fun u => u) user)
      db in
  (db', getUser db' userId).

(** The numeric fields of a user document that [$inc] can name. *)
Inductive StatField := f_points | f_questions_asked | f_answers_given.

Definition inc_field (field : StatField) (n : Z) (u : User.t) : User.t :=
  match field with
  | f_points =>
      User.mk (User.user_id u) (User.username u) (User.points u + n)
        (User.questions_asked u) (User.answers_given u) (User.join_date u)
  | f_questions_asked =>
      User.mk (User.user_id u) (User.username u) (User.points u)
        (User.questions_asked u + n) (User.answers_given u) (User.join_date u)
  | f_answers_given =>
      User.mk (User.user_id u) (User.username u) (User.points u)
        (User.questions_asked u) (User.answers_given u + n) (User.join_date u)
  end.

(** [updateFields[field] = increment], then [updateFields.points = 5] for
    the two counters when the increment is 1; all of it in one [$inc]. *)
Definition updateUserStats (db : Db.t) (userId : UserId) (field : StatField)
  (increment : Z) : Db.t :=
  let award :=
    match field with
    | f_questions_asked | f_answers_given => increment =? 1
    | f_points => false
    end in
  let inc u :=
    if award
    then inc_field f_points 5 (inc_field field increment u)
    else inc_field field increment u in
  Db.set_users (Mongo.updateOne (fun u => User.user_id u =? userId) inc) db.

Definition createQuestion (db : Db.t) (userId : UserId) (username : text)
  (question topic : text) (now : Date) : ObjectId * Db.t :=
  let '(id, db1) := Db.fresh_id db in
  let doc := Question.mk id userId username question topic false None 0 now in
  (id, Db.set_questions (Mongo.insertOne doc) db1).

Definition getQuestion (db : Db.t) (questionId : ObjectId)
  : option Question.t :=
  Mongo.findOne (fun q => (Question._id q =? questionId)%N) (Db.questions db).

Definition set_approved (channelMessageId : Z) (q : Question.t) : Question.t :=
  Question.mk (Question._id q) (Question.user_id q) (Question.username q)
    (Question.question q) (Question.topic q) true (Some channelMessageId)
    (Question.answer_count q) (Question.created_at q).

Definition approveQuestion (db : Db.t) (questionId : ObjectId)
  (channelMessageId : Z) : Db.t * option Question.t :=
  let db1 :=
    Db.set_questions
      (Mongo.updateOne (fun q => (Question._id q =? questionId)%N)
         (set_approved channelMessageId))
      db in
  let question := getQuestion db1 questionId in
  match question with
  | Some q => (updateUserStats db1 (Question.user_id q) f_questions_asked 1,
               question)
  | None => (db1, question)
  end.

Definition inc_answer_count (q : Question.t) : Question.t :=
  Question.mk (Question._id q) (Question.user_id q) (Question.username q)
    (Question.question q) (Question.topic q) (Question.approved q)
    (Question.channel_message_id q) (Question.answer_count q + 1)
    (Question.created_at q).

Definition createAnswer (db : Db.t) (questionId : ObjectId) (userId : UserId)
  (username : text) (answer : text) (channelMessageId : option Z) (now : Date)
  : ObjectId * Db.t :=
  let '(id, db1) := Db.fresh_id db in
  let doc :=
    Answer.mk id questionId userId username answer channelMessageId 0 now in
  let db2 := Db.set_answers (Mongo.insertOne doc) db1 in
  let db3 :=
    Db.set_questions
      (Mongo.updateOne (fun q => (Question._id q =? questionId)%N)
         inc_answer_count)
      db2 in
  (id, updateUserStats db3 userId f_answers_given 1).

Definition getAnswerCountForQuestion (db : Db.t) (questionId : ObjectId) : Z :=
  Mongo.countDocuments (fun a => (Answer.question_id a =? questionId)%N)
    (Db.answers db).

Definition getSession (db : Db.t) (userId : UserId) : option SessionData.t :=
  match Mongo.findOne (fun s => Session.user_id s =? userId) (Db.sessions db)
  with
  | Some session => Some (Session.data session)
  | None => None
  end.

Definition saveSession (db : Db.t) (userId : UserId)
  (sessionData : SessionData.t) (now : Date) : Db.t :=
  Db.set_sessions
    (Mongo.upsertOne (fun s => Session.user_id s =? userId)
       (fun s => Session.mk (Session.user_id s) sessionData now)
       (Session.mk userId sessionData now))
    db.

Definition deleteSession (db : Db.t) (userId : UserId) : Db.t :=
  Db.set_sessions (Mongo.deleteOne (fun s => Session.user_id s =? userId)) db.

Definition getAllUsers (db : Db.t) : list User.t := Db.users db.

Definition getAnswerWithVotes (db : Db.t) (answerId : ObjectId)
  : option Answer.t :=
  Mongo.findOne (fun a => (Answer._id a =? answerId)%N) (Db.answers db).

(** The message is sent only when it is not empty; a failure to deliver is
    caught and logged inside the helper. *)
Definition sendRealTimeNotification (db : Db.t) (userId : UserId)
  (type : NotificationType) (data : NotificationData) : list Out :=
  match type with
  | new_answer =>
      match data with
      | NewAnswerData questionId _ _ =>
          match getQuestion db questionId with
          | Some _ => [sendMessage (ToUser userId) "New Answer on Your Question!"]
          | None => []
          end
      | _ => []
      end
  | question_approved =>
      [sendMessage (ToUser userId) "Your Question is Live!"]
  | vote_received =>
      match data with
      | VoteReceivedData answerId _ voteType =>
          match getAnswerWithVotes db answerId with
          | Some _ =>
              [sendMessage (ToUser userId)
                 match voteType with
                 | up => "Your Answer Got a Upvote!"
                 | down => "Your Answer Got a Downvote!"
                 end]
          | None => []
          end
      | _ => []
      end
  end.

Definition createNotification (db : Db.t) (userId : UserId)
  (type : NotificationType) (data : NotificationData) (now : Date)
  : Db.t * list Out * bool :=
  let notification := Notification.mk userId type data false now in
  let db1 := Db.set_notifications (Mongo.insertOne notification) db in
  (db1, sendRealTimeNotification db1 userId type data, true).

Definition set_read (n : Notification.t) : Notification.t :=
  Notification.mk (Notification.user_id n) (Notification.type n)
    (Notification.data n) true (Notification.created_at n).

Definition markAllNotificationsAsRead (db : Db.t) (userId : UserId)
  : Db.t * bool :=
  (Db.set_notifications
     (Mongo.updateMany
        (fun n => (Notification.user_id n =? userId)
                  && negb (Notification.read n))
        set_read)
     db,
   true).

Definition same_subscription (userId : UserId) (questionId : ObjectId)
  (s : Subscription.t) : bool :=
  (Subscription.user_id s =? userId)
  && (Subscription.question_id s =? questionId)%N.

Definition subscribeToQuestion (db : Db.t) (userId : UserId)
  (questionId : ObjectId) (now : Date) : Db.t * bool :=
  (Db.set_subscriptions
     (Mongo.upsertOne (same_subscription userId questionId) (fun s => s)
        (Subscription.mk userId questionId now))
     db,
   true).

Definition unsubscribeFromQuestion (db : Db.t) (userId : UserId)
  (questionId : ObjectId) : Db.t * bool :=
  (Db.set_subscriptions
     (Mongo.deleteOne (same_subscription userId questionId)) db,
   true).

Definition getSubscribers (db : Db.t) (questionId : ObjectId) : list UserId :=
  map Subscription.user_id
    (Mongo.findAll (fun s => (Subscription.question_id s =? questionId)%N)
       (Db.subscriptions db)).

Definition isSubscribed (db : Db.t) (userId : UserId) (questionId : ObjectId)
  : bool :=
  match Mongo.findOne (same_subscription userId questionId)
          (Db.subscriptions db) with
  | Some _ => true
  | None => false
  end.

Definition same_vote (userId : UserId) (answerId : ObjectId) (v : Vote.t)
  : bool :=
  (Vote.user_id v =? userId) && (Vote.answer_id v =? answerId)%N.

Definition inc_votes (n : Z) (a : Answer.t) : Answer.t :=
  Answer.mk (Answer._id a) (Answer.question_id a) (Answer.user_id a)
    (Answer.username a) (Answer.answer a) (Answer.channel_message_id a)
    (Answer.votes a + n) (Answer.created_at a).

Definition voteAnswer (db : Db.t) (userId : UserId) (answerId : ObjectId)
  (voteType : VoteType) (now : Date) : Db.t * bool :=
  match getAnswerWithVotes db answerId with
  | None => (db, false)
  | Some answer =>
      if Answer.user_id answer =? userId then (db, false)
      else
        let db1 := Db.set_votes (Mongo.deleteOne (same_vote userId answerId)) db in
        let db2 :=
          Db.set_votes
            (Mongo.insertOne (Vote.mk userId answerId voteType now)) db1 in
        let voteValue := match voteType with up => 1 | down => -1 end in
        let db3 :=
          Db.set_answers
            (Mongo.updateOne (fun a => (Answer._id a =? answerId)%N)
               (inc_votes voteValue))
            db2 in
        (db3, true)
  end.

Definition getUserVote (db : Db.t) (userId : UserId) (answerId : ObjectId)
  : option VoteType :=
  match Mongo.findOne (same_vote userId answerId) (Db.votes db) with
  | Some vote => Some (Vote.vote_type vote)
  | None => None
  end.

End dbHelpers.

(** ** The handlers *)

Import dbHelpers.

(** The payload of a [/start] deep link. *)
Inductive StartPayload :=
| PayloadChannel (questionId : ObjectId)
| PayloadAnswer (questionId : ObjectId)
| PayloadOther.

Definition newSession (step : Step) : SessionData.t :=
  SessionData.mk step None None false None None None.

Definition answerSession (questionId : ObjectId) (q : Question.t)
  : SessionData.t :=
  SessionData.mk awaiting_answer None None false (Some questionId)
    (Some (Question.question q)) (Question.channel_message_id q).

Definition with_step (step : Step) (s : SessionData.t) : SessionData.t :=
  SessionData.mk step (SessionData.question s) (SessionData.topic s)
    (SessionData.waitingForCustomTopic s) (SessionData.questionId s)
    (SessionData.questionText s) (SessionData.channelMessageId s).

Definition with_question (question : text) (s : SessionData.t)
  : SessionData.t :=
  SessionData.mk (SessionData.step s) (Some question) (SessionData.topic s)
    (SessionData.waitingForCustomTopic s) (SessionData.questionId s)
    (SessionData.questionText s) (SessionData.channelMessageId s).

Definition with_topic (topic : option text) (s : SessionData.t)
  : SessionData.t :=
  SessionData.mk (SessionData.step s) (SessionData.question s) topic
    (SessionData.waitingForCustomTopic s) (SessionData.questionId s)
    (SessionData.questionText s) (SessionData.channelMessageId s).

Definition with_waiting (w : bool) (s : SessionData.t) : SessionData.t :=
  SessionData.mk (SessionData.step s) (SessionData.question s)
    (SessionData.topic s) w (SessionData.questionId s)
    (SessionData.questionText s) (SessionData.channelMessageId s).

Definition Step_eqb (a b : Step) : bool :=
  match a, b with
  | awaiting_question, awaiting_question
  | awaiting_topic, awaiting_topic
  | confirm_question, confirm_question
  | editing_question, editing_question
  | awaiting_answer, awaiting_answer
  | awaiting_feedback, awaiting_feedback => true
  | _, _ => false
  end.

Section Bot.

(** [ADMIN_ID], read from the environment at startup. *)
Variable ADMIN_ID : UserId.

(** [bot.command('start')]. *)
Definition on_start (db : Db.t) (from : From.t) (startPayload : option StartPayload)
  (now : Date) : Db.t * list Out :=
  let userId := From.id from in
  let userName := if truthy (From.first_name from) then From.first_name from
                  else of_string "User" in
  let db1 :=
    match getUser db userId with
    | Some _ => db
    | None => fst (createUser db userId (or_else (From.username from) userName) now)
    end in
  let normal := (db1, [reply "Ask Oromia Bot"]) in
  match startPayload with
  | Some (PayloadChannel questionId) =>
      match getQuestion db1 questionId with
      | Some question =>
          if Question.approved question
          then (db1, [reply "Question from Channel"])
          else normal
      | None => normal
      end
  | Some (PayloadAnswer questionId) =>
      match getQuestion db1 questionId with
      | Some question =>
          if Question.approved question
          then (saveSession db1 userId (answerSession questionId question) now,
                [reply "Answer Question"])
          else normal
      | None => normal
      end
  | _ => normal
  end.

(** [bot.command('ask')]. *)
Definition on_ask (db : Db.t) (from : From.t) (now : Date) : Db.t * list Out :=
  (saveSession db (From.id from) (newSession awaiting_question) now,
   [reply "Start a Question"]).

(** [bot.action('START_QUESTION')]. *)
Definition on_START_QUESTION (db : Db.t) (from : From.t) (now : Date)
  : Db.t * list Out :=
  (saveSession db (From.id from) (newSession awaiting_question) now,
   [editMessageText "Start a Question"; answerCbQuery EmptyString]).

(** [bot.action(/TOPIC_(\d+)/)]. *)
Definition on_TOPIC (db : Db.t) (from : From.t) (topicIndex : nat) (now : Date)
  : Db.t * list Out :=
  let userId := From.id from in
  match getSession db userId with
  | Some session =>
      if Step_eqb (SessionData.step session) awaiting_topic then
        let selectedTopic := nth_error TOPICS topicIndex in
        if Nat.eqb topicIndex 5 then
          (saveSession db userId (with_waiting true session) now,
           [editMessageText "Custom Topic"; answerCbQuery EmptyString])
        else
          (saveSession db userId
             (with_step confirm_question (with_topic selectedTopic session)) now,
           [editMessageText "Question Preview"; answerCbQuery EmptyString])
      else (db, [answerCbQuery EmptyString])
  | None => (db, [answerCbQuery EmptyString])
  end.

(** [bot.action('SHOW_TOPICS')]. *)
Definition on_SHOW_TOPICS (db : Db.t) (from : From.t) (now : Date)
  : Db.t * list Out :=
  let userId := From.id from in
  match getSession db userId with
  | Some session =>
      if Step_eqb (SessionData.step session) awaiting_topic then
        (saveSession db userId (with_waiting false session) now,
         [editMessageText "Choose Category"; answerCbQuery EmptyString])
      else (db, [answerCbQuery EmptyString])
  | None => (db, [answerCbQuery EmptyString])
  end.

(** [bot.action('EDIT_QUESTION')]. *)
Definition on_EDIT_QUESTION (db : Db.t) (from : From.t) (now : Date)
  : Db.t * list Out :=
  let userId := From.id from in
  match getSession db userId with
  | Some session =>
      if truthy_opt (SessionData.question session) then
        (saveSession db userId (with_step editing_question session) now,
         [editMessageText "Edit Your Question"; answerCbQuery EmptyString])
      else (db, [answerCbQuery EmptyString])
  | None => (db, [answerCbQuery EmptyString])
  end.

(** [bot.action('CANCEL_EDIT')]. *)
Definition on_CANCEL_EDIT (db : Db.t) (from : From.t) (now : Date)
  : Db.t * list Out :=
  let userId := From.id from in
  match getSession db userId with
  | Some session =>
      (saveSession db userId (with_step confirm_question session) now,
       [editMessageText "Question Preview"; answerCbQuery EmptyString])
  | None => (db, [answerCbQuery EmptyString])
  end.

(** [bot.action('SUBMIT_QUESTION')].  [edited] and [forwarded] tell whether
    the confirmation shown to the user and the message to the operator went
    through; the session is deleted only after both. *)
Definition on_SUBMIT_QUESTION (db : Db.t) (from : From.t)
  (edited forwarded : bool) (now : Date) : Db.t * list Out :=
  let userId := From.id from in
  let expired := (db, [editMessageText "Session expired. Please start again."]) in
  match getSession db userId with
  | None => expired
  | Some session =>
      match SessionData.question session, SessionData.topic session with
      | Some question, Some topic =>
          if negb (truthy question) || negb (truthy topic) then expired
          else if negb (allowed (contentFilter question)) then
            (db, [editMessageText "Question Blocked"])
          else
            let '(questionId, db1) :=
              createQuestion db userId
                (or_else (From.username from) (From.first_name from))
                question topic now in
            if negb edited then (db1, [])
            else
              match getUser db1 userId with
              | None => (db1, [editMessageText "Question Submitted!"])
              | Some user =>
                  if negb forwarded
                  then (db1, [editMessageText "Question Submitted!"])
                  else
                    (deleteSession db1 userId,
                     [editMessageText "Question Submitted!";
                      sendMessage (ToUser ADMIN_ID) "New Question for Approval";
                      answerCbQuery EmptyString])
              end
      | _, _ => expired
      end
  end.

(** [bot.action(/APPROVE_(.+)/)].  [posted] is the [message_id] of the
    channel post, [None] when posting threw; [edited] tells whether the
    operator's message could be edited. *)
Definition on_APPROVE (db : Db.t) (from : From.t) (questionId : ObjectId)
  (posted : option Z) (edited : bool) (now : Date) : Db.t * list Out :=
  if negb (From.id from =? ADMIN_ID) then
    (db, [answerCbQuery "Access denied"])
  else
    match getQuestion db questionId with
    | None => (db, [answerCbQuery "Question not found"])
    | Some question =>
        match posted with
        | None => (db, [answerCbQuery "Error approving question"])
        | Some message_id =>
            let '(db1, updatedQuestion) :=
              approveQuestion db questionId message_id in
            if negb edited then
              (db1, [sendMessage ToChannel "By: Anonymous";
                     answerCbQuery "Error approving question"])
            else
              let '(db2, sent, _) :=
                createNotification db1 (Question.user_id question)
                  question_approved
                  (QuestionApprovedData (Question.question question) message_id)
                  now in
              (db2,
               [sendMessage ToChannel "By: Anonymous";
                editMessageText "Question Approved!"]
               ++ sent ++ [answerCbQuery EmptyString])
        end
    end.

(** [bot.action(/REJECT_(.+)/)].  [edited] and [notified] tell whether the
    operator's message could be edited and whether the message to the author
    went through. *)
Definition on_REJECT (db : Db.t) (from : From.t) (questionId : ObjectId)
  (edited notified : bool) : Db.t * list Out :=
  if negb (From.id from =? ADMIN_ID) then
    (db, [answerCbQuery "Access denied"])
  else
    match getQuestion db questionId with
    | None => (db, [answerCbQuery "Question not found"])
    | Some question =>
        let db1 :=
          Db.set_questions
            (Mongo.deleteOne (fun q => (Question._id q =? questionId)%N)) db in
        if negb edited then
          (db1, [answerCbQuery "Error rejecting question"])
        else if negb notified then
          (db1, [editMessageText "Question Rejected!";
                 answerCbQuery "Error rejecting question"])
        else
          (db1, [editMessageText "Question Rejected!";
                 sendMessage (ToUser (Question.user_id question))
                   "Question Not Approved";
                 answerCbQuery EmptyString])
    end.

(** [bot.action(/CHANNEL_ANSWER_(.+)/)]. *)
Definition on_CHANNEL_ANSWER (db : Db.t) (from : From.t) (questionId : ObjectId)
  (now : Date) : Db.t * list Out :=
  match getQuestion db questionId with
  | Some question =>
      if Question.approved question then
        (saveSession db (From.id from) (answerSession questionId question) now,
         [reply "Answer Question"; answerCbQuery "Please check your messages!"])
      else (db, [answerCbQuery "Question not found"])
  | None => (db, [answerCbQuery "Question not found"])
  end.

(** [bot.action(/VOTE_UP_(.+)/)] and [bot.action(/VOTE_DOWN_(.+)/)], which
    differ by the vote type and the acknowledgment only. *)
Definition on_VOTE (voteType : VoteType) (db : Db.t) (from : From.t)
  (answerId : ObjectId) (now : Date) : Db.t * list Out :=
  let userId := From.id from in
  let '(db1, success) := voteAnswer db userId answerId voteType now in
  if success then
    let ack :=
      match voteType with up => "Upvoted!" | down => "Downvoted!" end%string in
    match getAnswerWithVotes db1 answerId with
    | Some answer =>
        if negb (Answer.user_id answer =? userId) then
          let '(db2, sent, _) :=
            createNotification db1 (Answer.user_id answer) vote_received
              (VoteReceivedData answerId (Answer.answer answer) voteType) now in
          (db2, sent ++ [answerCbQuery ack])
        else (db1, [answerCbQuery ack])
    | None => (db1, [answerCbQuery ack])
    end
  else (db1, [answerCbQuery "Cannot vote on your own answer"]).

Definition on_VOTE_UP := on_VOTE up.
Definition on_VOTE_DOWN := on_VOTE down.

(** [bot.action(/VOTE_NONE_(.+)/)]. *)
Definition on_VOTE_NONE (db : Db.t) (from : From.t) (answerId : ObjectId)
  : Db.t * list Out :=
  let userId := From.id from in
  let db1 := Db.set_votes (Mongo.deleteOne (same_vote userId answerId)) db in
  let currentVotes :=
    match getAnswerWithVotes db1 answerId with
    | Some answer => Answer.votes answer
    | None => 0
    end in
  (db1,
   [answerCbQuery
      ("Vote removed! Current votes: "
       ++ NilZero.string_of_int (Z.to_int currentVotes))%string]).

(** [bot.action(/SUBSCRIBE_(.+)/)]. *)
Definition on_SUBSCRIBE (db : Db.t) (from : From.t) (questionId : ObjectId)
  (now : Date) : Db.t * list Out :=
  let '(db1, success) := subscribeToQuestion db (From.id from) questionId now in
  (db1, [answerCbQuery (if success then "Subscribed to question!"
                        else "Subscription failed")]).

(** [bot.action(/UNSUBSCRIBE_(.+)/)]. *)
Definition on_UNSUBSCRIBE (db : Db.t) (from : From.t) (questionId : ObjectId)
  : Db.t * list Out :=
  let '(db1, success) := unsubscribeFromQuestion db (From.id from) questionId in
  (db1, [answerCbQuery (if success then "Unsubscribed from question"
                        else "Unsubscribe failed")]).

(** [bot.action('MARK_ALL_READ')]. *)
Definition on_MARK_ALL_READ (db : Db.t) (from : From.t) : Db.t * list Out :=
  let '(db1, _) := markAllNotificationsAsRead db (From.id from) in
  (db1, [answerCbQuery "All notifications marked as read!";
         reply "Notifications"]).

(** [bot.action('SEND_FEEDBACK')]. *)
Definition on_SEND_FEEDBACK (db : Db.t) (from : From.t) (now : Date)
  : Db.t * list Out :=
  (saveSession db (From.id from) (newSession awaiting_feedback) now,
   [editMessageText "Send Feedback"; answerCbQuery EmptyString]).

(** The loop over the subscribers in the [awaiting_answer] branch.  The
    test reads [question.user_id] only for a subscriber other than the
    answerer; with no question that read throws, which ends the loop (the
    last component of the result). *)
Fixpoint notifySubscribers (db : Db.t) (subscribers : list UserId)
  (userId : UserId) (question : option Question.t) (questionId : ObjectId)
  (userMessage : text) (now : Date) : Db.t * list Out * bool :=
  match subscribers with
  | [] => (db, [], false)
  | subscriberId :: rest =>
      if subscriberId =? userId then
        notifySubscribers db rest userId question questionId userMessage now
      else
        match question with
        | None => (db, [], true)
        | Some q =>
            if negb (subscriberId =? Question.user_id q) then
              let '(db1, sent, _) :=
                createNotification db subscriberId new_answer
                  (NewAnswerData questionId userMessage userId) now in
              let '(db2, sent', thrown) :=
                notifySubscribers db1 rest userId question questionId
                  userMessage now in
              (db2, sent ++ sent', thrown)
            else
              notifySubscribers db rest userId question questionId
                userMessage now
        end
  end.

(** The [awaiting_answer] branch of [bot.on('text')], after the content
    filter has let the message through.  [replied] tells whether the final
    confirmation went through. *)
Definition post_answer (db : Db.t) (from : From.t) (questionId : ObjectId)
  (channelMessageId : option Z) (userMessage : text) (replied : bool)
  (now : Date) : Db.t * list Out :=
  let userId := From.id from in
  let '(answerId, db1) :=
    createAnswer db questionId userId
      (or_else (From.username from) (From.first_name from))
      userMessage channelMessageId now in
  let '(db2, _) := subscribeToQuestion db1 userId questionId now in
  let question := getQuestion db2 questionId in
  let '(db3, sent, _) :=
    match question with
    | Some q =>
        if negb (Question.user_id q =? userId) then
          createNotification db2 (Question.user_id q) new_answer
            (NewAnswerData questionId userMessage userId) now
        else (db2, [], true)
    | None => (db2, [], true)
    end in
  let subscribers := getSubscribers db3 questionId in
  let '(db4, sent', thrown) :=
    notifySubscribers db3 subscribers userId question questionId
      userMessage now in
  if thrown then
    (db4, sent ++ sent' ++ [reply "An error occurred. Please try again."])
  else if negb replied then
    (db4, sent ++ sent' ++ [reply "An error occurred. Please try again."])
  else
    (deleteSession db4 userId, sent ++ sent' ++ [reply "Answer Posted!"]).

(** [bot.on('text')].  [replied] tells whether the reply of the branch went
    through, [forwarded] whether the feedback reached the operator. *)
Definition on_text (db : Db.t) (from : From.t) (userMessage : text)
  (replied forwarded : bool) (now : Date) : Db.t * list Out :=
  let userId := From.id from in
  match getSession db userId with
  | None =>
      if startsWith userMessage (of_string "/") then (db, [])
      else (db, [reply "Please use /start to begin or use the menu buttons."])
  | Some session =>
      match SessionData.step session with
      | awaiting_question =>
          if negb (allowed (contentFilter userMessage)) then
            (db, [reply "Question Blocked"])
          else
            (saveSession db userId
               (with_step awaiting_topic (with_question userMessage session))
               now,
             [reply "Choose Question Category"])
      | editing_question =>
          if negb (allowed (contentFilter userMessage)) then
            (db, [reply "Question Blocked"])
          else
            (saveSession db userId
               (with_step confirm_question (with_question userMessage session))
               now,
             [reply "Question Updated"])
      | awaiting_topic =>
          if SessionData.waitingForCustomTopic session then
            (saveSession db userId
               (with_waiting false
                  (with_step confirm_question
                     (with_topic (Some userMessage) session)))
               now,
             [reply "Question Preview"])
          else (db, [])
      | awaiting_feedback =>
          if negb replied then
            (db, [reply "An error occurred. Please try again."])
          else
            match getUser db userId with
            | None =>
                (db, [reply "Feedback Sent!";
                      reply "An error occurred. Please try again."])
            | Some user =>
                if negb forwarded then
                  (db, [reply "Feedback Sent!";
                        reply "An error occurred. Please try again."])
                else
                  (deleteSession db userId,
                   [reply "Feedback Sent!";
                    sendMessage (ToUser ADMIN_ID) "New Feedback"])
            end
      | awaiting_answer =>
          if negb (allowed (contentFilter userMessage)) then
            (db, [reply "Answer Blocked"])
          else
            match SessionData.questionId session with
            | Some questionId =>
                post_answer db from questionId
                  (SessionData.channelMessageId session) userMessage replied now
            | None =>
                (* Every session saved with this step carries the question
                   identifier; see [answer_session_has_question]. *)
                (db, [reply "An error occurred. Please try again."])
            end
      | confirm_question => (db, [])
      end
  end.

(** ** Updates *)

Inductive Update :=
| Start (from : From.t) (startPayload : option StartPayload) (now : Date)
| Ask (from : From.t) (now : Date)
| START_QUESTION (from : From.t) (now : Date)
| TOPIC (from : From.t) (topicIndex : nat) (now : Date)
| SHOW_TOPICS (from : From.t) (now : Date)
| EDIT_QUESTION (from : From.t) (now : Date)
| CANCEL_EDIT (from : From.t) (now : Date)
| SUBMIT_QUESTION (from : From.t) (edited forwarded : bool) (now : Date)
| APPROVE (from : From.t) (questionId : ObjectId) (posted : option Z)
    (edited : bool) (now : Date)
| REJECT (from : From.t) (questionId : ObjectId) (edited notified : bool)
| CHANNEL_ANSWER (from : From.t) (questionId : ObjectId) (now : Date)
| VOTE_UP (from : From.t) (answerId : ObjectId) (now : Date)
| VOTE_DOWN (from : From.t) (answerId : ObjectId) (now : Date)
| VOTE_NONE (from : From.t) (answerId : ObjectId)
| SUBSCRIBE (from : From.t) (questionId : ObjectId) (now : Date)
| UNSUBSCRIBE (from : From.t) (questionId : ObjectId)
| MARK_ALL_READ (from : From.t)
| SEND_FEEDBACK (from : From.t) (now : Date)
| Text (from : From.t) (userMessage : text) (replied forwarded : bool)
    (now : Date).

(** The handler that runs on an update.  An update stands for one run of a
    handler, with the values the handler reads from its context; the
    remaining handlers of the source (menus, profile, leaderboard,
    statistics, browsing) only read the database.

    Which handler Telegraf picks for a Telegram update is not modelled, and
    every handler may run on any input, so the runs of the model include
    those of the bot and some more:
    - a message that is a registered command ([/start], [/ask],
      [/myprofile], [/settings], [/help], [/admin]) is taken by the
      command's handler and never reaches [bot.on('text')]; a text that does
      not begin with [/] is no command and always reaches it;
    - callback data is tried against the patterns in the order of their
      registration, and [/SUBSCRIBE_(.+)/], registered first and not
      anchored, also matches data of the form [UNSUBSCRIBE_<id>]: a button
      of the bot never runs the handler of [UNSUBSCRIBE];
    - [bot.command('start')] sets no [ctx.startPayload], so the bot runs
      [Start] without payload only. *)
Definition handle (db : Db.t) (u : Update) : Db.t * list Out :=
  match u with
  | Start from p now => on_start db from p now
  | Ask from now => on_ask db from now
  | START_QUESTION from now => on_START_QUESTION db from now
  | TOPIC from i now => on_TOPIC db from i now
  | SHOW_TOPICS from now => on_SHOW_TOPICS db from now
  | EDIT_QUESTION from now => on_EDIT_QUESTION db from now
  | CANCEL_EDIT from now => on_CANCEL_EDIT db from now
  | SUBMIT_QUESTION from e f now => on_SUBMIT_QUESTION db from e f now
  | APPROVE from q p e now => on_APPROVE db from q p e now
  | REJECT from q e n => on_REJECT db from q e n
  | CHANNEL_ANSWER from q now => on_CHANNEL_ANSWER db from q now
  | VOTE_UP from a now => on_VOTE_UP db from a now
  | VOTE_DOWN from a now => on_VOTE_DOWN db from a now
  | VOTE_NONE from a => on_VOTE_NONE db from a
  | SUBSCRIBE from q now => on_SUBSCRIBE db from q now
  | UNSUBSCRIBE from q => on_UNSUBSCRIBE db from q
  | MARK_ALL_READ from => on_MARK_ALL_READ db from
  | SEND_FEEDBACK from now => on_SEND_FEEDBACK db from now
  | Text from m r f now => on_text db from m r f now
  end.

(** The database after a sequence of updates, handled one at a time. *)
Definition run (db : Db.t) (us : list Update) : Db.t :=
  fold_left (fun d u => fst (handle d u)) us db.

(** The databases the bot can be in: it starts with empty collections. *)
Inductive reachable : Db.t -> Prop :=
| reachable_empty : reachable Db.empty
| reachable_step db u : reachable db -> reachable (fst (handle db u)).

End Bot.

(** ** The rules of the content filter, as properties of the text *)

(** [w] occurs in [t] up to the case of the letters A-Z. *)
Definition occurs_ignoring_case (w t : text) : Prop :=
  exists pre mid post, t = pre ++ mid ++ post /\ toLowerCase mid = w.

Definition ContainsBanned (t : text) : Prop :=
  exists w, In w bannedWords /\ occurs_ignoring_case w t.

Definition TooLong (t : text) : Prop := 2000 < JsString.length t.

(** More than 7/10 of the code units are capital letters, in a text of
    more than 20 code units. *)
Definition TooManyCapitals (t : text) : Prop :=
  7 * JsString.length t < 10 * capitalLetters t /\ 20 < JsString.length t.

(** [t] contains [n] consecutive copies of [c]. *)
Definition run_of (c : N) (n : nat) (t : text) : Prop :=
  exists pre post, t = pre ++ repeat c n ++ post.

(** A run of more than 10 copies of any one code unit. *)
Definition HasRun (t : text) : Prop :=
  exists c n, (10 < n)%nat /\ run_of c n t.

(** A run of more than 10 copies of a code unit that is not a line
    terminator. *)
Definition HasVisibleRun (t : text) : Prop :=
  exists c n, (10 < n)%nat /\ isLineTerminator c = false /\ run_of c n t.

(** The rules in their fixed order: the result is that of the first rule
    that fails.  [Long], [Capitals] and [Run] are the readings of the rules
    on length, on capital letters and on repetition. *)
Inductive evaluate (Long Capitals Run : text -> Prop) (t : text)
  : FilterResult -> Prop :=
| evaluate_banned :
    ContainsBanned t ->
    evaluate Long Capitals Run t
      (mkFilterResult false "Contains banned content")
| evaluate_long :
    ~ ContainsBanned t -> Long t ->
    evaluate Long Capitals Run t
      (mkFilterResult false "Content too long (max 2000 characters)")
| evaluate_capitals :
    ~ ContainsBanned t -> ~ Long t -> Capitals t ->
    evaluate Long Capitals Run t
      (mkFilterResult false "Too many capital letters")
| evaluate_repetitive :
    ~ ContainsBanned t -> ~ Long t -> ~ Capitals t -> Run t ->
    evaluate Long Capitals Run t
      (mkFilterResult false "Repetitive text detected")
| evaluate_allowed :
    ~ ContainsBanned t -> ~ Long t -> ~ Capitals t -> ~ Run t ->
    evaluate Long Capitals Run t (mkFilterResult true EmptyString).

(** The rules as [contentFilter] applies them: over UTF-16 code units, with
    the letters A-Z as capital letters and runs of a code unit that is not
    a line terminator. *)
Definition evaluate_code_units : text -> FilterResult -> Prop :=
  evaluate TooLong TooManyCapitals HasVisibleRun.

(** *** The rules over characters

    The rules read over the characters of the text: its length is the
    number of its characters, a run is a run of one character, whichever it
    is, and an uppercase letter is one of any alphabet. *)

Definition isHighSurrogate (u : N) : bool := ((55296 <=? u) && (u <=? 56319))%N.
Definition isLowSurrogate (u : N) : bool := ((56320 <=? u) && (u <=? 57343))%N.

(** The characters (code points) of a text: a high surrogate followed by a
    low one is one character, any other code unit is a character of its
    own. *)
Fixpoint characters (t : text) : list N :=
  match t with
  | [] => []
  | u :: t' =>
      match t' with
      | v :: t'' =>
          if isHighSurrogate u && isLowSurrogate v
          then (65536 + (u - 55296) * 1024 + (v - 56320))%N :: characters t''
          else u :: characters t'
      | [] => [u]
      end
  end.

(** The uppercase letters of the Latin, Greek and Cyrillic alphabets: A-Z,
    U+00C0-U+00DE without the multiplication sign, U+0391-U+03A9 (U+03A2 is
    unassigned) and U+0410-U+042F. *)
Definition isUppercaseLetter (c : N) : bool :=
  (((65 <=? c) && (c <=? 90))
   || ((192 <=? c) && (c <=? 222) && negb (c =? 215))
   || ((913 <=? c) && (c <=? 937) && negb (c =? 930))
   || ((1040 <=? c) && (c <=? 1071)))%N.

Definition numberOfCharacters (t : text) : Z :=
  Z.of_nat (List.length (characters t)).

Definition uppercaseLetters (t : text) : Z :=
  Z.of_nat (List.length (filter isUppercaseLetter (characters t))).

Definition TooManyCharacters (t : text) : Prop := 2000 < numberOfCharacters t.

Definition MostlyUppercase (t : text) : Prop :=
  7 * numberOfCharacters t < 10 * uppercaseLetters t
  /\ 20 < numberOfCharacters t.

Definition HasRunOfCharacters (t : text) : Prop := HasRun (characters t).

Definition evaluate_characters : text -> FilterResult -> Prop :=
  evaluate TooManyCharacters MostlyUppercase HasRunOfCharacters.

(** Two lines of text separated by eleven line feeds. *)
Definition blank_lines : text :=
  of_string "Hi" ++ repeat 10%N 11 ++ of_string "bye".

Definition fifteen_A : text := of_string "AAAAAAAAAAAAAAA".

(** The grinning face U+1F600, a surrogate pair, eleven times. *)
Definition eleven_faces : text := List.concat (repeat [55357; 56832]%N 11).

(** The faces U+1F600 and U+1F601 in turn: 1002 characters, 2004 code
    units. *)
Definition many_faces : text :=
  List.concat (repeat [55357; 56832; 55357; 56833]%N 501).

(** Sixteen capital letters and three faces: 19 characters, 22 code
    units. *)
Definition shouted_faces : text :=
  of_string "ABCDEFGHIJKLMNOP"
  ++ [55357; 56832; 55357; 56833; 55357; 56834]%N.

(** The 24 capital letters of the Greek alphabet. *)
Definition greek_capitals : text :=
  [913; 914; 915; 916; 917; 918; 919; 920; 921; 922; 923; 924; 925; 926; 927;
   928; 929; 931; 932; 933; 934; 935; 936; 937]%N.

(** ** Invariants and counts *)

(** The unique indexes declared by [setupDatabase]. *)
Definition subscription_key (s : Subscription.t) : UserId * ObjectId :=
  (Subscription.user_id s, Subscription.question_id s).

Definition subscription_unique (db : Db.t) : Prop :=
  NoDup (map subscription_key (Db.subscriptions db)).

Definition vote_key (v : Vote.t) : UserId * ObjectId :=
  (Vote.user_id v, Vote.answer_id v).

Definition vote_unique (db : Db.t) : Prop :=
  NoDup (map vote_key (Db.votes db)).

Definition user_unique (db : Db.t) : Prop :=
  NoDup (map User.user_id (Db.users db)).

Definition session_unique (db : Db.t) : Prop :=
  NoDup (map Session.user_id (Db.sessions db)).

(** The driver gives every inserted document its own [_id]. *)
Definition question_ids_unique (db : Db.t) : Prop :=
  NoDup (map Question._id (Db.questions db)).

(** The documents of a collection for one key. *)
Definition subscription_records (db : Db.t) (userId : UserId)
  (questionId : ObjectId) : list Subscription.t :=
  Mongo.findAll (same_subscription userId questionId) (Db.subscriptions db).

Definition vote_records (db : Db.t) (userId : UserId) (answerId : ObjectId)
  : list Vote.t :=
  Mongo.findAll (same_vote userId answerId) (Db.votes db).

Definition NotificationType_eqb (a b : NotificationType) : bool :=
  match a, b with
  | new_answer, new_answer
  | question_approved, question_approved
  | vote_received, vote_received => true
  | _, _ => false
  end.

(** How many notifications of type [type] a list holds for [userId]. *)
Definition received (type : NotificationType) (userId : UserId)
  (ns : list Notification.t) : nat :=
  List.length
    (filter
       (fun n => (Notification.user_id n =? userId)
                 && NotificationType_eqb (Notification.type n) type)
       ns).

(** The notification the fan-out writes for one recipient. *)
Definition new_answer_for (questionId : ObjectId) (userMessage : text)
  (userId : UserId) (now : Date) (recipient : UserId) : Notification.t :=
  Notification.mk recipient new_answer
    (NewAnswerData questionId userMessage userId) false now.

(** The notifications of a new answer by [userId]: one for the author
    unless the author is the answerer, then one for each subscriber that is
    neither the answerer nor the author. *)
Definition fan_out (questionId : ObjectId) (userMessage : text)
  (userId : UserId) (now : Date) (author : UserId) (subscribers : list UserId)
  : list Notification.t :=
  (if negb (author =? userId)
   then [new_answer_for questionId userMessage userId now author]
   else [])
  ++ map (new_answer_for questionId userMessage userId now)
       (filter (fun s => negb (s =? userId) && negb (s =? author)) subscribers).


(** The three statistics of a user document. *)
Definition stats (u : User.t) : Z * Z * Z :=
  (User.points u, User.questions_asked u, User.answers_given u).



(** The award: one more on the counter and five points. *)
Definition award (field : StatField) (u : User.t) : User.t :=
  inc_field f_points 5 (inc_field field 1 u).

(** ** The rank shown in the profile *)

(** [Array.prototype.sort((a, b) => b.points - a.points)]: the sort is
    stable, so its result is the one list with the same users, the points
    going down, and users with equal points in their earlier order.  It is
    built here by insertion, from the end of the array. *)
Fixpoint insert_by_points (u : User.t) (sorted : list User.t) : list User.t :=
  match sorted with
  | [] => [u]
  | v :: rest =>
      if User.points v <=? User.points u then u :: sorted
      else v :: insert_by_points u rest
  end.

Definition sort_by_points (users : list User.t) : list User.t :=
  fold_right insert_by_points [] users.

(** The order of the sorted array: points going down. *)
Definition by_points_down (a b : User.t) : Prop :=
  User.points b <= User.points a.

(** [Array.prototype.findIndex]: the index of the first element that
    satisfies [p], counted from [i], or -1. *)
Fixpoint findIndex_from {A : Type} (p : A -> bool) (l : list A) (i : Z) : Z :=
  match l with
  | [] => -1
  | d :: rest => if p d then i else findIndex_from p rest (i + 1)
  end.

Definition findIndex {A : Type} (p : A -> bool) (l : list A) : Z :=
  findIndex_from p l 0.

(** [userRank] and [totalUsers] of [bot.command('myprofile')] and
    [bot.action('USER_PROFILE')]. *)
Definition userRank (db : Db.t) (userId : UserId) : Z :=
  findIndex (fun u => User.user_id u =? userId)
    (sort_by_points (getAllUsers db)) + 1.

Definition totalUsers (db : Db.t) : Z :=
  Z.of_nat (List.length (getAllUsers db)).

(** ** The writes of the handlers *)

(** The user an update comes from. *)
Definition sender (u : Update) : From.t :=
  match u with
  | Start from _ _ | Ask from _ | START_QUESTION from _ | TOPIC from _ _
  | SHOW_TOPICS from _ | EDIT_QUESTION from _ | CANCEL_EDIT from _
  | SUBMIT_QUESTION from _ _ _ | APPROVE from _ _ _ _ | REJECT from _ _ _
  | CHANNEL_ANSWER from _ _ | VOTE_UP from _ _ | VOTE_DOWN from _ _
  | VOTE_NONE from _ | SUBSCRIBE from _ _ | UNSUBSCRIBE from _
  | MARK_ALL_READ from | SEND_FEEDBACK from _ | Text from _ _ _ _ => from
  end.

(** One write of a handler to the database, with what the handler has
    checked before it.  [operator] tells whether the update comes from the
    operator. *)
Inductive Write (operator : bool) (db : Db.t) : Db.t -> Prop :=
| write_user userId username now :
    Write operator db (fst (createUser db userId username now))
| write_session userId data now :
    (SessionData.step data = awaiting_answer ->
     exists questionId q,
       SessionData.questionId data = Some questionId
       /\ getQuestion db questionId = Some q
       /\ Question.approved q = true) ->
    Write operator db (saveSession db userId data now)
| write_session_end userId :
    Write operator db (deleteSession db userId)
| write_question userId username question topic now :
    allowed (contentFilter question) = true ->
    Write operator db
      (snd (createQuestion db userId username question topic now))
| write_approval questionId message_id :
    operator = true ->
    Write operator db (fst (approveQuestion db questionId message_id))
| write_rejection questionId :
    operator = true ->
    Write operator db
      (Db.set_questions
         (Mongo.deleteOne (fun q => (Question._id q =? questionId)%N)) db)
| write_answer questionId userId username answer channelMessageId now session :
    getSession db userId = Some session ->
    SessionData.step session = awaiting_answer ->
    SessionData.questionId session = Some questionId ->
    allowed (contentFilter answer) = true ->
    Write operator db
      (snd (createAnswer db questionId userId username answer
              channelMessageId now))
| write_subscription userId questionId now :
    Write operator db (fst (subscribeToQuestion db userId questionId now))
| write_unsubscription userId questionId :
    Write operator db (fst (unsubscribeFromQuestion db userId questionId))
| write_vote userId answerId voteType now :
    Write operator db (fst (voteAnswer db userId answerId voteType now))
| write_vote_removal userId answerId :
    Write operator db
      (Db.set_votes (Mongo.deleteOne (same_vote userId answerId)) db)
| write_notification userId type data now :
    Write operator db (fst (fst (createNotification db userId type data now)))
| write_all_read userId :
    Write operator db (fst (markAllNotificationsAsRead db userId)).

(** A sequence of writes. *)
Inductive Writes (operator : bool) : Db.t -> Db.t -> Prop :=
| writes_none db : Writes operator db db
| writes_more db db1 db2 :
    Write operator db db1 -> Writes operator db1 db2 ->
    Writes operator db db2.

(** Every identifier stored in the database has been handed out by the
    driver: the questions and answers, the question of an answer, the
    question of an open answer flow, the answer of a vote. *)
Definition ids_issued (db : Db.t) : Prop :=
  Forall (fun q => (Question._id q < Db.next_id db)%N) (Db.questions db)
  /\ Forall (fun a => (Answer._id a < Db.next_id db)%N
                      /\ (Answer.question_id a < Db.next_id db)%N)
       (Db.answers db)
  /\ Forall (fun s => SessionData.step (Session.data s) = awaiting_answer ->
                      exists questionId,
                        SessionData.questionId (Session.data s) = Some questionId
                        /\ (questionId < Db.next_id db)%N)
       (Db.sessions db)
  /\ Forall (fun v => (Vote.answer_id v < Db.next_id db)%N) (Db.votes db).

Definition answer_ids_unique (db : Db.t) : Prop :=
  NoDup (map Answer._id (Db.answers db)).

(** The counter of a question is the number of its answers. *)
Definition answer_counts_hold (db : Db.t) : Prop :=
  Forall
    (fun q => Question.answer_count q
              = getAnswerCountForQuestion db (Question._id q))
    (Db.questions db).

(** Stored texts have passed the content filter. *)
Definition moderated (db : Db.t) : Prop :=
  Forall (fun q => allowed (contentFilter (Question.question q)) = true)
    (Db.questions db)
  /\ Forall (fun a => allowed (contentFilter (Answer.answer a)) = true)
       (Db.answers db).

(** An approved question has its channel message. *)
Definition published (db : Db.t) : Prop :=
  Forall (fun q => Question.approved q = true ->
                   Question.channel_message_id q <> None)
    (Db.questions db).

(** Every vote is on an answer that exists, by somebody else than its
    author. *)
Definition votes_by_others (db : Db.t) : Prop :=
  Forall
    (fun v => exists a,
                getAnswerWithVotes db (Vote.answer_id v) = Some a
                /\ Answer.user_id a <> Vote.user_id v)
    (Db.votes db).

(** What the lifecycle of a question is about: its identifier, author and
    text, and whether and where it is published. *)
Definition lifecycle (q : Question.t)
  : ObjectId * UserId * text * bool * option Z :=
  (Question._id q, Question.user_id q, Question.question q,
   Question.approved q, Question.channel_message_id q).

(** A notification of the first list has become the one at the same place
    of the second, unchanged or marked read. *)
Definition kept_or_read (old new : list Notification.t) : Prop :=
  Forall2 (fun n n' => n' = n \/ n' = set_read n) old new.

(** Answers, and the sessions that wait for one, are on approved
    questions, as far as the question is still there. *)
Definition answers_on_approved (db : Db.t) : Prop :=
  Forall
    (fun s => SessionData.step (Session.data s) = awaiting_answer ->
              forall questionId q,
                SessionData.questionId (Session.data s) = Some questionId ->
                getQuestion db questionId = Some q ->
                Question.approved q = true)
    (Db.sessions db)
  /\ Forall
       (fun a => forall q,
                   getQuestion db (Answer.question_id a) = Some q ->
                   Question.approved q = true)
       (Db.answers db).

(** ** A scenario *)

Definition operator_id : UserId := 1.
Definition operator : From.t :=
  From.mk operator_id (Some (of_string "operator")) (of_string "Operator").
Definition alice : From.t :=
  From.mk 10 (Some (of_string "alice")) (of_string "Alice").
Definition bob : From.t := From.mk 20 None (of_string "Bob").
Definition carol : From.t := From.mk 30 None (of_string "Carol").

(** Alice asks a question (it gets the identifier 0) and the operator
    approves it with the channel message 42. *)
Definition script_approved : list Update :=
  [ Start alice None 100; Start bob None 101; Start carol None 102;
    Ask alice 103;
    Text alice (of_string "Is this normal???") true true 104;
    TOPIC alice 1 105;
    SUBMIT_QUESTION alice true true 106;
    APPROVE operator 0%N (Some 42) true 107 ].

Definition db_approved : Db.t := run operator_id Db.empty script_approved.

(** Bob answers Alice's question (the answer gets the identifier 1). *)
Definition script_answered : list Update :=
  script_approved ++
  [ CHANNEL_ANSWER bob 0%N 108;
    Text bob (of_string "Yes it is") true true 109 ].

Definition db_answered : Db.t := run operator_id Db.empty script_answered.

(** Carol votes Bob's answer up. *)
Definition db_upvoted : Db.t :=
  fst (handle operator_id db_answered (VOTE_UP carol 1%N 110)).

(** Carol then votes it down. *)
Definition db_downvoted : Db.t :=
  fst (handle operator_id db_upvoted (VOTE_DOWN carol 1%N 111)).

(** Or Carol clears her vote instead. *)
Definition db_cleared : Db.t :=
  fst (handle operator_id db_upvoted (VOTE_NONE carol 1%N)).

(** Carol subscribes to Alice's question and Bob opens the answer flow. *)
Definition script_answering : list Update :=
  script_approved ++
  [ SUBSCRIBE carol 0%N 108; CHANNEL_ANSWER bob 0%N 108 ].

Definition db_answering : Db.t := run operator_id Db.empty script_answering.

Definition alices_question : Question.t :=
  Question.mk 0%N 10 (of_string "alice") (of_string "Is this normal???")
    (nth 1 TOPICS []) true (Some 42) 0 106.

Definition bobs_session : SessionData.t :=
  answerSession 0%N alices_question.

Definition bobs_answer : Answer.t :=
  Answer.mk 1%N 0%N 20 (of_string "Bob") (of_string "Yes it is") (Some 42) 0 109.

(** The operator deletes Alice's question while Bob's answer flow is open. *)
Definition db_orphaned : Db.t :=
  fst (handle operator_id db_answering (REJECT operator 0%N true true)).

(** Carol drafts a question of her own: the text and the topic are chosen
    and the preview waits for her confirmation. *)
Definition db_drafted : Db.t :=
  run operator_id db_answered
    [ Ask carol 200;
      Text carol (of_string "Why is the sky blue?") true true 201;
      TOPIC carol 2 202 ].

(** * Properties *)

(** ** Strings *)

Lemma startsWith_app (t w : text) :
  startsWith t w = true <-> exists post, t = w ++ post.
Proof.
  revert t; induction w as [|c w IH]; intros t; cbn.
  - split; [intros _; now exists t | reflexivity].
  - destruct t as [|u t]; cbn.
    + split; [discriminate | intros [post H]; discriminate].
    + rewrite andb_true_iff, N.eqb_eq, IH. split.
      * intros [-> [post ->]]. now exists post.
      * intros [post H]. injection H as -> ->. split; [reflexivity | now exists post].
Qed.

Lemma includes_app (t w : text) :
  includes t w = true <-> exists pre post, t = pre ++ w ++ post.
Proof.
  induction t as [|u t IH]; cbn [includes]; rewrite orb_true_iff, startsWith_app.
  - split.
    + intros [[post H] | H]; [| discriminate]. now exists [], post.
    + intros [pre [post H]]. left.
      destruct pre; [now exists post | discriminate].
  - rewrite IH. split.
    + intros [[post H] | [pre [post H]]].
      * now exists [], post.
      * exists (u :: pre), post. now rewrite H.
    + intros [pre [post H]]. destruct pre as [|p pre]; cbn in H.
      * left. now exists post.
      * right. injection H as _ ->. now exists pre, post.
Qed.

Lemma includes_toLowerCase (t w : text) :
  includes (toLowerCase t) w = true <-> occurs_ignoring_case w t.
Proof.
  rewrite includes_app. unfold occurs_ignoring_case, toLowerCase. split.
  - intros [pre [post H]].
    apply map_eq_app in H as [pre' [rest [-> [Hpre H]]]].
    apply map_eq_app in H as [mid [post' [-> [Hmid Hpost]]]].
    now exists pre', mid, post'.
  - intros [pre [mid [post [-> H]]]].
    exists (map lowerUnit pre), (map lowerUnit post).
    now rewrite !map_app, H.
Qed.

Lemma banned_check (t : text) :
  existsb (fun word => includes (toLowerCase t) word) bannedWords = true
  <-> ContainsBanned t.
Proof.
  rewrite existsb_exists. unfold ContainsBanned.
  split; intros [w [Hin H]]; exists w; (split; [exact Hin |]);
    now apply includes_toLowerCase.
Qed.

Lemma startsWithCopies_app (c : N) (n : nat) (t : text) :
  startsWithCopies c n t = true <-> exists post, t = repeat c n ++ post.
Proof.
  revert t; induction n as [|n IH]; intros t; cbn.
  - split; [intros _; now exists t | reflexivity].
  - destruct t as [|u t].
    + split; [discriminate | intros [post H]; discriminate].
    + rewrite andb_true_iff, N.eqb_eq, IH. split.
      * intros [-> [post ->]]. now exists post.
      * intros [post H]. injection H as -> ->. split; [reflexivity | now exists post].
Qed.

Lemma repetitivePattern_test_run (t : text) :
  repetitivePattern_test t = true <-> HasVisibleRun t.
Proof.
  unfold HasVisibleRun, run_of. induction t as [|u t IH]; cbn [repetitivePattern_test].
  - split; [discriminate |].
    intros [c [n [Hn [_ [pre [post H]]]]]].
    destruct pre; [| discriminate].
    destruct n; [lia | discriminate].
  - rewrite orb_true_iff, andb_true_iff, negb_true_iff, startsWithCopies_app, IH.
    split.
    + intros [[Hu [post H]] | [c [n [Hn [Hc [pre [post H]]]]]]].
      * exists u, 11%nat. split; [lia |]. split; [exact Hu |].
        exists [], post. now rewrite H.
      * exists c, n. split; [exact Hn |]. split; [exact Hc |].
        exists (u :: pre), post. now rewrite H.
    + intros [c [n [Hn [Hc [pre [post H]]]]]].
      destruct pre as [|p pre]; cbn in H.
      * left. destruct n as [|n]; [lia |]. cbn in H. injection H as -> ->.
        split; [exact Hc |].
        exists (repeat c (n - 10) ++ post).
        rewrite app_assoc, <- repeat_app. do 2 f_equal. lia.
      * right. injection H as _ ->. exists c, n.
        split; [exact Hn |]. split; [exact Hc |]. now exists pre, post.
Qed.

Lemma capital_check (t : text) :
  capitalRatio_gt_0_7 (capitalLetters t) (JsString.length t)
  && (20 <? JsString.length t) = true
  <-> TooManyCapitals t.
Proof.
  unfold capitalRatio_gt_0_7, TooManyCapitals.
  now rewrite andb_true_iff, !Z.ltb_lt.
Qed.

(** ** The content filter *)

Lemma contentFilter_evaluate (t : text) :
  evaluate_code_units t (contentFilter t).
Proof.
  unfold evaluate_code_units, contentFilter.
  destruct (existsb _ bannedWords) eqn:Hb.
  { apply evaluate_banned. now apply banned_check. }
  assert (~ ContainsBanned t) as Nb
    by (intros H; apply banned_check in H; congruence).
  destruct (2000 <? JsString.length t) eqn:Hl.
  { apply evaluate_long; [exact Nb | now apply Z.ltb_lt]. }
  assert (~ TooLong t) as Nl
    by (unfold TooLong; intros H; apply Z.ltb_lt in H; congruence).
  destruct (capitalRatio_gt_0_7 _ _ && _) eqn:Hc.
  { apply evaluate_capitals; [exact Nb | exact Nl | now apply capital_check]. }
  assert (~ TooManyCapitals t) as Nc
    by (intros H; apply capital_check in H; congruence).
  destruct (repetitivePattern_test t) eqn:Hr.
  { apply evaluate_repetitive; auto. now apply repetitivePattern_test_run. }
  apply evaluate_allowed; auto.
  intros H; apply repetitivePattern_test_run in H; congruence.
Qed.

Lemma evaluate_functional (Long Capitals Run : text -> Prop) (t : text)
  (r r' : FilterResult) :
  evaluate Long Capitals Run t r -> evaluate Long Capitals Run t r' -> r = r'.
Proof.
  intros H H'; destruct H; destruct H'; (reflexivity || contradiction).
Qed.

(** A run in a text without line terminators is a run that the regular
    expression finds. *)
Lemma HasRun_visible (t : text) :
  forallb (fun c => negb (isLineTerminator c)) t = true ->
  HasRun t -> HasVisibleRun t.
Proof.
  intros Hall [c [n [Hn [pre [post E]]]]].
  exists c, n. split; [exact Hn |]. split; [| now exists pre, post].
  rewrite forallb_forall in Hall. apply negb_true_iff, Hall.
  rewrite E. apply in_or_app. right. apply in_or_app. left.
  destruct n as [|n]; [lia | now left].
Qed.

Lemma no_run_of_characters (t : text) :
  forallb (fun c => negb (isLineTerminator c)) (characters t) = true ->
  repetitivePattern_test (characters t) = false ->
  ~ HasRunOfCharacters t.
Proof.
  intros Hall Htest H. apply (HasRun_visible _ Hall) in H.
  apply repetitivePattern_test_run in H. congruence.
Qed.

Ltac not_banned :=
  let H := fresh in
  intros H; apply banned_check in H; vm_compute in H; discriminate.

Ltac not_long :=
  unfold TooManyCharacters, numberOfCharacters; vm_compute; discriminate.

Ltac not_capitals :=
  let H := fresh in
  unfold MostlyUppercase, numberOfCharacters, uppercaseLetters;
  intros [H H']; vm_compute in H, H'; discriminate.

(** C6, as the code has it.  For every text, taken as its sequence of
    UTF-16 code units, the result of [contentFilter] is the one the rules
    give when they are tried in the fixed order: a banned substring
    (ignoring case); more than 2000 code units; more than 7/10 of the code
    units are letters A-Z, in a text of more than 20 code units; a run of
    more than 10 copies of one code unit that is not a line terminator.
    The first rule that fails gives the reason, and the text is allowed
    exactly when none fails. *)
Theorem contentFilter_first_failing_rule (t : text) (r : FilterResult) :
  contentFilter t = r <-> evaluate TooLong TooManyCapitals HasVisibleRun t r.
Proof.
  split.
  - intros <-. apply contentFilter_evaluate.
  - intros H.
    exact (evaluate_functional _ _ _ _ _ _ (contentFilter_evaluate t) H).
Qed.

(** C6, as stated, fails in each of its rules on length, capital letters and
    repetition, because [contentFilter] counts UTF-16 code units and the
    letters A-Z, and its regular expression skips line terminators:
    - eleven consecutive line feeds are a run of more than 10 copies of one
      character, and the text is allowed;
    - eleven copies of one emoji are such a run too, and the text is
      allowed (its code units alternate);
    - a text of 1002 characters without a run is refused as too long (it has
      2004 code units);
    - a text of 19 characters, 16 of them capital letters, is refused for
      its capital letters (it has 22 code units);
    - the 24 capital letters of the Greek alphabet are allowed. *)
Lemma contentFilter_departs_from_the_stated_rules :
  (evaluate_characters blank_lines
     (mkFilterResult false "Repetitive text detected")
   /\ contentFilter blank_lines = mkFilterResult true EmptyString)
  /\ (evaluate_characters eleven_faces
        (mkFilterResult false "Repetitive text detected")
      /\ contentFilter eleven_faces = mkFilterResult true EmptyString)
  /\ (evaluate_characters many_faces (mkFilterResult true EmptyString)
      /\ contentFilter many_faces
         = mkFilterResult false "Content too long (max 2000 characters)")
  /\ (evaluate_characters shouted_faces (mkFilterResult true EmptyString)
      /\ contentFilter shouted_faces
         = mkFilterResult false "Too many capital letters")
  /\ (evaluate_characters greek_capitals
        (mkFilterResult false "Too many capital letters")
      /\ contentFilter greek_capitals = mkFilterResult true EmptyString).
Proof.
  split; [| split; [| split; [| split]]];
    (split; [| vm_compute; reflexivity]).
  - apply evaluate_repetitive; [not_banned | not_long | not_capitals |].
    exists 10%N, 11%nat. split; [lia |].
    exists (of_string "Hi"), (of_string "bye"). reflexivity.
  - apply evaluate_repetitive; [not_banned | not_long | not_capitals |].
    exists 128512%N, 11%nat. split; [lia |]. exists [], []. reflexivity.
  - apply evaluate_allowed; [not_banned | not_long | not_capitals |].
    apply no_run_of_characters; vm_compute; reflexivity.
  - apply evaluate_allowed; [not_banned | not_long | not_capitals |].
    apply no_run_of_characters; vm_compute; reflexivity.
  - apply evaluate_capitals; [not_banned | not_long |].
    unfold MostlyUppercase, numberOfCharacters, uppercaseLetters.
    split; vm_compute; reflexivity.
Qed.

(** C7.  The text of fifteen letters A is rejected as repetitive: it is 15
    code units long, so neither the length rule nor the rule on capital
    letters (which needs more than 20) applies, and it holds no banned
    word. *)
Theorem contentFilter_fifteen_A :
  contentFilter fifteen_A = mkFilterResult false "Repetitive text detected"
  /\ JsString.length fifteen_A = 15
  /\ ~ ContainsBanned fifteen_A
  /\ ~ TooLong fifteen_A
  /\ ~ TooManyCapitals fifteen_A.
Proof.
  split; [vm_compute; reflexivity |].
  split; [vm_compute; reflexivity |].
  split; [| split].
  - intros H. apply banned_check in H. vm_compute in H. discriminate.
  - unfold TooLong. vm_compute. discriminate.
  - intros H. apply capital_check in H. vm_compute in H. discriminate.
Qed.

(** X19.  A banned word is found in any mix of upper and lower case, wherever it
    stands, and the text is then rejected for its content whatever else it
    holds. *)
Theorem banned_word_in_any_case_is_rejected (pre mid post w : text) :
  In w bannedWords ->
  toLowerCase mid = w ->
  contentFilter (pre ++ mid ++ post)
  = mkFilterResult false "Contains banned content".
Proof.
  intros Hw Hmid. unfold contentFilter.
  assert (existsb (fun word => includes (toLowerCase (pre ++ mid ++ post)) word)
            bannedWords = true) as ->; [| reflexivity].
  apply banned_check. exists w. split; [exact Hw |]. now exists pre, mid, post.
Qed.

(** X20.  A text of more than 2000 code units is never allowed. *)
Theorem long_text_is_rejected (t : text) :
  2000 < JsString.length t -> allowed (contentFilter t) = false.
Proof.
  intros H. unfold contentFilter.
  destruct (existsb _ bannedWords); [reflexivity |].
  apply Z.ltb_lt in H. now rewrite H.
Qed.

Lemma banned_word_in_any_case_is_rejected_witness :
  In (of_string "spam") bannedWords
  /\ toLowerCase (of_string "SpAm") = of_string "spam"
  /\ contentFilter (of_string "buy " ++ of_string "SpAm" ++ of_string " now")
     = mkFilterResult false "Contains banned content".
Proof.
  assert (In (of_string "spam") bannedWords) as H by (left; reflexivity).
  split; [exact H |]. split; [reflexivity |].
  exact (banned_word_in_any_case_is_rejected (of_string "buy ")
           (of_string "SpAm") (of_string " now") (of_string "spam") H eq_refl).
Defined.

Lemma long_text_is_rejected_witness :
  2000 < JsString.length (repeat 120%N 2001)
  /\ allowed (contentFilter (repeat 120%N 2001)) = false.
Proof.
  assert (2000 < JsString.length (repeat 120%N 2001)) as H
    by (vm_compute; reflexivity).
  split; [exact H |].
  exact (long_text_is_rejected (repeat 120%N 2001) H).
Defined.

(** ** The driver calls *)

Section MongoFacts.
Context {A : Type}.
Implicit Types (p q : A -> bool) (f : A -> A) (c : list A).

Lemma findOne_updateOne_same p f c :
  (forall d, p d = true -> p (f d) = true) ->
  Mongo.findOne p (Mongo.updateOne p f c) = option_map f (Mongo.findOne p c).
Proof.
  intros Hf. unfold Mongo.findOne. induction c as [|d c IH]; cbn; [reflexivity |].
  destruct (p d) eqn:Hd; cbn.
  - now rewrite (Hf d Hd).
  - now rewrite Hd.
Qed.

Lemma findOne_updateOne_other p q f c :
  (forall d, q (f d) = q d) ->
  (forall d, q d = true -> p d = false) ->
  Mongo.findOne q (Mongo.updateOne p f c) = Mongo.findOne q c.
Proof.
  intros Hf Hpq. unfold Mongo.findOne. induction c as [|d c IH]; cbn; [reflexivity |].
  destruct (p d) eqn:Hd; cbn.
  - rewrite Hf. destruct (q d) eqn:Hq; [| reflexivity].
    apply Hpq in Hq. congruence.
  - now rewrite IH.
Qed.

Lemma findOne_none_updateOne p f c :
  Mongo.findOne p c = None -> Mongo.updateOne p f c = c.
Proof.
  unfold Mongo.findOne. induction c as [|d c IH]; cbn; [reflexivity |].
  destruct (p d); [discriminate |]. intros H. now rewrite IH.
Qed.

Lemma findOne_none_deleteOne p c :
  Mongo.findOne p c = None -> Mongo.deleteOne p c = c.
Proof.
  unfold Mongo.findOne. induction c as [|d c IH]; cbn; [reflexivity |].
  destruct (p d); [discriminate |]. intros H. now rewrite IH.
Qed.

Lemma findOne_existsb p c :
  existsb p c = match Mongo.findOne p c with Some _ => true | None => false end.
Proof.
  unfold Mongo.findOne. induction c as [|d c IH]; cbn; [reflexivity |].
  destruct (p d); [reflexivity | exact IH].
Qed.

Lemma findOne_insertOne p d c :
  Mongo.findOne p (Mongo.insertOne d c)
  = match Mongo.findOne p c with
    | Some d' => Some d'
    | None => if p d then Some d else None
    end.
Proof.
  unfold Mongo.findOne, Mongo.insertOne. induction c as [|d' c IH]; cbn.
  - reflexivity.
  - destruct (p d'); [reflexivity | exact IH].
Qed.

Lemma map_updateOne {K : Type} (key : A -> K) p f c :
  (forall d, key (f d) = key d) ->
  map key (Mongo.updateOne p f c) = map key c.
Proof.
  intros Hf. induction c as [|d c IH]; cbn; [reflexivity |].
  destruct (p d); cbn; [now rewrite Hf | now rewrite IH].
Qed.

Lemma Forall_updateOne (P : A -> Prop) p f c :
  (forall d, P d -> P (f d)) -> Forall P c -> Forall P (Mongo.updateOne p f c).
Proof.
  intros Hf H. induction H as [|d c Hd H IH]; cbn; [constructor |].
  destruct (p d); constructor; auto.
Qed.

Lemma Forall_deleteOne (P : A -> Prop) p c :
  Forall P c -> Forall P (Mongo.deleteOne p c).
Proof.
  intros H. induction H as [|d c Hd H IH]; cbn; [constructor |].
  destruct (p d); [exact H | now constructor].
Qed.

Lemma Forall_upsertOne (P : A -> Prop) p f fresh c :
  (forall d, P d -> P (f d)) -> P fresh -> Forall P c ->
  Forall P (Mongo.upsertOne p f fresh c).
Proof.
  intros Hf Hfresh H. unfold Mongo.upsertOne, Mongo.insertOne.
  destruct (existsb p c).
  - now apply Forall_updateOne.
  - apply Forall_app. split; [exact H | now constructor].
Qed.

Lemma deleteOne_incl p c d : In d (Mongo.deleteOne p c) -> In d c.
Proof.
  induction c as [|d' c IH]; cbn; [tauto |].
  destruct (p d'); cbn; tauto.
Qed.

Lemma NoDup_map_deleteOne {K : Type} (key : A -> K) p c :
  NoDup (map key c) -> NoDup (map key (Mongo.deleteOne p c)).
Proof.
  induction c as [|d c IH]; cbn; [trivial |].
  intros H. inversion H as [|k ks Hk Hks]; subst.
  destruct (p d); [exact Hks |]. cbn. constructor; [| now apply IH].
  intros Hin. apply Hk. apply in_map_iff in Hin as [d' [Hd' Hin]].
  apply in_map_iff. exists d'. split; [exact Hd' | now apply deleteOne_incl in Hin].
Qed.

(** An upsert on a key keeps the key unique. *)
Lemma NoDup_map_upsertOne {K : Type} (key : A -> K) (k : K) p f fresh c :
  (forall d, p d = true <-> key d = k) ->
  (forall d, key (f d) = key d) ->
  key fresh = k ->
  NoDup (map key c) -> NoDup (map key (Mongo.upsertOne p f fresh c)).
Proof.
  intros Hp Hf Hfresh H. unfold Mongo.upsertOne, Mongo.insertOne.
  destruct (existsb p c) eqn:He.
  - now rewrite map_updateOne.
  - rewrite map_app. cbn. apply NoDup_app; [exact H | | ].
    + repeat constructor. intros [].
    + intros x Hx [<- | []].
      apply in_map_iff in Hx as [d [Hd Hin]].
      assert (existsb p c = true); [| congruence].
      apply existsb_exists. exists d. split; [exact Hin |].
      apply Hp. congruence.
Qed.

Lemma filter_absent_key {K : Type} (key : A -> K) (k : K) p c :
  (forall d, p d = true <-> key d = k) ->
  ~ In k (map key c) -> filter p c = [].
Proof.
  intros Hp. induction c as [|d c IH]; cbn; [reflexivity |].
  intros Hk. destruct (p d) eqn:Hd.
  - exfalso. apply Hk. left. now apply Hp.
  - apply IH. intros Hin. apply Hk. now right.
Qed.

(** With a unique key, no document for the key is left after [deleteOne]. *)
Lemma filter_deleteOne_unique {K : Type} (key : A -> K) (k : K) p c :
  (forall d, p d = true <-> key d = k) ->
  NoDup (map key c) -> filter p (Mongo.deleteOne p c) = [].
Proof.
  intros Hp. induction c as [|d c IH]; cbn; [trivial |].
  intros H. inversion H as [|k' ks Hk Hks]; subst.
  destruct (p d) eqn:Hd.
  - apply (filter_absent_key key k); [exact Hp |].
    apply Hp in Hd. congruence.
  - cbn. rewrite Hd. now apply IH.
Qed.

(** Documents for other keys are not touched by [deleteOne]. *)
Lemma filter_deleteOne_other p q c :
  (forall d, q d = true -> p d = false) ->
  filter q (Mongo.deleteOne p c) = filter q c.
Proof.
  intros Hpq. induction c as [|d c IH]; cbn; [reflexivity |].
  destruct (p d) eqn:Hd; cbn.
  - destruct (q d) eqn:Hq; [| reflexivity]. apply Hpq in Hq. congruence.
  - now rewrite IH.
Qed.

Lemma filter_unique_length {K : Type} (key : A -> K) (k : K) p c :
  (forall d, p d = true <-> key d = k) ->
  NoDup (map key c) -> (List.length (filter p c) <= 1)%nat.
Proof.
  intros Hp. induction c as [|d c IH]; cbn; [lia |].
  intros H. inversion H as [|k' ks Hk Hks]; subst.
  destruct (p d) eqn:Hd; [| now apply IH].
  cbn. rewrite (filter_absent_key key k); [cbn; lia | exact Hp |].
  apply Hp in Hd. congruence.
Qed.

End MongoFacts.

Section MongoFacts2.
Context {A : Type}.
Implicit Types (p : A -> bool) (f : A -> A) (c : list A).

Lemma updateOne_id p c : Mongo.updateOne p (fun d => d) c = c.
Proof.
  induction c as [|d c IH]; cbn; [reflexivity |].
  destruct (p d); [reflexivity | now rewrite IH].
Qed.

Lemma existsb_upsertOne p f fresh c :
  (forall d, p d = true -> p (f d) = true) -> p fresh = true ->
  existsb p (Mongo.upsertOne p f fresh c) = true.
Proof.
  intros Hf Hfresh. unfold Mongo.upsertOne, Mongo.insertOne.
  destruct (existsb p c) eqn:He.
  - rewrite findOne_existsb, findOne_updateOne_same by exact Hf.
    rewrite findOne_existsb in He. now destruct (Mongo.findOne p c).
  - rewrite existsb_app. cbn. now rewrite Hfresh, orb_true_r.
Qed.

Lemma upsertOne_found p f fresh c :
  existsb p c = true -> Mongo.upsertOne p f fresh c = Mongo.updateOne p f c.
Proof. unfold Mongo.upsertOne. now intros ->. Qed.

Lemma upsertOne_missing p f fresh c :
  existsb p c = false -> Mongo.upsertOne p f fresh c = Mongo.insertOne fresh c.
Proof. unfold Mongo.upsertOne. now intros ->. Qed.

Lemma filter_nonempty_of_existsb p c :
  existsb p c = true -> (1 <= List.length (filter p c))%nat.
Proof.
  induction c as [|d c IH]; cbn; [discriminate |].
  destruct (p d); cbn; [lia | exact IH].
Qed.

End MongoFacts2.

(** Projections of a database built by the setters. *)
Ltac db_simpl :=
  unfold Db.set_users, Db.set_questions, Db.set_answers, Db.set_sessions,
    Db.set_subscriptions, Db.set_votes, Db.set_notifications, Db.fresh_id;
  cbn [fst snd Db.users Db.questions Db.answers Db.sessions Db.subscriptions
       Db.votes Db.notifications Db.next_id].

(** ** Keys *)

Lemma same_subscription_key (userId : UserId) (questionId : ObjectId)
  (s : Subscription.t) :
  same_subscription userId questionId s = true
  <-> subscription_key s = (userId, questionId).
Proof.
  unfold same_subscription, subscription_key.
  rewrite andb_true_iff, Z.eqb_eq, N.eqb_eq.
  split; [intros [-> ->]; reflexivity | intros H; now injection H].
Qed.

Lemma same_vote_key (userId : UserId) (answerId : ObjectId) (v : Vote.t) :
  same_vote userId answerId v = true <-> vote_key v = (userId, answerId).
Proof.
  unfold same_vote, vote_key.
  rewrite andb_true_iff, Z.eqb_eq, N.eqb_eq.
  split; [intros [-> ->]; reflexivity | intros H; now injection H].
Qed.

(** ** Subscriptions *)

Lemma subscribeToQuestion_unique (db : Db.t) (userId : UserId)
  (questionId : ObjectId) (now : Date) :
  subscription_unique db ->
  subscription_unique (fst (subscribeToQuestion db userId questionId now)).
Proof.
  unfold subscription_unique, subscribeToQuestion. db_simpl. intros H.
  apply (NoDup_map_upsertOne subscription_key (userId, questionId)); auto.
  apply same_subscription_key.
Qed.

Lemma unsubscribeFromQuestion_unique (db : Db.t) (userId : UserId)
  (questionId : ObjectId) :
  subscription_unique db ->
  subscription_unique (fst (unsubscribeFromQuestion db userId questionId)).
Proof.
  unfold subscription_unique, unsubscribeFromQuestion. db_simpl.
  apply NoDup_map_deleteOne.
Qed.

Lemma same_subscription_fresh (userId : UserId) (questionId : ObjectId)
  (now : Date) :
  same_subscription userId questionId (Subscription.mk userId questionId now)
  = true.
Proof.
  unfold same_subscription. cbn. now rewrite Z.eqb_refl, N.eqb_refl.
Qed.

(** C9.  Subscribing a user to a question twice succeeds both times, the
    second call leaves the database as the first one left it (so the
    document, with its creation time, is the one of the first call), and
    exactly one subscription document exists for the pair afterwards. *)
Theorem subscribe_twice_is_subscribe_once (db : Db.t) (userId : UserId)
  (questionId : ObjectId) (t1 t2 : Date) :
  subscription_unique db ->
  snd (subscribeToQuestion db userId questionId t1) = true
  /\ snd (subscribeToQuestion
            (fst (subscribeToQuestion db userId questionId t1))
            userId questionId t2) = true
  /\ fst (subscribeToQuestion
            (fst (subscribeToQuestion db userId questionId t1))
            userId questionId t2)
     = fst (subscribeToQuestion db userId questionId t1)
  /\ List.length
       (subscription_records
          (fst (subscribeToQuestion
                  (fst (subscribeToQuestion db userId questionId t1))
                  userId questionId t2))
          userId questionId) = 1%nat.
Proof.
  intros Hu.
  assert (fst (subscribeToQuestion
                 (fst (subscribeToQuestion db userId questionId t1))
                 userId questionId t2)
          = fst (subscribeToQuestion db userId questionId t1)) as Hsame.
  { destruct db as [us qs ans ss subs vs ns nid].
    unfold subscribeToQuestion. db_simpl. f_equal.
    rewrite upsertOne_found
      by (apply existsb_upsertOne; auto using same_subscription_fresh).
    apply updateOne_id. }
  split; [reflexivity |]. split; [reflexivity |]. split; [exact Hsame |].
  rewrite Hsame. unfold subscription_records, Mongo.findAll.
  apply Nat.le_antisymm.
  - apply (filter_unique_length subscription_key (userId, questionId)).
    + apply same_subscription_key.
    + now apply subscribeToQuestion_unique.
  - apply filter_nonempty_of_existsb.
    unfold subscribeToQuestion. db_simpl.
    apply existsb_upsertOne; auto using same_subscription_fresh.
Qed.

(** ** Votes *)

(** C4.  A vote of the author on the own answer is refused: [voteAnswer]
    returns [false] and the handler answers that one cannot vote on one's
    own answer, for either vote type, and the database is left as it was (no
    vote document created or deleted, the vote count untouched). *)
Theorem self_vote_is_refused (db : Db.t) (from : From.t) (answerId : ObjectId)
  (answer : Answer.t) (voteType : VoteType) (now : Date) :
  getAnswerWithVotes db answerId = Some answer ->
  Answer.user_id answer = From.id from ->
  voteAnswer db (From.id from) answerId voteType now = (db, false)
  /\ on_VOTE voteType db from answerId now
     = (db, [answerCbQuery "Cannot vote on your own answer"]).
Proof.
  intros Ha Hself.
  assert (voteAnswer db (From.id from) answerId voteType now = (db, false)) as Hv.
  { unfold voteAnswer. rewrite Ha, Hself, Z.eqb_refl. reflexivity. }
  split; [exact Hv |]. unfold on_VOTE. now rewrite Hv.
Qed.

(** ** Question lifecycle *)

Lemma findOne_none_of_filter_nil {A : Type} (p : A -> bool) (c : list A) :
  filter p c = [] -> Mongo.findOne p c = None.
Proof.
  unfold Mongo.findOne. induction c as [|d c IH]; cbn; [reflexivity |].
  destruct (p d); [discriminate | exact IH].
Qed.

Lemma question_id_key (questionId : ObjectId) (q : Question.t) :
  (Question._id q =? questionId)%N = true <-> Question._id q = questionId.
Proof. apply N.eqb_eq. Qed.

Lemma user_id_key (userId : UserId) (u : User.t) :
  (User.user_id u =? userId) = true <-> User.user_id u = userId.
Proof. apply Z.eqb_eq. Qed.

Lemma getUser_updateUserStats_same (db : Db.t) (userId : UserId)
  (field : StatField) (u : User.t) :
  getUser db userId = Some u ->
  option_map stats (getUser (updateUserStats db userId field 1) userId)
  = Some match field with
         | f_points => (User.points u + 1, User.questions_asked u,
                        User.answers_given u)
         | f_questions_asked => (User.points u + 5, User.questions_asked u + 1,
                                 User.answers_given u)
         | f_answers_given => (User.points u + 5, User.questions_asked u,
                               User.answers_given u + 1)
         end.
Proof.
  unfold getUser, updateUserStats. db_simpl. intros Hu.
  rewrite findOne_updateOne_same.
  - rewrite Hu. now destruct field.
  - intros d Hd. now destruct field.
Qed.

Section Lifecycle.
Variable ADMIN_ID : UserId.

(** C1, as the code has it.  The operator's approval of a question that
    exists, approved already or not, goes through on every call: the
    question is marked approved with the new channel message, and the
    author's record gets 5 points and one more asked question each time;
    when the operator's message can be edited the author is also notified
    again.  Only a missing question is refused (the answer is that the
    question was not found) and nothing is written. *)
Theorem approve_awards_on_every_call (db : Db.t) (from : From.t)
  (questionId : ObjectId) (message_id : Z) (edited : bool) (now : Date) :
  From.id from = ADMIN_ID ->
  match getQuestion db questionId with
  | None =>
      on_APPROVE ADMIN_ID db from questionId (Some message_id) edited now
      = (db, [answerCbQuery "Question not found"])
  | Some q =>
      let result :=
        on_APPROVE ADMIN_ID db from questionId (Some message_id) edited now in
      getQuestion (fst result) questionId = Some (set_approved message_id q)
      /\ (forall u,
            getUser db (Question.user_id q) = Some u ->
            option_map stats (getUser (fst result) (Question.user_id q))
            = Some (User.points u + 5, User.questions_asked u + 1,
                    User.answers_given u))
      /\ (edited = true ->
          snd result
          = [sendMessage ToChannel "By: Anonymous";
             editMessageText "Question Approved!";
             sendMessage (ToUser (Question.user_id q)) "Your Question is Live!";
             answerCbQuery EmptyString]
          /\ Db.notifications (fst result)
             = Db.notifications db
               ++ [Notification.mk (Question.user_id q) question_approved
                     (QuestionApprovedData (Question.question q) message_id)
                     false now])
  end.
Proof.
  intros Hadmin. unfold on_APPROVE. rewrite Hadmin, Z.eqb_refl. cbn [negb].
  destruct (getQuestion db questionId) as [q|] eqn:Hq; [| reflexivity].
  assert (getQuestion
            (Db.set_questions
               (Mongo.updateOne (fun q => (Question._id q =? questionId)%N)
                  (set_approved message_id)) db) questionId
          = Some (set_approved message_id q)) as Hq1.
  { unfold getQuestion in *. db_simpl.
    rewrite findOne_updateOne_same by (intros d Hd; exact Hd).
    now rewrite Hq. }
  unfold approveQuestion. rewrite Hq1.
  cbn [Question.user_id set_approved].
  set (db1 := Db.set_questions _ db).
  assert (getQuestion (updateUserStats db1 (Question.user_id q) f_questions_asked 1)
            questionId = Some (set_approved message_id q)) as Hq2 by exact Hq1.
  assert (forall u,
            getUser db (Question.user_id q) = Some u ->
            option_map stats
              (getUser (updateUserStats db1 (Question.user_id q) f_questions_asked 1)
                 (Question.user_id q))
            = Some (User.points u + 5, User.questions_asked u + 1,
                    User.answers_given u)) as Hu.
  { intros u Hu. now apply (getUser_updateUserStats_same db1 _ f_questions_asked). }
  destruct edited; cbn [negb].
  - unfold createNotification. cbn zeta. db_simpl.
    split; [exact Hq2 |]. split; [exact Hu |]. intros _. split; reflexivity.
  - cbn zeta. db_simpl. split; [exact Hq2 |]. split; [exact Hu |]. discriminate.
Qed.

(** C8, as the code has it.  The operator's rejection of a question that
    exists, pending or approved, deletes it and nothing else, and the author
    is told when the messages go through.  Only a missing question is
    refused (the answer is that the question was not found): nothing is
    deleted and nobody is notified. *)
Theorem reject_deletes_any_question (db : Db.t) (from : From.t)
  (questionId : ObjectId) (edited notified : bool) :
  From.id from = ADMIN_ID ->
  question_ids_unique db ->
  match getQuestion db questionId with
  | None =>
      on_REJECT ADMIN_ID db from questionId edited notified
      = (db, [answerCbQuery "Question not found"])
  | Some q =>
      let result := on_REJECT ADMIN_ID db from questionId edited notified in
      fst result
      = Db.set_questions
          (Mongo.deleteOne (fun q => (Question._id q =? questionId)%N)) db
      /\ getQuestion (fst result) questionId = None
      /\ (S (List.length (Db.questions (fst result)))
          = List.length (Db.questions db))
      /\ (edited = true -> notified = true ->
          snd result
          = [editMessageText "Question Rejected!";
             sendMessage (ToUser (Question.user_id q)) "Question Not Approved";
             answerCbQuery EmptyString])
  end.
Proof.
  intros Hadmin Huniq. unfold on_REJECT. rewrite Hadmin, Z.eqb_refl. cbn [negb].
  destruct (getQuestion db questionId) as [q|] eqn:Hq; [| reflexivity].
  cbn zeta.
  split; [destruct edited, notified; reflexivity |].
  split.
  - replace (fst _) with
      (Db.set_questions
         (Mongo.deleteOne (fun q => (Question._id q =? questionId)%N)) db)
      by (destruct edited, notified; reflexivity).
    unfold getQuestion. db_simpl. apply findOne_none_of_filter_nil.
    apply (filter_deleteOne_unique Question._id questionId);
      [apply question_id_key | exact Huniq].
  - split.
    + replace (fst _) with
        (Db.set_questions
           (Mongo.deleteOne (fun q => (Question._id q =? questionId)%N)) db)
        by (destruct edited, notified; reflexivity).
      db_simpl. unfold getQuestion, Mongo.findOne in Hq. clear Huniq.
      induction (Db.questions db) as [|d c IH]; cbn in *; [discriminate |].
      destruct (Question._id d =? questionId)%N; [reflexivity |].
      cbn. now rewrite IH.
    + intros -> ->. reflexivity.
Qed.

End Lifecycle.

(** C1, as stated, fails: the question of the scenario is approved, and a
    second approval by the operator goes through like the first one, with
    no refusal; Alice's points go from 5 to 10 and her asked questions from
    1 to 2. *)
Lemma second_approval_awards_again :
  option_map Question.approved (getQuestion db_approved 0%N) = Some true
  /\ option_map stats (getUser db_approved 10) = Some (5, 1, 0)
  /\ snd (handle operator_id db_approved
            (APPROVE operator 0%N (Some 43) true 120))
     = [sendMessage ToChannel "By: Anonymous";
        editMessageText "Question Approved!";
        sendMessage (ToUser 10) "Your Question is Live!";
        answerCbQuery EmptyString]
  /\ option_map stats
       (getUser (fst (handle operator_id db_approved
                        (APPROVE operator 0%N (Some 43) true 120))) 10)
     = Some (10, 2, 0).
Proof. vm_compute. repeat split; reflexivity. Qed.

(** C8, as stated, fails: the question of the scenario is approved, not
    pending, and the operator's rejection deletes it and tells Alice. *)
Lemma rejection_deletes_approved_question :
  option_map Question.approved (getQuestion db_approved 0%N) = Some true
  /\ handle operator_id db_approved (REJECT operator 0%N true true)
     = (Db.set_questions (fun _ => []) db_approved,
        [editMessageText "Question Rejected!";
         sendMessage (ToUser 10) "Question Not Approved";
         answerCbQuery EmptyString]).
Proof. vm_compute. split; reflexivity. Qed.

(** C2, on the scenario.  Carol votes Bob's answer up and then down: one
    vote document is left for the pair and it says down, and the vote count
    goes 0, 1, 0: the down vote moves it by -1, the earlier +1 is not taken
    back. *)
Theorem vote_up_then_down_moves_count_by_one :
  option_map Answer.votes (getAnswerWithVotes db_answered 1%N) = Some 0
  /\ option_map Answer.votes (getAnswerWithVotes db_upvoted 1%N) = Some 1
  /\ vote_records db_downvoted 30 1%N = [Vote.mk 30 1%N down 111]
  /\ option_map Answer.votes (getAnswerWithVotes db_downvoted 1%N) = Some 0.
Proof. vm_compute. repeat split; reflexivity. Qed.

(** C3, on the scenario.  Carol votes Bob's answer up (count 1, one
    notification for Bob) and then clears her vote: the vote document is
    gone and no notification is added, and the vote count is still 1.
    Clearing when there is no vote changes nothing. *)
Theorem clearing_a_vote_keeps_the_count :
  option_map Answer.votes (getAnswerWithVotes db_upvoted 1%N) = Some 1
  /\ vote_records db_upvoted 30 1%N = [Vote.mk 30 1%N up 110]
  /\ received vote_received 20 (Db.notifications db_upvoted) = 1%nat
  /\ vote_records db_cleared 30 1%N = []
  /\ Db.notifications db_cleared = Db.notifications db_upvoted
  /\ option_map Answer.votes (getAnswerWithVotes db_cleared 1%N) = Some 1
  /\ snd (handle operator_id db_upvoted (VOTE_NONE carol 1%N))
     = [answerCbQuery "Vote removed! Current votes: 1"]
  /\ handle operator_id db_answered (VOTE_NONE carol 1%N)
     = (db_answered, [answerCbQuery "Vote removed! Current votes: 0"]).
Proof. vm_compute. repeat split; reflexivity. Qed.

(** ** Notifications *)

Lemma set_notifications_nil (db : Db.t) :
  Db.set_notifications (fun ns => ns ++ []) db = db.
Proof. destruct db. db_simpl. now rewrite app_nil_r. Qed.

Lemma set_notifications_app (db : Db.t) (a b : list Notification.t) :
  Db.set_notifications (fun ns => ns ++ b)
    (Db.set_notifications (fun ns => ns ++ a) db)
  = Db.set_notifications (fun ns => ns ++ (a ++ b)) db.
Proof. destruct db. db_simpl. now rewrite app_assoc. Qed.

Lemma createNotification_db (db : Db.t) (userId : UserId)
  (type : NotificationType) (data : NotificationData) (now : Date) :
  fst (fst (createNotification db userId type data now))
  = Db.set_notifications
      (fun ns => ns ++ [Notification.mk userId type data false now]) db.
Proof. reflexivity. Qed.

(** The loop writes one notification for each subscriber that is neither
    the answerer nor the author, in the order of the list, and does not
    throw when the question is there. *)
Lemma notifySubscribers_found (db : Db.t) (subscribers : list UserId)
  (userId : UserId) (q : Question.t) (questionId : ObjectId)
  (userMessage : text) (now : Date) :
  fst (fst (notifySubscribers db subscribers userId (Some q) questionId
              userMessage now))
  = Db.set_notifications
      (fun ns =>
         ns ++ map (new_answer_for questionId userMessage userId now)
                 (filter (fun s => negb (s =? userId)
                                   && negb (s =? Question.user_id q))
                    subscribers))
      db
  /\ snd (notifySubscribers db subscribers userId (Some q) questionId
            userMessage now) = false.
Proof.
  revert db. induction subscribers as [|s rest IH]; intros db.
  - cbn. now rewrite set_notifications_nil.
  - cbn [notifySubscribers filter].
    destruct (s =? userId) eqn:Hs; cbn [negb andb]; [apply IH |].
    destruct (s =? Question.user_id q) eqn:Ha; cbn [negb]; [apply IH |].
    destruct (createNotification db s new_answer _ now) as [[db1 sent] ok] eqn:Hc.
    assert (db1 = fst (fst (createNotification db s new_answer
                              (NewAnswerData questionId userMessage userId) now)))
      as Hdb1 by now rewrite Hc.
    rewrite createNotification_db in Hdb1.
    destruct (IH db1) as [IH1 IH2].
    destruct (notifySubscribers db1 rest userId (Some q) questionId userMessage now)
      as [[db2 sent'] thrown].
    cbn [fst snd] in *. subst db2 thrown db1. split; [| reflexivity].
    now rewrite set_notifications_app.
Qed.


Lemma received_app (type : NotificationType) (r : UserId)
  (a b : list Notification.t) :
  received type r (a ++ b) = (received type r a + received type r b)%nat.
Proof. unfold received. now rewrite filter_app, length_app. Qed.

Lemma received_new_answer_for (questionId : ObjectId) (userMessage : text)
  (userId : UserId) (now : Date) (r : UserId) (recipients : list UserId) :
  received new_answer r
    (map (new_answer_for questionId userMessage userId now) recipients)
  = List.length (filter (fun s => s =? r) recipients).
Proof.
  unfold received. induction recipients as [|s rest IH]; cbn; [reflexivity |].
  rewrite andb_true_r. destruct (s =? r); cbn; now rewrite IH.
Qed.

Lemma filter_eqb_NoDup (r : UserId) (l : list UserId) :
  NoDup l ->
  List.length (filter (fun s => s =? r) l)
  = if existsb (fun s => s =? r) l then 1%nat else 0%nat.
Proof.
  induction 1 as [|s l Hs H IH]; cbn; [reflexivity |].
  destruct (s =? r) eqn:E; cbn; [| exact IH].
  apply Z.eqb_eq in E. subst s.
  rewrite IH. destruct (existsb (fun s => s =? r) l) eqn:Hex; [| reflexivity].
  exfalso. apply Hs. apply existsb_exists in Hex as [x [Hx E]].
  apply Z.eqb_eq in E. now subst x.
Qed.

(** ** Subscribers *)

Lemma getSubscribers_NoDup (db : Db.t) (questionId : ObjectId) :
  subscription_unique db -> NoDup (getSubscribers db questionId).
Proof.
  unfold subscription_unique, getSubscribers, Mongo.findAll.
  induction (Db.subscriptions db) as [|s c IH]; cbn; [constructor |].
  intros H. inversion H as [|k ks Hk Hks]; subst.
  destruct (Subscription.question_id s =? questionId)%N eqn:E; [| now apply IH].
  cbn. constructor; [| now apply IH].
  intros Hin. apply Hk.
  apply in_map_iff in Hin as [s' [Hs' Hin]].
  apply filter_In in Hin as [Hin E'].
  apply in_map_iff. exists s'. split; [| exact Hin].
  apply N.eqb_eq in E, E'. unfold subscription_key. congruence.
Qed.

Lemma existsb_getSubscribers (db : Db.t) (questionId : ObjectId) (r : UserId) :
  existsb (fun s => s =? r) (getSubscribers db questionId)
  = isSubscribed db r questionId.
Proof.
  unfold getSubscribers, isSubscribed, Mongo.findAll.
  rewrite <- findOne_existsb.
  induction (Db.subscriptions db) as [|s c IH]; cbn; [reflexivity |].
  unfold same_subscription at 1.
  destruct (Subscription.question_id s =? questionId)%N; cbn.
  - rewrite andb_true_r. now rewrite IH.
  - rewrite andb_false_r. exact IH.
Qed.

Lemma isSubscribed_subscribeToQuestion_same (db : Db.t) (userId : UserId)
  (questionId : ObjectId) (now : Date) :
  isSubscribed (fst (subscribeToQuestion db userId questionId now))
    userId questionId = true.
Proof.
  unfold isSubscribed, subscribeToQuestion. db_simpl.
  rewrite <- findOne_existsb.
  apply existsb_upsertOne; auto using same_subscription_fresh.
Qed.

Lemma isSubscribed_subscribeToQuestion_other (db : Db.t) (userId r : UserId)
  (questionId : ObjectId) (now : Date) :
  r <> userId ->
  isSubscribed (fst (subscribeToQuestion db userId questionId now)) r questionId
  = isSubscribed db r questionId.
Proof.
  intros Hr. unfold isSubscribed, subscribeToQuestion. db_simpl.
  unfold Mongo.upsertOne. destruct (existsb _ _).
  - now rewrite updateOne_id.
  - rewrite findOne_insertOne.
    destruct (Mongo.findOne _ _); [reflexivity |].
    unfold same_subscription. cbn.
    destruct (userId =? r) eqn:E; [| reflexivity].
    apply Z.eqb_eq in E. congruence.
Qed.

(** ** Posting an answer *)

Lemma createAnswer_db (db : Db.t) (questionId : ObjectId) (userId : UserId)
  (username answer : text) (channelMessageId : option Z) (now : Date) :
  createAnswer db questionId userId username answer channelMessageId now
  = (Db.next_id db,
     updateUserStats
       (Db.set_questions
          (Mongo.updateOne (fun q => (Question._id q =? questionId)%N)
             inc_answer_count)
          (Db.set_answers
             (Mongo.insertOne
                (Answer.mk (Db.next_id db) questionId userId username answer
                   channelMessageId 0 now))
             (snd (Db.fresh_id db))))
       userId f_answers_given 1).
Proof. reflexivity. Qed.

Lemma getQuestion_createAnswer (db : Db.t) (questionId : ObjectId)
  (userId : UserId) (username answer : text) (channelMessageId : option Z)
  (now : Date) :
  getQuestion
    (snd (createAnswer db questionId userId username answer channelMessageId now))
    questionId
  = option_map inc_answer_count (getQuestion db questionId).
Proof.
  rewrite createAnswer_db. unfold getQuestion, updateUserStats. db_simpl.
  apply findOne_updateOne_same. intros d Hd. exact Hd.
Qed.

(** The notifications written when [userId] answers a question of
    [author] with the subscribers [subscribers]. *)
Lemma post_answer_found (db : Db.t) (from : From.t) (questionId : ObjectId)
  (q : Question.t) (channelMessageId : option Z) (userMessage : text)
  (replied : bool) (now : Date) :
  getQuestion db questionId = Some q ->
  fst (post_answer db from questionId channelMessageId userMessage replied now)
  = (if replied then fun d => deleteSession d (From.id from) else fun d => d)
      (Db.set_notifications
         (fun ns =>
            ns ++ fan_out questionId userMessage (From.id from) now
                    (Question.user_id q)
                    (getSubscribers
                       (fst (subscribeToQuestion db (From.id from) questionId now))
                       questionId))
         (fst (subscribeToQuestion
                 (snd (createAnswer db questionId (From.id from)
                         (or_else (From.username from) (From.first_name from))
                         userMessage channelMessageId now))
                 (From.id from) questionId now))).
Proof.
  intros Hq. unfold post_answer.
  pose proof (getQuestion_createAnswer db questionId (From.id from)
                (or_else (From.username from) (From.first_name from))
                userMessage channelMessageId now) as Hq1.
  rewrite Hq in Hq1. cbn [option_map] in Hq1.
  assert (Db.subscriptions
            (snd (createAnswer db questionId (From.id from)
                    (or_else (From.username from) (From.first_name from))
                    userMessage channelMessageId now))
          = Db.subscriptions db) as Hsubs1 by reflexivity.
  destruct (createAnswer db questionId (From.id from) _ userMessage
              channelMessageId now) as [answerId db1].
  cbn [snd] in *.
  assert (getSubscribers
            (fst (subscribeToQuestion db1 (From.id from) questionId now))
            questionId
          = getSubscribers
              (fst (subscribeToQuestion db (From.id from) questionId now))
              questionId) as Hgs.
  { unfold getSubscribers, subscribeToQuestion. db_simpl. now rewrite Hsubs1. }
  assert (getQuestion
            (fst (subscribeToQuestion db1 (From.id from) questionId now))
            questionId = Some (inc_answer_count q)) as Hq2 by exact Hq1.
  destruct (subscribeToQuestion db1 (From.id from) questionId now)
    as [db2 ok].
  cbn [fst] in *. rewrite Hq2. cbn [inc_answer_count Question.user_id].
  unfold fan_out.
  destruct (negb (Question.user_id q =? From.id from)) eqn:Hauthor.
  - unfold createNotification. cbn zeta.
    set (db3 := Db.set_notifications _ db2).
    assert (getSubscribers db3 questionId = getSubscribers db2 questionId)
      as Hgs3 by reflexivity.
    rewrite Hgs3, Hgs.
    destruct (notifySubscribers_found db3
                (getSubscribers
                   (fst (subscribeToQuestion db (From.id from) questionId now))
                   questionId)
                (From.id from) (inc_answer_count q) questionId userMessage now)
      as [Hdb4 Hthrown].
    destruct (notifySubscribers db3 _ (From.id from) _ questionId userMessage now)
      as [[db4 sent'] thrown].
    cbn [fst snd] in Hdb4, Hthrown. subst thrown db4 db3.
    cbn [inc_answer_count Question.user_id].
    unfold Mongo.insertOne. rewrite !set_notifications_app.
    now destruct replied.
  - rewrite Hgs.
    destruct (notifySubscribers_found db2
                (getSubscribers
                   (fst (subscribeToQuestion db (From.id from) questionId now))
                   questionId)
                (From.id from) (inc_answer_count q) questionId userMessage now)
      as [Hdb4 Hthrown].
    destruct (notifySubscribers db2 _ (From.id from) _ questionId userMessage now)
      as [[db4 sent'] thrown].
    cbn [fst snd] in Hdb4, Hthrown. subst thrown db4.
    cbn [inc_answer_count Question.user_id app].
    now destruct replied.
Qed.

(** The loop over the subscribers when the question is gone: the first
    subscriber other than the answerer makes [question.user_id] throw. *)
Lemma notifySubscribers_missing (db : Db.t) (subscribers : list UserId)
  (userId : UserId) (questionId : ObjectId) (userMessage : text) (now : Date) :
  notifySubscribers db subscribers userId None questionId userMessage now
  = (db, [], existsb (fun s => negb (s =? userId)) subscribers).
Proof.
  induction subscribers as [|s rest IH]; cbn; [reflexivity |].
  destruct (s =? userId); cbn; [exact IH | reflexivity].
Qed.

Lemma others_among_subscribers (db : Db.t) (userId : UserId)
  (questionId : ObjectId) (now : Date) :
  existsb (fun s => negb (s =? userId))
    (getSubscribers (fst (subscribeToQuestion db userId questionId now))
       questionId)
  = existsb (fun s => negb (s =? userId)) (getSubscribers db questionId).
Proof.
  unfold getSubscribers, subscribeToQuestion, Mongo.findAll. db_simpl.
  unfold Mongo.upsertOne. destruct (existsb _ (Db.subscriptions db)).
  - now rewrite updateOne_id.
  - unfold Mongo.insertOne. rewrite filter_app, map_app, existsb_app. cbn.
    rewrite N.eqb_refl. cbn. rewrite Z.eqb_refl. cbn. now rewrite orb_false_r.
Qed.

(** The database after an answer to a question that is not there. *)
Lemma post_answer_missing (db : Db.t) (from : From.t) (questionId : ObjectId)
  (channelMessageId : option Z) (userMessage : text) (replied : bool)
  (now : Date) :
  getQuestion db questionId = None ->
  fst (post_answer db from questionId channelMessageId userMessage replied now)
  = (if existsb (fun s => negb (s =? From.id from))
          (getSubscribers db questionId)
        || negb replied
     then fun d => d else fun d => deleteSession d (From.id from))
      (fst (subscribeToQuestion
              (snd (createAnswer db questionId (From.id from)
                      (or_else (From.username from) (From.first_name from))
                      userMessage channelMessageId now))
              (From.id from) questionId now)).
Proof.
  intros Hq. unfold post_answer.
  pose proof (getQuestion_createAnswer db questionId (From.id from)
                (or_else (From.username from) (From.first_name from))
                userMessage channelMessageId now) as Hq1.
  rewrite Hq in Hq1. cbn [option_map] in Hq1.
  rewrite createAnswer_db in *. cbn [snd] in Hq1 |- *.
  set (db1 := updateUserStats _ (From.id from) f_answers_given 1) in *.
  pose proof (others_among_subscribers db1 (From.id from) questionId now)
    as Hothers.
  assert (getQuestion (fst (subscribeToQuestion db1 (From.id from) questionId now))
            questionId = None) as Hq2 by exact Hq1.
  assert (getSubscribers db1 questionId = getSubscribers db questionId)
    as Hgs by reflexivity.
  rewrite Hgs in Hothers.
  destruct (subscribeToQuestion db1 (From.id from) questionId now) as [db2 ok].
  cbn [fst] in *. rewrite Hq2, notifySubscribers_missing, Hothers.
  destruct (existsb (fun s => negb (s =? From.id from))
              (getSubscribers db questionId)); cbn [orb]; [reflexivity |].
  now destruct replied.
Qed.

Lemma received_fan_out (questionId : ObjectId) (userMessage : text)
  (userId : UserId) (now : Date) (author : UserId) (subscribers : list UserId)
  (r : UserId) :
  NoDup subscribers ->
  received new_answer r
    (fan_out questionId userMessage userId now author subscribers)
  = if r =? userId then 0%nat
    else if (r =? author) || existsb (fun s => s =? r) subscribers
         then 1%nat else 0%nat.
Proof.
  intros Hnd. unfold fan_out. rewrite received_app, received_new_answer_for.
  assert (List.length
            (filter (fun s => s =? r)
               (filter (fun s => negb (s =? userId) && negb (s =? author))
                  subscribers))
          = if negb (r =? userId) && negb (r =? author)
            then (if existsb (fun s => s =? r) subscribers then 1%nat else 0%nat)
            else 0%nat) as Hloop.
  { rewrite <- (filter_eqb_NoDup r subscribers Hnd). clear Hnd.
    induction subscribers as [|s rest IH]; cbn.
    - now destruct (negb (r =? userId) && negb (r =? author)).
    - destruct (s =? r) eqn:E.
      + apply Z.eqb_eq in E. subst s.
        destruct (negb (r =? userId) && negb (r =? author)) eqn:K; cbn.
        * rewrite Z.eqb_refl. cbn. now rewrite IH.
        * exact IH.
      + destruct (negb (s =? userId) && negb (s =? author)); cbn;
          [rewrite E |]; exact IH. }
  rewrite Hloop. clear Hloop.
  destruct (r =? userId) eqn:Hr; cbn [negb andb].
  - apply Z.eqb_eq in Hr. subst r.
    destruct (negb (author =? userId)) eqn:Ha; [| reflexivity].
    unfold received. cbn. rewrite andb_true_r.
    apply negb_true_iff in Ha. now rewrite Ha.
  - destruct (r =? author) eqn:Ha; cbn [negb orb].
    + apply Z.eqb_eq in Ha. subst author. rewrite Hr. cbn [negb].
      unfold received. cbn. now rewrite Z.eqb_refl.
    + destruct (negb (author =? userId)).
      * unfold received. cbn. rewrite andb_true_r.
        rewrite (Z.eqb_sym author r), Ha. reflexivity.
      * reflexivity.
Qed.

Section FanOut.
Variable ADMIN_ID : UserId.

(** C5.  When a user posts an answer (the [awaiting_answer] branch, the
    message having passed the filter), the answer is stored and the
    answerer is subscribed to the question afterwards.  The notifications
    added are all of type [new_answer].  While the question exists they are
    as the fan-out rule says: none for the answerer, exactly one for the
    author when the author is not the answerer (also when the author is a
    subscriber), exactly one for every other subscriber, and none for
    anybody else.  When the question has been deleted in the meantime,
    nobody receives a notification, whoever is subscribed. *)
Theorem new_answer_fan_out (db : Db.t) (from : From.t)
  (session : SessionData.t) (questionId : ObjectId)
  (userMessage : text) (replied forwarded : bool) (now : Date) :
  subscription_unique db ->
  getSession db (From.id from) = Some session ->
  SessionData.step session = awaiting_answer ->
  SessionData.questionId session = Some questionId ->
  allowed (contentFilter userMessage) = true ->
  let after :=
    fst (on_text ADMIN_ID db from userMessage replied forwarded now) in
  Db.answers after
  = Db.answers db
    ++ [Answer.mk (Db.next_id db) questionId (From.id from)
          (or_else (From.username from) (From.first_name from)) userMessage
          (SessionData.channelMessageId session) 0 now]
  /\ isSubscribed after (From.id from) questionId = true
  /\ exists new,
       Db.notifications after = Db.notifications db ++ new
       /\ Forall (fun n => Notification.type n = new_answer) new
       /\ forall r,
            received new_answer r new
            = match getQuestion db questionId with
              | Some q =>
                  if r =? From.id from then 0%nat
                  else if (r =? Question.user_id q)
                          || isSubscribed db r questionId
                       then 1%nat else 0%nat
              | None => 0%nat
              end.
Proof.
  intros Huniq Hs Hstep Hqid Hok. cbn zeta.
  unfold on_text. rewrite Hs, Hstep, Hok, Hqid. cbn [negb].
  pose proof (isSubscribed_subscribeToQuestion_same
                (snd (createAnswer db questionId (From.id from)
                        (or_else (From.username from) (From.first_name from))
                        userMessage (SessionData.channelMessageId session) now))
                (From.id from) questionId now) as Hsub.
  destruct (getQuestion db questionId) as [q|] eqn:Hq.
  - rewrite (post_answer_found db from questionId q _ userMessage replied now Hq).
    set (subscribers :=
           getSubscribers
             (fst (subscribeToQuestion db (From.id from) questionId now))
             questionId).
    split; [now destruct replied |].
    split; [rewrite <- Hsub; now destruct replied |].
    exists (fan_out questionId userMessage (From.id from) now
              (Question.user_id q) subscribers).
    split; [now destruct replied |]. split.
    + unfold fan_out. apply Forall_app. split.
      * destruct (negb _); repeat constructor.
      * apply Forall_forall. intros n Hn.
        apply in_map_iff in Hn as [s [<- _]]. reflexivity.
    + intros r. rewrite received_fan_out.
      * destruct (r =? From.id from) eqn:Hr; [reflexivity |].
        subst subscribers. rewrite existsb_getSubscribers.
        rewrite isSubscribed_subscribeToQuestion_other; [reflexivity |].
        intros ->. now rewrite Z.eqb_refl in Hr.
      * apply getSubscribers_NoDup. now apply subscribeToQuestion_unique.
  - rewrite (post_answer_missing db from questionId _ userMessage replied now Hq).
    destruct (existsb (fun s => negb (s =? From.id from))
                (getSubscribers db questionId) || negb replied).
    + split; [reflexivity |]. split; [exact Hsub |].
      exists []. split; [now rewrite app_nil_r |].
      split; [constructor | reflexivity].
    + split; [reflexivity |]. split; [exact Hsub |].
      exists []. split; [now rewrite app_nil_r |].
      split; [constructor | reflexivity].
Qed.

End FanOut.

(** ** What the handlers write *)

Ltac case_scrutinee :=
  match goal with
  | |- context [match ?x with _ => _ end] =>
      lazymatch x with
      | context [match _ with _ => _ end] => fail
      | _ => destruct x eqn:?
      end
  end.

Ltac handler_cases := repeat (db_simpl; try case_scrutinee).



Section Writes.
Variable ADMIN_ID : UserId.


End Writes.

(** ** Points *)





Section Points.
Variable ADMIN_ID : UserId.




End Points.

(** ** The scenario *)

Lemma reachable_run (ADMIN_ID : UserId) (us : list Update) (db : Db.t) :
  reachable ADMIN_ID db -> reachable ADMIN_ID (run ADMIN_ID db us).
Proof.
  revert db. induction us as [|u us IH]; intros db H; [exact H |].
  cbn. apply IH. now apply reachable_step.
Qed.

Lemma subscribe_twice_witness :
  subscription_unique db_answering
  /\ List.length
       (subscription_records
          (fst (subscribeToQuestion
                  (fst (subscribeToQuestion db_answering 20 0%N 200))
                  20 0%N 201))
          20 0%N) = 1%nat.
Proof.
  assert (subscription_unique db_answering) as H.
  { vm_compute. repeat constructor. intros []. }
  split; [exact H |].
  exact (proj2 (proj2 (proj2
           (subscribe_twice_is_subscribe_once db_answering 20 0%N 200 201 H)))).
Defined.

Lemma self_vote_is_refused_witness :
  getAnswerWithVotes db_answered 1%N = Some bobs_answer
  /\ Answer.user_id bobs_answer = From.id bob
  /\ on_VOTE up db_answered bob 1%N 200
     = (db_answered, [answerCbQuery "Cannot vote on your own answer"]).
Proof.
  assert (getAnswerWithVotes db_answered 1%N = Some bobs_answer) as H
    by (vm_compute; reflexivity).
  split; [exact H |]. split; [reflexivity |].
  exact (proj2 (self_vote_is_refused db_answered bob 1%N bobs_answer up 200
                  H eq_refl)).
Defined.

Lemma approve_awards_on_every_call_witness :
  From.id operator = operator_id
  /\ getQuestion db_approved 0%N = Some alices_question
  /\ getQuestion
       (fst (on_APPROVE operator_id db_approved operator 0%N (Some 43) true 120))
       0%N
     = Some (set_approved 43 alices_question).
Proof.
  assert (getQuestion db_approved 0%N = Some alices_question) as H
    by (vm_compute; reflexivity).
  split; [reflexivity |]. split; [exact H |].
  pose proof (approve_awards_on_every_call operator_id db_approved operator
                0%N 43 true 120 eq_refl) as K.
  rewrite H in K. exact (proj1 K).
Defined.

Lemma reject_deletes_any_question_witness :
  From.id operator = operator_id
  /\ question_ids_unique db_approved
  /\ getQuestion db_approved 0%N = Some alices_question
  /\ getQuestion (fst (on_REJECT operator_id db_approved operator 0%N true true))
       0%N = None.
Proof.
  assert (question_ids_unique db_approved) as Hu.
  { vm_compute. repeat constructor. intros []. }
  assert (getQuestion db_approved 0%N = Some alices_question) as H
    by (vm_compute; reflexivity).
  split; [reflexivity |]. split; [exact Hu |]. split; [exact H |].
  pose proof (reject_deletes_any_question operator_id db_approved operator
                0%N true true eq_refl Hu) as K.
  rewrite H in K. exact (proj1 (proj2 K)).
Defined.

Lemma new_answer_fan_out_witness :
  (subscription_unique db_answering
   /\ getSession db_answering (From.id bob) = Some bobs_session
   /\ getQuestion db_answering 0%N = Some alices_question
   /\ isSubscribed db_answering (From.id carol) 0%N = true
   /\ exists new,
        Db.notifications
          (fst (on_text operator_id db_answering bob (of_string "Yes it is")
                  true true 109))
        = Db.notifications db_answering ++ new
        /\ received new_answer (From.id alice) new = 1%nat
        /\ received new_answer (From.id bob) new = 0%nat
        /\ received new_answer (From.id carol) new = 1%nat)
  /\ (subscription_unique db_orphaned
      /\ getSession db_orphaned (From.id bob) = Some bobs_session
      /\ getQuestion db_orphaned 0%N = None
      /\ isSubscribed db_orphaned (From.id carol) 0%N = true
      /\ List.length
           (Db.answers
              (fst (on_text operator_id db_orphaned bob (of_string "Yes it is")
                      true true 109)))
         = S (List.length (Db.answers db_orphaned))
      /\ exists new,
           Db.notifications
             (fst (on_text operator_id db_orphaned bob (of_string "Yes it is")
                     true true 109))
           = Db.notifications db_orphaned ++ new
           /\ received new_answer (From.id carol) new = 0%nat).
Proof.
  assert (allowed (contentFilter (of_string "Yes it is")) = true) as Hf
    by (vm_compute; reflexivity).
  split.
  - assert (subscription_unique db_answering) as Hu.
    { vm_compute. repeat constructor. intros []. }
    assert (getSession db_answering (From.id bob) = Some bobs_session) as Hs
      by (vm_compute; reflexivity).
    assert (getQuestion db_answering 0%N = Some alices_question) as Hq
      by (vm_compute; reflexivity).
    split; [exact Hu |]. split; [exact Hs |]. split; [exact Hq |].
    split; [vm_compute; reflexivity |].
    destruct (new_answer_fan_out operator_id db_answering bob bobs_session
                0%N (of_string "Yes it is") true true 109
                Hu Hs eq_refl eq_refl Hf) as [_ [_ [new [E [_ R]]]]].
    rewrite Hq in R.
    exists new. split; [exact E |].
    split; [exact (R (From.id alice)) |].
    split; [exact (R (From.id bob)) | exact (R (From.id carol))].
  - assert (subscription_unique db_orphaned) as Hu.
    { vm_compute. repeat constructor. intros []. }
    assert (getSession db_orphaned (From.id bob) = Some bobs_session) as Hs
      by (vm_compute; reflexivity).
    assert (getQuestion db_orphaned 0%N = None) as Hq
      by (vm_compute; reflexivity).
    split; [exact Hu |]. split; [exact Hs |]. split; [exact Hq |].
    split; [vm_compute; reflexivity |].
    destruct (new_answer_fan_out operator_id db_orphaned bob bobs_session
                0%N (of_string "Yes it is") true true 109
                Hu Hs eq_refl eq_refl Hf) as [A [_ [new [E [_ R]]]]].
    rewrite Hq in R.
    split; [rewrite A, length_app; apply Nat.add_1_r |].
    exists new. split; [exact E | exact (R (From.id carol))].
Defined.

(** The fan-out on the scenario: Bob answers Alice's question, to which
    Carol is subscribed.  Alice and Carol get one notification each, Bob
    gets none. *)
Example fan_out_on_the_scenario :
  Db.notifications
    (fst (on_text operator_id db_answering bob (of_string "Yes it is")
            true true 109))
  = Db.notifications db_answering
    ++ [new_answer_for 0%N (of_string "Yes it is") 20 109 10;
        new_answer_for 0%N (of_string "Yes it is") 20 109 30].
Proof. vm_compute. reflexivity. Qed.


(** ** Handlers as sequences of writes *)

Lemma Writes_one (operator : bool) (db db' : Db.t) :
  Write operator db db' -> Writes operator db db'.
Proof. intros H. eapply writes_more; [exact H | apply writes_none]. Qed.

Lemma Writes_trans (operator : bool) (db db1 db2 : Db.t) :
  Writes operator db db1 -> Writes operator db1 db2 -> Writes operator db db2.
Proof.
  induction 1 as [|db da db1 H _ IH]; [auto |].
  intros H2. eapply writes_more; [exact H | auto].
Qed.

Lemma Writes_then (operator : bool) (db db1 db2 : Db.t) :
  Writes operator db db1 -> Write operator db1 db2 -> Writes operator db db2.
Proof.
  intros H1 H2. eapply Writes_trans; [exact H1 | now apply Writes_one].
Qed.

Lemma notifySubscribers_writes (operator : bool) (db : Db.t)
  (subscribers : list UserId) (userId : UserId) (question : option Question.t)
  (questionId : ObjectId) (userMessage : text) (now : Date) :
  Writes operator db
    (fst (fst (notifySubscribers db subscribers userId question questionId
                 userMessage now))).
Proof.
  revert db. induction subscribers as [|s rest IH]; intros db;
    cbn [notifySubscribers]; [apply writes_none |].
  destruct (s =? userId); [apply IH |].
  destruct question as [q|]; [| apply writes_none].
  destruct (negb (s =? Question.user_id q)); [| apply IH].
  pose proof (write_notification operator db s new_answer
                (NewAnswerData questionId userMessage userId) now) as W.
  destruct (createNotification db s new_answer _ now) as [[db1 sent] ok].
  cbn [fst] in W. specialize (IH db1).
  destruct (notifySubscribers db1 rest userId (Some q) questionId userMessage now)
    as [[db2 sent'] thrown].
  cbn [fst] in *. eapply writes_more; eauto.
Qed.

Lemma post_answer_writes_seq (operator : bool) (db : Db.t) (from : From.t)
  (session : SessionData.t) (questionId : ObjectId) (userMessage : text)
  (replied : bool) (now : Date) :
  getSession db (From.id from) = Some session ->
  SessionData.step session = awaiting_answer ->
  SessionData.questionId session = Some questionId ->
  allowed (contentFilter userMessage) = true ->
  Writes operator db
    (fst (post_answer db from questionId (SessionData.channelMessageId session)
            userMessage replied now)).
Proof.
  intros Hs Hstep Hq Hok. unfold post_answer.
  pose proof (write_answer operator db questionId (From.id from)
                (or_else (From.username from) (From.first_name from))
                userMessage (SessionData.channelMessageId session) now session
                Hs Hstep Hq Hok) as W1.
  destruct (createAnswer db questionId (From.id from) _ userMessage _ now)
    as [answerId db1].
  cbn [snd] in W1.
  pose proof (write_subscription operator db1 (From.id from) questionId now)
    as W2.
  destruct (subscribeToQuestion db1 (From.id from) questionId now) as [db2 ok].
  cbn [fst] in W2.
  set (notified :=
         match getQuestion db2 questionId with
         | Some q =>
             if negb (Question.user_id q =? From.id from)
             then createNotification db2 (Question.user_id q) new_answer
                    (NewAnswerData questionId userMessage (From.id from)) now
             else (db2, [], true)
         | None => (db2, [], true)
         end).
  assert (Writes operator db2 (fst (fst notified))) as W3.
  { subst notified. destruct (getQuestion db2 questionId) as [q|];
      [| apply writes_none].
    destruct (negb _); [| apply writes_none].
    apply Writes_one, write_notification. }
  destruct notified as [[db3 sent] ok3]. cbn [fst] in W3.
  pose proof (notifySubscribers_writes operator db3
                (getSubscribers db3 questionId) (From.id from)
                (getQuestion db2 questionId) questionId userMessage now) as W4.
  destruct (notifySubscribers db3 _ (From.id from) _ questionId userMessage now)
    as [[db4 sent'] thrown].
  cbn [fst] in W4.
  assert (Writes operator db db4) as W.
  { eapply writes_more; [exact W1 |]. eapply writes_more; [exact W2 |].
    eapply Writes_trans; eauto. }
  destruct thrown; [exact W |]. destruct replied; cbn [negb fst]; [| exact W].
  eapply Writes_then; [exact W | apply write_session_end].
Qed.

Ltac plain_session :=
  apply Writes_one, write_session; cbn; intros; discriminate.

Section HandlerWrites.
Variable ADMIN_ID : UserId.

(** Every handler changes the database by writes of the kinds above only;
    approvals and deletions of questions are among them only when the
    update comes from the operator. *)
Lemma handle_writes (db : Db.t) (u : Update) :
  Writes (From.id (sender u) =? ADMIN_ID) db (fst (handle ADMIN_ID db u)).
Proof.
  destruct u; cbn [handle sender].
  - (* Start *)
    unfold on_start.
    set (db1 := match getUser db (From.id from) with
                | Some _ => db
                | None => fst (createUser db (From.id from) _ now)
                end).
    assert (Writes (From.id from =? ADMIN_ID) db db1) as W1.
    { subst db1. destruct (getUser db (From.id from));
        [apply writes_none | apply Writes_one, write_user]. }
    destruct startPayload as [[questionId | questionId |]|]; try exact W1.
    + destruct (getQuestion db1 questionId) as [q|]; [| exact W1].
      now destruct (Question.approved q).
    + destruct (getQuestion db1 questionId) as [q|] eqn:Hq; [| exact W1].
      destruct (Question.approved q) eqn:Ha; [| exact W1].
      eapply Writes_then; [exact W1 |]. apply write_session.
      intros _. now exists questionId, q.
  - plain_session.
  - plain_session.
  - unfold on_TOPIC.
    destruct (getSession db (From.id from)) as [session|]; [| apply writes_none].
    destruct (Step_eqb (SessionData.step session) awaiting_topic) eqn:Hstep;
      [| apply writes_none].
    destruct (Nat.eqb topicIndex 5); cbn [fst].
    + apply Writes_one, write_session. cbn. intros E. rewrite E in Hstep.
      discriminate.
    + plain_session.
  - unfold on_SHOW_TOPICS.
    destruct (getSession db (From.id from)) as [session|]; [| apply writes_none].
    destruct (Step_eqb (SessionData.step session) awaiting_topic) eqn:Hstep;
      [| apply writes_none].
    apply Writes_one, write_session. cbn. intros E. rewrite E in Hstep.
    discriminate.
  - unfold on_EDIT_QUESTION.
    destruct (getSession db (From.id from)) as [session|]; [| apply writes_none].
    destruct (truthy_opt (SessionData.question session)); [| apply writes_none].
    plain_session.
  - unfold on_CANCEL_EDIT.
    destruct (getSession db (From.id from)) as [session|]; [| apply writes_none].
    plain_session.
  - unfold on_SUBMIT_QUESTION.
    destruct (getSession db (From.id from)) as [session|]; [| apply writes_none].
    destruct (SessionData.question session) as [question|]; [| apply writes_none].
    destruct (SessionData.topic session) as [topic|]; [| apply writes_none].
    destruct (negb (truthy question) || negb (truthy topic));
      [apply writes_none |].
    destruct (allowed (contentFilter question)) eqn:Hok; cbn [negb];
      [| apply writes_none].
    pose proof (write_question (From.id from =? ADMIN_ID) db (From.id from)
                  (or_else (From.username from) (From.first_name from))
                  question topic now Hok) as W.
    destruct (createQuestion db (From.id from) _ question topic now)
      as [questionId db1].
    cbn [snd] in W. apply Writes_one in W.
    destruct edited; cbn [negb fst]; [| exact W].
    destruct (getUser db1 (From.id from)); [| exact W].
    destruct forwarded; cbn [negb fst]; [| exact W].
    eapply Writes_then; [exact W | apply write_session_end].
  - unfold on_APPROVE.
    destruct (From.id from =? ADMIN_ID) eqn:Hop; cbn [negb];
      [| apply writes_none].
    destruct (getQuestion db questionId) as [q|]; [| apply writes_none].
    destruct posted as [message_id|]; [| apply writes_none].
    pose proof (write_approval true db questionId message_id eq_refl) as W.
    destruct (approveQuestion db questionId message_id) as [db1 updated].
    cbn [fst] in W. apply Writes_one in W.
    destruct edited; cbn [negb fst]; [| exact W].
    eapply Writes_then; [exact W |].
    apply (write_notification true db1 (Question.user_id q) question_approved
             (QuestionApprovedData (Question.question q) message_id) now).
  - unfold on_REJECT.
    destruct (From.id from =? ADMIN_ID) eqn:Hop; cbn [negb];
      [| apply writes_none].
    destruct (getQuestion db questionId) as [q|]; [| apply writes_none].
    destruct edited, notified; cbn [negb fst];
      apply Writes_one, write_rejection; reflexivity.
  - unfold on_CHANNEL_ANSWER.
    destruct (getQuestion db questionId) as [q|] eqn:Hq; [| apply writes_none].
    destruct (Question.approved q) eqn:Ha; [| apply writes_none].
    apply Writes_one, write_session. intros _. now exists questionId, q.
  - unfold on_VOTE_UP, on_VOTE.
    pose proof (write_vote (From.id from =? ADMIN_ID) db (From.id from)
                  answerId up now) as W.
    destruct (voteAnswer db (From.id from) answerId up now) as [db1 success].
    cbn [fst] in W. apply Writes_one in W.
    destruct success; [| exact W].
    destruct (getAnswerWithVotes db1 answerId) as [answer|]; [| exact W].
    destruct (negb (Answer.user_id answer =? From.id from)); [| exact W].
    eapply Writes_then; [exact W |].
    apply (write_notification _ db1 (Answer.user_id answer) vote_received
             (VoteReceivedData answerId (Answer.answer answer) up) now).
  - unfold on_VOTE_DOWN, on_VOTE.
    pose proof (write_vote (From.id from =? ADMIN_ID) db (From.id from)
                  answerId down now) as W.
    destruct (voteAnswer db (From.id from) answerId down now) as [db1 success].
    cbn [fst] in W. apply Writes_one in W.
    destruct success; [| exact W].
    destruct (getAnswerWithVotes db1 answerId) as [answer|]; [| exact W].
    destruct (negb (Answer.user_id answer =? From.id from)); [| exact W].
    eapply Writes_then; [exact W |].
    apply (write_notification _ db1 (Answer.user_id answer) vote_received
             (VoteReceivedData answerId (Answer.answer answer) down) now).
  - apply Writes_one, write_vote_removal.
  - apply Writes_one, write_subscription.
  - apply Writes_one, write_unsubscription.
  - apply Writes_one, write_all_read.
  - plain_session.
  - (* Text *)
    unfold on_text.
    destruct (getSession db (From.id from)) as [session|] eqn:Hs.
    2: { destruct (startsWith userMessage (of_string "/")); apply writes_none. }
    destruct (SessionData.step session) eqn:Hstep.
    + destruct (negb (allowed (contentFilter userMessage)));
        [apply writes_none | plain_session].
    + destruct (SessionData.waitingForCustomTopic session);
        [plain_session | apply writes_none].
    + apply writes_none.
    + destruct (negb (allowed (contentFilter userMessage)));
        [apply writes_none | plain_session].
    + destruct (allowed (contentFilter userMessage)) eqn:Hok; cbn [negb];
        [| apply writes_none].
      destruct (SessionData.questionId session) as [questionId|] eqn:Hq;
        [| apply writes_none].
      now apply post_answer_writes_seq.
    + destruct replied; cbn [negb]; [| apply writes_none].
      destruct (getUser db (From.id from)); [| apply writes_none].
      destruct forwarded; cbn [negb fst];
        [apply Writes_one, write_session_end | apply writes_none].
Qed.

End HandlerWrites.

(** ** Invariants of the reachable databases *)

Lemma Writes_invariant (P : Db.t -> Prop) (operator : bool) (db db' : Db.t) :
  (forall db db', P db -> Write operator db db' -> P db') ->
  Writes operator db db' -> P db -> P db'.
Proof.
  intros Hstep. induction 1 as [|db db1 db2 W _ IH]; [auto |].
  intros H. apply IH. eapply Hstep; eauto.
Qed.

Lemma reachable_invariant (ADMIN_ID : UserId) (P : Db.t -> Prop) :
  P Db.empty ->
  (forall operator db db', P db -> Write operator db db' -> P db') ->
  forall db, reachable ADMIN_ID db -> P db.
Proof.
  intros H0 Hstep db. induction 1 as [|db u _ IH]; [exact H0 |].
  eapply Writes_invariant; [apply Hstep | apply handle_writes | exact IH].
Qed.

Ltac unfold_helpers :=
  unfold createUser, saveSession, deleteSession, createQuestion,
    approveQuestion, createAnswer, subscribeToQuestion,
    unsubscribeFromQuestion, voteAnswer, createNotification,
    markAllNotificationsAsRead, updateUserStats in *.

(** What a write can do to each collection. *)
Lemma Write_users (operator : bool) (db db' : Db.t) :
  Write operator db db' ->
  Db.users db' = Db.users db
  \/ (exists userId fresh,
        User.user_id fresh = userId
        /\ Db.users db'
           = Mongo.upsertOne (fun u => User.user_id u =? userId) (fun u => u)
               fresh (Db.users db))
  \/ (exists userId field,
        Db.users db'
        = Mongo.updateOne (fun u => User.user_id u =? userId) (award field)
            (Db.users db)).
Proof.
  destruct 1; unfold_helpers; db_simpl; auto.
  - right. left. eexists _, _. split; [| reflexivity]. reflexivity.
  - destruct (getQuestion _ questionId); db_simpl; auto.
    right. right. now exists (Question.user_id t), f_questions_asked.
  - right. right. now exists userId, f_answers_given.
  - handler_cases; auto.
Qed.

Lemma Write_sessions (operator : bool) (db db' : Db.t) :
  Write operator db db' ->
  Db.sessions db' = Db.sessions db
  \/ (exists userId data now,
        Db.sessions db'
        = Mongo.upsertOne (fun s => Session.user_id s =? userId)
            (fun s => Session.mk (Session.user_id s) data now)
            (Session.mk userId data now) (Db.sessions db)
        /\ (SessionData.step data = awaiting_answer ->
            exists questionId q,
              SessionData.questionId data = Some questionId
              /\ getQuestion db questionId = Some q
              /\ Question.approved q = true))
  \/ (exists userId,
        Db.sessions db'
        = Mongo.deleteOne (fun s => Session.user_id s =? userId)
            (Db.sessions db)).
Proof.
  destruct 1; unfold_helpers; db_simpl; auto.
  - right. left. now exists userId, data, now.
  - right. right. now exists userId.
  - destruct (getQuestion _ questionId); db_simpl; auto.
  - handler_cases; auto.
Qed.

Lemma Write_subscriptions (operator : bool) (db db' : Db.t) :
  Write operator db db' ->
  Db.subscriptions db' = Db.subscriptions db
  \/ (exists userId questionId now,
        Db.subscriptions db'
        = Mongo.upsertOne (same_subscription userId questionId) (fun s => s)
            (Subscription.mk userId questionId now) (Db.subscriptions db))
  \/ (exists userId questionId,
        Db.subscriptions db'
        = Mongo.deleteOne (same_subscription userId questionId)
            (Db.subscriptions db)).
Proof.
  destruct 1; unfold_helpers; db_simpl; auto.
  - destruct (getQuestion _ questionId); db_simpl; auto.
  - right. left. now exists userId, questionId, now.
  - right. right. now exists userId, questionId.
  - handler_cases; auto.
Qed.

Lemma Write_votes (operator : bool) (db db' : Db.t) :
  Write operator db db' ->
  Db.votes db' = Db.votes db
  \/ (exists userId answerId voteType now answer,
        getAnswerWithVotes db answerId = Some answer
        /\ Answer.user_id answer <> userId
        /\ Db.votes db'
           = Mongo.insertOne (Vote.mk userId answerId voteType now)
               (Mongo.deleteOne (same_vote userId answerId) (Db.votes db)))
  \/ (exists userId answerId,
        Db.votes db'
        = Mongo.deleteOne (same_vote userId answerId) (Db.votes db)).
Proof.
  destruct 1; unfold_helpers; db_simpl; auto.
  - destruct (getQuestion _ questionId); db_simpl; auto.
  - destruct (getAnswerWithVotes db answerId) as [answer|] eqn:Ha; auto.
    destruct (Answer.user_id answer =? userId) eqn:E; db_simpl; auto.
    right. left. exists userId, answerId, voteType, now, answer.
    split; [exact Ha |]. split; [| reflexivity].
    intros K. rewrite K, Z.eqb_refl in E. discriminate.
  - right. right. now exists userId, answerId.
Qed.

Lemma Write_user_unique (operator : bool) (db db' : Db.t) :
  user_unique db -> Write operator db db' -> user_unique db'.
Proof.
  unfold user_unique. intros H W.
  destruct (Write_users _ _ _ W)
    as [-> | [[userId [fresh [Hf ->]]] | [userId [field ->]]]].
  - exact H.
  - apply (NoDup_map_upsertOne User.user_id userId); auto using user_id_key.
  - rewrite map_updateOne; [exact H |]. intros d. now destruct field.
Qed.

Lemma Write_session_unique (operator : bool) (db db' : Db.t) :
  session_unique db -> Write operator db db' -> session_unique db'.
Proof.
  unfold session_unique. intros H W.
  destruct (Write_sessions _ _ _ W)
    as [-> | [[userId [data [now [-> _]]]] | [userId ->]]].
  - exact H.
  - apply (NoDup_map_upsertOne Session.user_id userId); auto.
    intros d. apply Z.eqb_eq.
  - now apply NoDup_map_deleteOne.
Qed.

Lemma Write_subscription_unique (operator : bool) (db db' : Db.t) :
  subscription_unique db -> Write operator db db' -> subscription_unique db'.
Proof.
  unfold subscription_unique. intros H W.
  destruct (Write_subscriptions _ _ _ W)
    as [-> | [[userId [questionId [now ->]]] | [userId [questionId ->]]]].
  - exact H.
  - apply (NoDup_map_upsertOne subscription_key (userId, questionId)); auto.
    apply same_subscription_key.
  - now apply NoDup_map_deleteOne.
Qed.

Lemma Write_vote_unique (operator : bool) (db db' : Db.t) :
  vote_unique db -> Write operator db db' -> vote_unique db'.
Proof.
  unfold vote_unique. intros H W.
  destruct (Write_votes _ _ _ W)
    as [-> | [[userId [answerId [voteType [now [answer [_ [_ ->]]]]]]]
             | [userId [answerId ->]]]].
  - exact H.
  - unfold Mongo.insertOne. rewrite map_app. cbn [map vote_key Vote.user_id
                                                    Vote.answer_id].
    apply NoDup_app.
    + now apply NoDup_map_deleteOne.
    + repeat constructor. intros [].
    + intros k Hk [<- | []].
      apply in_map_iff in Hk as [v [Hv Hin]].
      assert (In v (filter (same_vote userId answerId)
                      (Mongo.deleteOne (same_vote userId answerId) (Db.votes db))))
        as K by (apply filter_In; split; [exact Hin | now apply same_vote_key]).
      rewrite (filter_deleteOne_unique vote_key (userId, answerId)) in K;
        [destruct K | apply same_vote_key | exact H].
  - now apply NoDup_map_deleteOne.
Qed.

Section Indexes.
Variable ADMIN_ID : UserId.

(** X1.  The unique indexes declared at startup hold in every database the bot
    reaches: no handler ever leaves two users or two sessions with the same
    user, two subscriptions with the same user and question, or two votes
    with the same user and answer. *)
Theorem unique_indexes_hold (db : Db.t) :
  reachable ADMIN_ID db ->
  user_unique db /\ session_unique db /\ subscription_unique db
  /\ vote_unique db.
Proof.
  apply (reachable_invariant ADMIN_ID
           (fun db => user_unique db /\ session_unique db
                      /\ subscription_unique db /\ vote_unique db)).
  - repeat split; constructor.
  - intros operator d d' [Hu [Hs [Hsub Hv]]] W. repeat split.
    + eapply Write_user_unique; eauto.
    + eapply Write_session_unique; eauto.
    + eapply Write_subscription_unique; eauto.
    + eapply Write_vote_unique; eauto.
Qed.

End Indexes.

(** What a write can do to the questions, the answers and the identifiers
    handed out. *)
Lemma Write_content (operator : bool) (db db' : Db.t) :
  Write operator db db' ->
  (Db.questions db' = Db.questions db /\ Db.answers db' = Db.answers db
   /\ Db.next_id db' = Db.next_id db)
  \/ (exists doc,
        Db.questions db' = Mongo.insertOne doc (Db.questions db)
        /\ Question._id doc = Db.next_id db
        /\ Question.approved doc = false
        /\ Question.answer_count doc = 0
        /\ allowed (contentFilter (Question.question doc)) = true
        /\ Db.answers db' = Db.answers db
        /\ Db.next_id db' = N.succ (Db.next_id db))
  \/ (exists questionId message_id,
        operator = true
        /\ Db.questions db'
           = Mongo.updateOne (fun q => (Question._id q =? questionId)%N)
               (set_approved message_id) (Db.questions db)
        /\ Db.answers db' = Db.answers db
        /\ Db.next_id db' = Db.next_id db)
  \/ (exists questionId,
        operator = true
        /\ Db.questions db'
           = Mongo.deleteOne (fun q => (Question._id q =? questionId)%N)
               (Db.questions db)
        /\ Db.answers db' = Db.answers db
        /\ Db.next_id db' = Db.next_id db)
  \/ (exists doc session,
        Db.answers db' = Mongo.insertOne doc (Db.answers db)
        /\ Answer._id doc = Db.next_id db
        /\ Answer.votes doc = 0
        /\ allowed (contentFilter (Answer.answer doc)) = true
        /\ getSession db (Answer.user_id doc) = Some session
        /\ SessionData.step session = awaiting_answer
        /\ SessionData.questionId session = Some (Answer.question_id doc)
        /\ Db.questions db'
           = Mongo.updateOne
               (fun q => (Question._id q =? Answer.question_id doc)%N)
               inc_answer_count (Db.questions db)
        /\ Db.next_id db' = N.succ (Db.next_id db))
  \/ (exists answerId n,
        Db.answers db'
        = Mongo.updateOne (fun a => (Answer._id a =? answerId)%N) (inc_votes n)
            (Db.answers db)
        /\ Db.questions db' = Db.questions db
        /\ Db.next_id db' = Db.next_id db).
Proof.
  destruct 1.
  - left. unfold_helpers. db_simpl. auto.
  - left. unfold_helpers. db_simpl. auto.
  - left. unfold_helpers. db_simpl. auto.
  - right. left. unfold_helpers. db_simpl.
    eexists. split; [reflexivity |]. cbn. auto 10.
  - right. right. left. exists questionId, message_id. unfold_helpers.
    destruct (getQuestion _ questionId); db_simpl; auto.
  - right. right. right. left. exists questionId. db_simpl. auto.
  - do 4 right. left. unfold_helpers. db_simpl.
    eexists _, session. split; [reflexivity |]. cbn. auto 10.
  - left. unfold_helpers. db_simpl. auto.
  - left. unfold_helpers. db_simpl. auto.
  - unfold_helpers.
    destruct (getAnswerWithVotes db answerId) as [answer|]; [| now left].
    destruct (Answer.user_id answer =? userId); [now left |].
    do 5 right. db_simpl. eexists answerId, _. eauto.
  - left. db_simpl. auto.
  - left. unfold_helpers. db_simpl. auto.
  - left. unfold_helpers. db_simpl. auto.
Qed.

Lemma findOne_some {A : Type} (p : A -> bool) (c : list A) (d : A) :
  Mongo.findOne p c = Some d -> In d c /\ p d = true.
Proof. apply find_some. Qed.

Lemma getSession_in (db : Db.t) (userId : UserId) (session : SessionData.t) :
  getSession db userId = Some session ->
  exists s, In s (Db.sessions db) /\ Session.data s = session.
Proof.
  unfold getSession.
  destruct (Mongo.findOne _ (Db.sessions db)) as [s|] eqn:E; [| discriminate].
  intros H. injection H as <-. exists s. split; [| reflexivity].
  now apply findOne_some in E.
Qed.

Lemma getQuestion_in (db : Db.t) (questionId : ObjectId) (q : Question.t) :
  getQuestion db questionId = Some q ->
  In q (Db.questions db) /\ Question._id q = questionId.
Proof.
  intros H. apply findOne_some in H as [H E]. split; [exact H |].
  now apply N.eqb_eq.
Qed.

Lemma getAnswerWithVotes_in (db : Db.t) (answerId : ObjectId) (a : Answer.t) :
  getAnswerWithVotes db answerId = Some a ->
  In a (Db.answers db) /\ Answer._id a = answerId.
Proof.
  intros H. apply findOne_some in H as [H E]. split; [exact H |].
  now apply N.eqb_eq.
Qed.

Lemma Write_next_id (operator : bool) (db db' : Db.t) :
  Write operator db db' -> (Db.next_id db <= Db.next_id db')%N.
Proof.
  intros W.
  destruct (Write_content _ _ _ W)
    as [[_ [_ ->]] | [[doc [_ [_ [_ [_ [_ [_ ->]]]]]]]
       | [[q [m [_ [_ [_ ->]]]]] | [[q [_ [_ [_ ->]]]]
       | [[doc [s [_ [_ [_ [_ [_ [_ [_ [_ ->]]]]]]]]]] | [a [n [_ [_ ->]]]]]]]]];
    lia.
Qed.

Lemma Write_ids_issued (operator : bool) (db db' : Db.t) :
  ids_issued db -> Write operator db db' -> ids_issued db'.
Proof.
  intros [Hq [Ha [Hs Hv]]] W.
  pose proof (Write_next_id _ _ _ W) as Hn.
  assert (forall q, In q (Db.questions db) ->
                    (Question._id q < Db.next_id db')%N) as Hq'.
  { intros q Hin. rewrite Forall_forall in Hq. specialize (Hq q Hin). lia. }
  assert (forall a, In a (Db.answers db) ->
                    (Answer._id a < Db.next_id db')%N
                    /\ (Answer.question_id a < Db.next_id db')%N) as Ha'.
  { intros a Hin. rewrite Forall_forall in Ha. specialize (Ha a Hin). lia. }
  repeat split.
  - (* questions *)
    destruct (Write_content _ _ _ W)
      as [[-> _] | [[doc [-> [Hid [_ [_ [_ [_ Hnext]]]]]]]
         | [[q [m [_ [-> _]]]] | [[q [_ [-> _]]]
         | [[doc [s [_ [_ [_ [_ [_ [_ [_ [-> _]]]]]]]]]] | [a [n [_ [-> _]]]]]]]]].
    + now apply Forall_forall.
    + apply Forall_app. split; [now apply Forall_forall |].
      repeat constructor. rewrite Hid, Hnext. lia.
    + apply Forall_updateOne; [auto | now apply Forall_forall].
    + apply Forall_deleteOne. now apply Forall_forall.
    + apply Forall_updateOne; [auto | now apply Forall_forall].
    + now apply Forall_forall.
  - (* answers *)
    destruct (Write_content _ _ _ W)
      as [[_ [-> _]] | [[doc [_ [_ [_ [_ [_ [-> _]]]]]]]
         | [[q [m [_ [_ [-> _]]]]] | [[q [_ [_ [-> _]]]]
         | [[doc [s [-> [Hid [_ [_ [Hsess [Hstep [Hqid [_ Hnext]]]]]]]]]]
           | [a [n [-> _]]]]]]]];
      try (now apply Forall_forall).
    + apply Forall_app. split; [now apply Forall_forall |].
      repeat constructor.
      * rewrite Hid, Hnext. lia.
      * apply getSession_in in Hsess as [sd [Hin <-]].
        rewrite Forall_forall in Hs.
        destruct (Hs sd Hin Hstep) as [questionId [E Hlt]].
        rewrite Hqid in E. injection E as ->. lia.
    + apply Forall_updateOne; [auto | now apply Forall_forall].
  - (* sessions *)
    assert (Forall
              (fun s => SessionData.step (Session.data s) = awaiting_answer ->
                        exists questionId,
                          SessionData.questionId (Session.data s)
                          = Some questionId
                          /\ (questionId < Db.next_id db')%N)
              (Db.sessions db)) as Hs'.
    { eapply Forall_impl; [| exact Hs]. intros s H Hstep.
      destruct (H Hstep) as [questionId [E Hlt]]. exists questionId.
      split; [exact E | lia]. }
    destruct (Write_sessions _ _ _ W)
      as [-> | [[userId [data [now [-> Hdata]]]] | [userId ->]]].
    + exact Hs'.
    + assert (SessionData.step data = awaiting_answer ->
              exists questionId,
                SessionData.questionId data = Some questionId
                /\ (questionId < Db.next_id db')%N) as Hnew.
      { intros Hstep. destruct (Hdata Hstep) as [questionId [q [E [Hget _]]]].
        exists questionId. split; [exact E |].
        apply getQuestion_in in Hget as [Hin <-]. now apply Hq'. }
      apply Forall_upsertOne; auto.
    + now apply Forall_deleteOne.
  - (* votes *)
    assert (Forall (fun v => (Vote.answer_id v < Db.next_id db')%N)
              (Db.votes db)) as Hv'.
    { eapply Forall_impl; [| exact Hv]. cbn. intros v H. lia. }
    destruct (Write_votes _ _ _ W)
      as [-> | [[userId [answerId [voteType [now [answer [Hget [_ ->]]]]]]]
               | [userId [answerId ->]]]].
    + exact Hv'.
    + apply Forall_app. split; [now apply Forall_deleteOne |].
      repeat constructor. cbn.
      apply getAnswerWithVotes_in in Hget as [Hin <-]. now apply Ha'.
    + now apply Forall_deleteOne.
Qed.

Lemma NoDup_map_insert_fresh {A : Type} (key : A -> N) (n : N) (doc : A)
  (c : list A) :
  Forall (fun d => (key d < n)%N) c -> key doc = n ->
  NoDup (map key c) -> NoDup (map key (Mongo.insertOne doc c)).
Proof.
  intros Hlt Hk H. unfold Mongo.insertOne. rewrite map_app. cbn.
  apply NoDup_app; [exact H | repeat constructor; intros [] |].
  intros k Hin [<- | []].
  apply in_map_iff in Hin as [d [Hd Hin]].
  rewrite Forall_forall in Hlt. specialize (Hlt d Hin). lia.
Qed.

Lemma Write_question_ids_unique (operator : bool) (db db' : Db.t) :
  ids_issued db -> question_ids_unique db -> Write operator db db' ->
  question_ids_unique db'.
Proof.
  unfold question_ids_unique. intros [Hq _] H W.
  destruct (Write_content _ _ _ W)
    as [[-> _] | [[doc [-> [Hid _]]]
       | [[q [m [_ [-> _]]]] | [[q [_ [-> _]]]
       | [[doc [s [_ [_ [_ [_ [_ [_ [_ [-> _]]]]]]]]]] | [a [n [_ [-> _]]]]]]]]].
  - exact H.
  - now apply (NoDup_map_insert_fresh Question._id (Db.next_id db)).
  - now rewrite map_updateOne.
  - now apply NoDup_map_deleteOne.
  - now rewrite map_updateOne.
  - exact H.
Qed.

Lemma Write_answer_ids_unique (operator : bool) (db db' : Db.t) :
  ids_issued db -> answer_ids_unique db -> Write operator db db' ->
  answer_ids_unique db'.
Proof.
  unfold answer_ids_unique. intros [_ [Ha _]] H W.
  destruct (Write_content _ _ _ W)
    as [[_ [-> _]] | [[doc [_ [_ [_ [_ [_ [-> _]]]]]]]
       | [[q [m [_ [_ [-> _]]]]] | [[q [_ [_ [-> _]]]]
       | [[doc [s [-> [Hid _]]]] | [a [n [-> _]]]]]]]]; try exact H.
  - apply (NoDup_map_insert_fresh Answer._id (Db.next_id db)); auto.
    eapply Forall_impl; [| exact Ha]. cbn. tauto.
  - now rewrite map_updateOne.
Qed.

Lemma Write_moderated (operator : bool) (db db' : Db.t) :
  moderated db -> Write operator db db' -> moderated db'.
Proof.
  intros [Hq Ha] W. unfold moderated.
  destruct (Write_content _ _ _ W)
    as [[-> [-> _]] | [[doc [-> [_ [_ [_ [Hok [-> _]]]]]]]
       | [[q [m [_ [-> [-> _]]]]] | [[q [_ [-> [-> _]]]]
       | [[doc [s [-> [_ [_ [Hok [_ [_ [_ [-> _]]]]]]]]]]
         | [a [n [-> [-> _]]]]]]]]].
  - now split.
  - split; [| exact Ha]. apply Forall_app. split; [exact Hq |].
    now repeat constructor.
  - split; [| exact Ha]. now apply Forall_updateOne.
  - split; [| exact Ha]. now apply Forall_deleteOne.
  - split.
    + now apply Forall_updateOne.
    + apply Forall_app. split; [exact Ha |]. now repeat constructor.
  - split; [exact Hq |]. now apply Forall_updateOne.
Qed.

Lemma Write_published (operator : bool) (db db' : Db.t) :
  published db -> Write operator db db' -> published db'.
Proof.
  unfold published. intros H W.
  destruct (Write_content _ _ _ W)
    as [[-> _] | [[doc [-> [_ [Hpending _]]]]
       | [[q [m [_ [-> _]]]] | [[q [_ [-> _]]]
       | [[doc [s [_ [_ [_ [_ [_ [_ [_ [-> _]]]]]]]]]] | [a [n [_ [-> _]]]]]]]]].
  - exact H.
  - apply Forall_app. split; [exact H |].
    repeat constructor. rewrite Hpending. discriminate.
  - apply Forall_updateOne; [| exact H]. intros d _ _. discriminate.
  - now apply Forall_deleteOne.
  - now apply Forall_updateOne.
  - exact H.
Qed.

Section MongoFacts3.
Context {A : Type}.
Implicit Types (p q : A -> bool) (f : A -> A) (c : list A).

Lemma map_unmatched p f c :
  Forall (fun d => p d = false) c ->
  map (fun d => if p d then f d else d) c = c.
Proof.
  induction 1 as [|d c Hd _ IH]; cbn; [reflexivity |].
  now rewrite Hd, IH.
Qed.

(** Under a unique key [updateOne] updates every document of the key. *)
Lemma updateOne_unique_key {K : Type} (key : A -> K) (k : K) p f c :
  (forall d, p d = true <-> key d = k) ->
  NoDup (map key c) ->
  Mongo.updateOne p f c = Mongo.updateMany p f c.
Proof.
  intros Hp. unfold Mongo.updateMany.
  induction c as [|d c IH]; cbn; [reflexivity |].
  intros H. inversion H as [|k' ks Hk Hks]; subst.
  destruct (p d) eqn:Hd.
  - f_equal. symmetry. apply map_unmatched. apply Forall_forall.
    intros d' Hin. destruct (p d') eqn:Hd'; [| reflexivity].
    exfalso. apply Hk. apply in_map_iff. exists d'.
    apply Hp in Hd, Hd'. split; [congruence | exact Hin].
  - f_equal. now apply IH.
Qed.

Lemma countDocuments_insertOne q d c :
  Mongo.countDocuments q (Mongo.insertOne d c)
  = Mongo.countDocuments q c + (if q d then 1 else 0).
Proof.
  unfold Mongo.countDocuments, Mongo.insertOne.
  rewrite filter_app, length_app. cbn. destruct (q d); cbn; lia.
Qed.

Lemma countDocuments_updateOne p q f c :
  (forall d, q (f d) = q d) ->
  Mongo.countDocuments q (Mongo.updateOne p f c) = Mongo.countDocuments q c.
Proof.
  intros Hf. unfold Mongo.countDocuments. f_equal.
  induction c as [|d c IH]; cbn; [reflexivity |].
  destruct (p d); cbn.
  - rewrite Hf. now destruct (q d).
  - destruct (q d); cbn; now rewrite IH.
Qed.

Lemma countDocuments_none q c :
  Forall (fun d => q d = false) c -> Mongo.countDocuments q c = 0.
Proof.
  unfold Mongo.countDocuments.
  induction 1 as [|d c Hd _ IH]; cbn; [reflexivity |]. now rewrite Hd.
Qed.

End MongoFacts3.

Lemma Write_answer_counts (operator : bool) (db db' : Db.t) :
  ids_issued db -> question_ids_unique db -> answer_counts_hold db ->
  Write operator db db' -> answer_counts_hold db'.
Proof.
  unfold answer_counts_hold, getAnswerCountForQuestion.
  intros [_ [Ha _]] Hu H W.
  destruct (Write_content _ _ _ W)
    as [[-> [-> _]] | [[doc [-> [Hid [_ [Hzero [_ [-> _]]]]]]]
       | [[q [m [_ [-> [-> _]]]]] | [[q [_ [-> [-> _]]]]
       | [[doc [s [-> [_ [_ [_ [_ [_ [_ [-> _]]]]]]]]]]
         | [a [n [-> [-> _]]]]]]]]].
  - exact H.
  - apply Forall_app. split; [exact H |].
    repeat constructor. rewrite Hzero. symmetry.
    apply countDocuments_none.
    eapply Forall_impl; [| exact Ha]. cbn. intros a [_ Hlt].
    apply N.eqb_neq. lia.
  - apply Forall_updateOne; [| exact H]. intros d Hd. exact Hd.
  - now apply Forall_deleteOne.
  - rewrite (updateOne_unique_key Question._id (Answer.question_id doc));
      [| apply question_id_key | exact Hu].
    unfold Mongo.updateMany. apply Forall_map.
    eapply Forall_impl; [| exact H]. cbn beta. intros d Hd.
    destruct (Question._id d =? Answer.question_id doc)%N eqn:E;
      rewrite countDocuments_insertOne; cbn [inc_answer_count Question._id
                                              Question.answer_count].
    + rewrite N.eqb_sym, E. lia.
    + rewrite N.eqb_sym, E. lia.
  - eapply Forall_impl; [| exact H]. cbn beta. intros d Hd.
    rewrite countDocuments_updateOne; [exact Hd |]. reflexivity.
Qed.

(** An answer stays, with its author, whatever is written. *)
Lemma Write_answer_kept (operator : bool) (db db' : Db.t) (answerId : ObjectId)
  (a : Answer.t) :
  Write operator db db' ->
  getAnswerWithVotes db answerId = Some a ->
  exists a',
    getAnswerWithVotes db' answerId = Some a'
    /\ Answer.user_id a' = Answer.user_id a
    /\ Answer.question_id a' = Answer.question_id a
    /\ Answer.answer a' = Answer.answer a.
Proof.
  intros W Hget. unfold getAnswerWithVotes in *.
  destruct (Write_content _ _ _ W)
    as [[_ [-> _]] | [[doc [_ [_ [_ [_ [_ [-> _]]]]]]]
       | [[q [m [_ [_ [-> _]]]]] | [[q [_ [_ [-> _]]]]
       | [[doc [s [-> _]]] | [a0 [n [-> _]]]]]]]];
    try (exists a; now auto).
  - exists a. rewrite findOne_insertOne, Hget. auto.
  - destruct (answerId =? a0)%N eqn:E.
    + apply N.eqb_eq in E. subst a0.
      rewrite findOne_updateOne_same, Hget by (intros d Hd; exact Hd).
      exists (inc_votes n a). auto.
    + rewrite findOne_updateOne_other, Hget.
      * exists a. auto.
      * reflexivity.
      * intros d Hd. apply N.eqb_eq in Hd. cbn in Hd. rewrite Hd. exact E.
Qed.

Lemma Write_votes_by_others (operator : bool) (db db' : Db.t) :
  votes_by_others db -> Write operator db db' -> votes_by_others db'.
Proof.
  unfold votes_by_others. intros H W.
  assert (Forall
            (fun v => exists a,
                        getAnswerWithVotes db' (Vote.answer_id v) = Some a
                        /\ Answer.user_id a <> Vote.user_id v)
            (Db.votes db)) as Hold.
  { eapply Forall_impl; [| exact H]. cbn beta. intros v [a [Hget Hne]].
    destruct (Write_answer_kept _ _ _ _ _ W Hget) as [a' [Hget' [Hu _]]].
    exists a'. split; [exact Hget' | congruence]. }
  destruct (Write_votes _ _ _ W)
    as [-> | [[userId [answerId [voteType [now [answer [Hget [Hne ->]]]]]]]
             | [userId [answerId ->]]]].
  - exact Hold.
  - apply Forall_app. split; [now apply Forall_deleteOne |].
    repeat constructor. cbn [Vote.answer_id Vote.user_id].
    destruct (Write_answer_kept _ _ _ _ _ W Hget) as [a' [Hget' [Hu _]]].
    exists a'. split; [exact Hget' | congruence].
  - now apply Forall_deleteOne.
Qed.

Section Consistency.
Variable ADMIN_ID : UserId.

Lemma reachable_ids (db : Db.t) :
  reachable ADMIN_ID db ->
  ids_issued db /\ question_ids_unique db /\ answer_ids_unique db.
Proof.
  apply (reachable_invariant ADMIN_ID
           (fun db => ids_issued db /\ question_ids_unique db
                      /\ answer_ids_unique db)).
  - repeat split; constructor.
  - intros operator d d' [Hi [Hq Ha]] W. repeat split.
    + eapply Write_ids_issued; eauto.
    + eapply Write_ids_issued; eauto.
    + eapply Write_ids_issued; eauto.
    + eapply Write_ids_issued; eauto.
    + eapply Write_question_ids_unique; eauto.
    + eapply Write_answer_ids_unique; eauto.
Qed.

(** Every session that waits for an answer names the question it is
    for. *)
Lemma answer_session_has_question (db : Db.t) (userId : UserId)
  (session : SessionData.t) :
  reachable ADMIN_ID db ->
  getSession db userId = Some session ->
  SessionData.step session = awaiting_answer ->
  exists questionId, SessionData.questionId session = Some questionId.
Proof.
  intros Hr Hs Hstep.
  destruct (reachable_ids db Hr) as [[_ [_ [Hsess _]]] _].
  apply getSession_in in Hs as [s [Hin <-]].
  rewrite Forall_forall in Hsess.
  destruct (Hsess s Hin Hstep) as [questionId [E _]]. now exists questionId.
Qed.

(** X2.  In every database the bot reaches, the answer counter of each question
    is the number of answers stored for it. *)
Theorem answer_count_is_number_of_answers (db : Db.t) (q : Question.t) :
  reachable ADMIN_ID db ->
  In q (Db.questions db) ->
  Question.answer_count q = getAnswerCountForQuestion db (Question._id q).
Proof.
  intros Hr.
  assert (ids_issued db /\ question_ids_unique db /\ answer_ids_unique db
          /\ answer_counts_hold db) as [_ [_ [_ H]]].
  { revert db Hr.
    apply (reachable_invariant ADMIN_ID
             (fun db => ids_issued db /\ question_ids_unique db
                        /\ answer_ids_unique db /\ answer_counts_hold db)).
    - repeat split; constructor.
    - intros operator d d' [Hi [Hq [Ha Hc]]] W.
      split; [eapply Write_ids_issued; eauto |].
      split; [eapply Write_question_ids_unique; eauto |].
      split; [eapply Write_answer_ids_unique; eauto |].
      eapply Write_answer_counts; eauto. }
  unfold answer_counts_hold in H. rewrite Forall_forall in H. apply H.
Qed.

(** X3.  Every stored question and answer has passed the content filter. *)
Theorem stored_texts_passed_the_filter (db : Db.t) :
  reachable ADMIN_ID db ->
  (forall q, In q (Db.questions db) ->
             allowed (contentFilter (Question.question q)) = true)
  /\ (forall a, In a (Db.answers db) ->
                allowed (contentFilter (Answer.answer a)) = true).
Proof.
  intros Hr.
  assert (moderated db) as [Hq Ha].
  { revert db Hr. apply (reachable_invariant ADMIN_ID moderated).
    - split; constructor.
    - intros operator d d'. apply Write_moderated. }
  rewrite Forall_forall in Hq, Ha. now split.
Qed.

(** X4.  A question is stored unapproved, and an approved question always has
    the identifier of its channel message. *)
Theorem approved_questions_are_published (db : Db.t) (q : Question.t) :
  reachable ADMIN_ID db ->
  In q (Db.questions db) ->
  Question.approved q = true ->
  exists message_id, Question.channel_message_id q = Some message_id.
Proof.
  intros Hr Hin Happroved.
  assert (published db) as H.
  { clear Hin. revert db Hr. apply (reachable_invariant ADMIN_ID published).
    - constructor.
    - intros operator d d'. apply Write_published. }
  unfold published in H. rewrite Forall_forall in H.
  specialize (H q Hin Happroved).
  destruct (Question.channel_message_id q) as [m|]; [now exists m | congruence].
Qed.

(** X5.  No vote of an author on the own answer is ever stored, and every stored
    vote is on an answer that exists. *)
Theorem no_stored_vote_is_a_self_vote (db : Db.t) (v : Vote.t) :
  reachable ADMIN_ID db ->
  In v (Db.votes db) ->
  exists a,
    getAnswerWithVotes db (Vote.answer_id v) = Some a
    /\ Answer.user_id a <> Vote.user_id v.
Proof.
  intros Hr.
  assert (votes_by_others db) as H.
  { revert db Hr. apply (reachable_invariant ADMIN_ID votes_by_others).
    - constructor.
    - intros operator d d'. apply Write_votes_by_others. }
  unfold votes_by_others in H. rewrite Forall_forall in H. apply H.
Qed.

End Consistency.

(** ** What only the operator can do *)

Lemma map_lifecycle_updateOne_count (p : Question.t -> bool)
  (c : list Question.t) :
  map lifecycle (Mongo.updateOne p inc_answer_count c) = map lifecycle c.
Proof. apply map_updateOne. reflexivity. Qed.

Lemma Write_lifecycle (db0 db db' : Db.t) :
  (exists added,
     map lifecycle (Db.questions db)
     = map lifecycle (Db.questions db0) ++ map lifecycle added
     /\ Forall (fun q => Question.approved q = false) added) ->
  Write false db db' ->
  exists added,
    map lifecycle (Db.questions db')
    = map lifecycle (Db.questions db0) ++ map lifecycle added
    /\ Forall (fun q => Question.approved q = false) added.
Proof.
  intros [added [H Hp]] W.
  destruct (Write_content _ _ _ W)
    as [[-> _] | [[doc [-> [_ [Hpending _]]]]
       | [[q [m [Hop _]]] | [[q [Hop _]]
       | [[doc [s [_ [_ [_ [_ [_ [_ [_ [-> _]]]]]]]]]] | [a [n [_ [-> _]]]]]]]]];
    try discriminate.
  - now exists added.
  - exists (added ++ [doc]). unfold Mongo.insertOne.
    rewrite !map_app, H, app_assoc. split; [reflexivity |].
    apply Forall_app. split; [exact Hp | now repeat constructor].
  - exists added. now rewrite map_lifecycle_updateOne_count.
  - now exists added.
Qed.

Section Operator.
Variable ADMIN_ID : UserId.

(** X6.  An update that does not come from the operator approves no question
    and deletes none: the questions keep their identifier, author, text,
    approval and channel message, in their order, and a question that is
    added is not approved. *)
Theorem only_the_operator_approves_or_deletes (db : Db.t) (u : Update) :
  From.id (sender u) <> ADMIN_ID ->
  exists added,
    map lifecycle (Db.questions (fst (handle ADMIN_ID db u)))
    = map lifecycle (Db.questions db) ++ map lifecycle added
    /\ Forall (fun q => Question.approved q = false) added.
Proof.
  intros Hne.
  pose proof (handle_writes ADMIN_ID db u) as W.
  apply Z.eqb_neq in Hne. rewrite Hne in W.
  apply (Writes_invariant
           (fun d => exists added,
              map lifecycle (Db.questions d)
              = map lifecycle (Db.questions db) ++ map lifecycle added
              /\ Forall (fun q => Question.approved q = false) added)
           false db).
  - intros d d'. apply Write_lifecycle.
  - exact W.
  - exists []. cbn. now rewrite app_nil_r.
Qed.

End Operator.

(** ** Notifications are kept *)

Lemma kept_or_read_refl (ns : list Notification.t) : kept_or_read ns ns.
Proof. induction ns; constructor; auto. Qed.

Lemma set_read_twice (n : Notification.t) : set_read (set_read n) = set_read n.
Proof. reflexivity. Qed.

Lemma kept_or_read_trans (a b c : list Notification.t) :
  kept_or_read a b -> kept_or_read b c -> kept_or_read a c.
Proof.
  intros H. revert c. induction H as [|n n' a b Hn _ IH]; intros c Hc.
  - inversion Hc. constructor.
  - inversion Hc as [|m m' b' c' Hm Hrest]; subst. constructor; [| now apply IH].
    destruct Hn as [-> | ->], Hm as [-> | ->]; auto.
Qed.

Lemma kept_or_read_updateMany (p : Notification.t -> bool)
  (ns : list Notification.t) :
  kept_or_read ns (Mongo.updateMany p set_read ns).
Proof.
  unfold Mongo.updateMany. induction ns as [|n ns IH]; constructor; [| exact IH].
  destruct (p n); auto.
Qed.

Lemma Write_notifications (operator : bool) (db db' : Db.t) :
  Write operator db db' ->
  exists kept added,
    Db.notifications db' = kept ++ added
    /\ kept_or_read (Db.notifications db) kept.
Proof.
  destruct 1; unfold_helpers; db_simpl;
    try (exists (Db.notifications db), []; rewrite app_nil_r;
         split; [reflexivity | apply kept_or_read_refl]).
  - destruct (getQuestion _ questionId); db_simpl;
      exists (Db.notifications db), []; rewrite app_nil_r;
      (split; [reflexivity | apply kept_or_read_refl]).
  - handler_cases; exists (Db.notifications db), []; rewrite app_nil_r;
      (split; [reflexivity | apply kept_or_read_refl]).
  - eexists (Db.notifications db), _. split; [reflexivity |].
    apply kept_or_read_refl.
  - eexists _, []. rewrite app_nil_r. split; [reflexivity |].
    apply kept_or_read_updateMany.
Qed.

Lemma Forall2_app_inv_left {A B : Type} (R : A -> B -> Prop) (a1 a2 : list A)
  (b : list B) :
  Forall2 R (a1 ++ a2) b ->
  exists b1 b2, b = b1 ++ b2 /\ Forall2 R a1 b1 /\ Forall2 R a2 b2.
Proof.
  intros H. apply Forall2_app_inv_l in H as [b1 [b2 [H1 [H2 ->]]]].
  now exists b1, b2.
Qed.

Section Kept.
Variable ADMIN_ID : UserId.

(** X7.  No update deletes or rewrites a notification: after any update the
    earlier notifications are all still there, in their order, each one
    unchanged or marked read, and new ones come after them. *)
Theorem notifications_are_kept (db : Db.t) (u : Update) :
  exists kept added,
    Db.notifications (fst (handle ADMIN_ID db u)) = kept ++ added
    /\ kept_or_read (Db.notifications db) kept.
Proof.
  apply (Writes_invariant
           (fun d => exists kept added,
              Db.notifications d = kept ++ added
              /\ kept_or_read (Db.notifications db) kept)
           (From.id (sender u) =? ADMIN_ID) db).
  - intros d d' [kept [added [E K]]] W.
    destruct (Write_notifications _ _ _ W) as [kept' [added' [E' K']]].
    rewrite E in K'.
    apply Forall2_app_inv_left in K' as [k1 [k2 [-> [K1 K2]]]].
    exists k1, (k2 ++ added'). split; [now rewrite E', app_assoc |].
    eapply kept_or_read_trans; eauto.
  - apply handle_writes.
  - exists (Db.notifications db), []. rewrite app_nil_r.
    split; [reflexivity | apply kept_or_read_refl].
Qed.

End Kept.

(** ** Answers are on approved questions *)

Lemma findOne_deleteOne_other {A : Type} (p q : A -> bool) (c : list A) :
  (forall d, q d = true -> p d = false) ->
  Mongo.findOne q (Mongo.deleteOne p c) = Mongo.findOne q c.
Proof.
  intros Hpq. unfold Mongo.findOne. induction c as [|d c IH]; cbn; [reflexivity |].
  destruct (p d) eqn:Hd; cbn.
  - destruct (q d) eqn:Hq; [| reflexivity]. apply Hpq in Hq. congruence.
  - now rewrite IH.
Qed.

Lemma question_id_other (a b : ObjectId) (d : Question.t) :
  (a =? b)%N = false ->
  (Question._id d =? a)%N = true -> (Question._id d =? b)%N = false.
Proof.
  intros E H. apply N.eqb_eq in H. now rewrite H.
Qed.

(** A question found after a write was there before, and approved if it
    was approved before. *)
Lemma Write_question_status (operator : bool) (db db' : Db.t)
  (questionId : ObjectId) (q' : Question.t) :
  question_ids_unique db ->
  (questionId < Db.next_id db)%N ->
  Write operator db db' ->
  getQuestion db' questionId = Some q' ->
  exists q,
    getQuestion db questionId = Some q
    /\ (Question.approved q = true -> Question.approved q' = true).
Proof.
  intros Hu Hlt W. unfold getQuestion.
  destruct (Write_content _ _ _ W)
    as [[-> _] | [[doc [-> [Hid _]]]
       | [[q0 [m [_ [-> _]]]] | [[q0 [_ [-> _]]]
       | [[doc [s [_ [_ [_ [_ [_ [_ [_ [-> _]]]]]]]]]] | [a [n [_ [-> _]]]]]]]]].
  - intros H. now exists q'.
  - rewrite findOne_insertOne.
    destruct (Mongo.findOne _ (Db.questions db)) as [q|].
    + intros H. injection H as <-. now exists q.
    + destruct (Question._id doc =? questionId)%N eqn:E; [| discriminate].
      apply N.eqb_eq in E. lia.
  - destruct (questionId =? q0)%N eqn:E.
    + apply N.eqb_eq in E. subst q0.
      rewrite findOne_updateOne_same by (intros d Hd; exact Hd).
      destruct (Mongo.findOne _ (Db.questions db)) as [q|]; [| discriminate].
      intros H. injection H as <-. now exists q.
    + rewrite findOne_updateOne_other.
      * intros H. now exists q'.
      * reflexivity.
      * intros d. now apply question_id_other.
  - destruct (questionId =? q0)%N eqn:E.
    + apply N.eqb_eq in E. subst q0.
      rewrite findOne_none_of_filter_nil; [discriminate |].
      apply (filter_deleteOne_unique Question._id questionId);
        [apply question_id_key | exact Hu].
    + rewrite findOne_deleteOne_other.
      * intros H. now exists q'.
      * intros d. now apply question_id_other.
  - destruct (questionId =? Answer.question_id doc)%N eqn:E.
    + apply N.eqb_eq in E. rewrite <- E.
      rewrite findOne_updateOne_same by (intros d Hd; exact Hd).
      destruct (Mongo.findOne _ (Db.questions db)) as [q|]; [| discriminate].
      intros H. injection H as <-. now exists q.
    + rewrite findOne_updateOne_other.
      * intros H. now exists q'.
      * reflexivity.
      * intros d. now apply question_id_other.
  - intros H. now exists q'.
Qed.

Lemma Write_answers_on_approved (operator : bool) (db db' : Db.t) :
  ids_issued db -> question_ids_unique db -> answers_on_approved db ->
  Write operator db db' -> answers_on_approved db'.
Proof.
  intros [Hq [Ha [Hs _]]] Hu [Is Ia] W.
  assert (forall questionId q',
            (questionId < Db.next_id db)%N ->
            (forall q, getQuestion db questionId = Some q ->
                       Question.approved q = true) ->
            getQuestion db' questionId = Some q' ->
            Question.approved q' = true) as Hstatus.
  { intros questionId q' Hlt Hold Hget.
    destruct (Write_question_status _ _ _ _ _ Hu Hlt W Hget) as [q [Hg Hm]].
    apply Hm. now apply Hold. }
  assert (Forall
            (fun s => SessionData.step (Session.data s) = awaiting_answer ->
                      forall questionId q,
                        SessionData.questionId (Session.data s)
                        = Some questionId ->
                        getQuestion db' questionId = Some q ->
                        Question.approved q = true)
            (Db.sessions db)) as Hold.
  { rewrite Forall_forall in *. intros s Hin Hstep questionId q' E Hget.
    destruct (Hs s Hin Hstep) as [q0 [E0 Hlt]].
    rewrite E in E0. injection E0 as <-.
    apply (Hstatus questionId q' Hlt); [| exact Hget].
    intros q. now apply (Is s Hin Hstep). }
  split.
  - destruct (Write_sessions _ _ _ W)
      as [-> | [[userId [data [now [-> Hdata]]]] | [userId ->]]].
    + exact Hold.
    + assert (SessionData.step data = awaiting_answer ->
              forall questionId q,
                SessionData.questionId data = Some questionId ->
                getQuestion db' questionId = Some q ->
                Question.approved q = true) as Hnew.
      { intros Hstep questionId q' E Hget.
        destruct (Hdata Hstep) as [q0 [q [E0 [Hg Happ]]]].
        rewrite E in E0. injection E0 as <-.
        apply (Hstatus questionId q'); [| | exact Hget].
        - apply getQuestion_in in Hg as [Hin <-].
          rewrite Forall_forall in Hq. now apply Hq.
        - intros q1 Hg1. rewrite Hg in Hg1. now injection Hg1 as <-. }
      apply Forall_upsertOne; auto.
    + now apply Forall_deleteOne.
  - assert (Forall
              (fun a => forall q,
                          getQuestion db' (Answer.question_id a) = Some q ->
                          Question.approved q = true)
              (Db.answers db)) as Hans.
    { rewrite Forall_forall in *. intros a Hin q' Hget.
      apply (Hstatus (Answer.question_id a) q'); [| | exact Hget].
      - now apply Ha.
      - now apply Ia. }
    destruct (Write_content _ _ _ W)
      as [[_ [-> _]] | [[doc [_ [_ [_ [_ [_ [-> _]]]]]]]
         | [[q0 [m [_ [_ [-> _]]]]] | [[q0 [_ [_ [-> _]]]]
         | [[doc [s [-> [_ [_ [_ [Hsess [Hstep [Hqid _]]]]]]]]]
           | [a [n [-> _]]]]]]]]; try exact Hans.
    + apply Forall_app. split; [exact Hans |]. repeat constructor.
      intros q' Hget.
      apply getSession_in in Hsess as [sd [Hin <-]].
      rewrite Forall_forall in Hs, Is.
      destruct (Hs sd Hin Hstep) as [q0 [E0 Hlt]].
      rewrite Hqid in E0. injection E0 as <-.
      apply (Hstatus (Answer.question_id doc) q' Hlt); [| exact Hget].
      intros q. now apply (Is sd Hin Hstep).
    + apply Forall_updateOne; [| exact Hans]. intros d Hd. exact Hd.
Qed.

Section Approved.
Variable ADMIN_ID : UserId.

(** X8.  Answers are only taken for approved questions: in every database the
    bot reaches, the question of every stored answer is approved, unless
    the question has been deleted since. *)
Theorem answers_are_on_approved_questions (db : Db.t) (a : Answer.t)
  (q : Question.t) :
  reachable ADMIN_ID db ->
  In a (Db.answers db) ->
  getQuestion db (Answer.question_id a) = Some q ->
  Question.approved q = true.
Proof.
  intros Hr.
  assert (ids_issued db /\ question_ids_unique db /\ answer_ids_unique db
          /\ answers_on_approved db) as [_ [_ [_ [_ H]]]].
  { revert db Hr.
    apply (reachable_invariant ADMIN_ID
             (fun db => ids_issued db /\ question_ids_unique db
                        /\ answer_ids_unique db /\ answers_on_approved db)).
    - repeat split; constructor.
    - intros operator d d' [Hi [Hq [Ha Hc]]] W.
      split; [eapply Write_ids_issued; eauto |].
      split; [eapply Write_question_ids_unique; eauto |].
      split; [eapply Write_answer_ids_unique; eauto |].
      eapply Write_answers_on_approved; eauto. }
  rewrite Forall_forall in H. intros Hin. now apply H.
Qed.

End Approved.

Section AnswersKept.
Variable ADMIN_ID : UserId.

(** X21.  No update deletes an answer or changes its author, question or text:
    an answer that can be looked up before an update can be looked up after
    it, with the same author, question and text. *)
Theorem answers_are_kept (db : Db.t) (u : Update) (answerId : ObjectId)
  (a : Answer.t) :
  getAnswerWithVotes db answerId = Some a ->
  exists a',
    getAnswerWithVotes (fst (handle ADMIN_ID db u)) answerId = Some a'
    /\ Answer.user_id a' = Answer.user_id a
    /\ Answer.question_id a' = Answer.question_id a
    /\ Answer.answer a' = Answer.answer a.
Proof.
  intros Ha.
  apply (Writes_invariant
           (fun d => exists a',
              getAnswerWithVotes d answerId = Some a'
              /\ Answer.user_id a' = Answer.user_id a
              /\ Answer.question_id a' = Answer.question_id a
              /\ Answer.answer a' = Answer.answer a)
           (From.id (sender u) =? ADMIN_ID) db).
  - intros d d' [a1 [H1 [Hu [Hq Ht]]]] W.
    destruct (Write_answer_kept _ _ _ _ _ W H1) as [a2 [H2 [Hu2 [Hq2 Ht2]]]].
    exists a2. repeat split; congruence.
  - apply handle_writes.
  - now exists a.
Qed.

End AnswersKept.

(** ** Sessions *)

Lemma findOne_upsertOne_same {A : Type} (p : A -> bool) (f : A -> A)
  (fresh : A) (c : list A) :
  (forall d, p d = true -> p (f d) = true) -> p fresh = true ->
  Mongo.findOne p (Mongo.upsertOne p f fresh c)
  = match Mongo.findOne p c with
    | Some d => Some (f d)
    | None => Some fresh
    end.
Proof.
  intros Hf Hfresh. unfold Mongo.upsertOne. rewrite findOne_existsb.
  destruct (Mongo.findOne p c) as [d|] eqn:E.
  - rewrite findOne_updateOne_same by exact Hf. now rewrite E.
  - rewrite findOne_insertOne, E. now rewrite Hfresh.
Qed.

Lemma findOne_upsertOne_other {A : Type} (p q : A -> bool) (f : A -> A)
  (fresh : A) (c : list A) :
  (forall d, q (f d) = q d) -> (forall d, q d = true -> p d = false) ->
  q fresh = false ->
  Mongo.findOne q (Mongo.upsertOne p f fresh c) = Mongo.findOne q c.
Proof.
  intros Hf Hpq Hfresh. unfold Mongo.upsertOne. destruct (existsb p c).
  - now apply findOne_updateOne_other.
  - rewrite findOne_insertOne, Hfresh. now destruct (Mongo.findOne q c).
Qed.

Lemma user_key_other (a b : UserId) :
  a <> b -> forall x : UserId, (x =? a) = true -> (x =? b) = false.
Proof.
  intros Hne x H. apply Z.eqb_eq in H. subst x. now apply Z.eqb_neq.
Qed.

Lemma getSession_saveSession (db : Db.t) (userId : UserId)
  (data : SessionData.t) (now : Date) :
  getSession (saveSession db userId data now) userId = Some data.
Proof.
  unfold getSession, saveSession. db_simpl.
  rewrite findOne_upsertOne_same.
  - now destruct (Mongo.findOne _ (Db.sessions db)).
  - intros d Hd. exact Hd.
  - apply Z.eqb_refl.
Qed.

Lemma getSession_deleteSession (db : Db.t) (userId : UserId) :
  session_unique db -> getSession (deleteSession db userId) userId = None.
Proof.
  intros Hu. unfold getSession, deleteSession. db_simpl.
  rewrite findOne_none_of_filter_nil; [reflexivity |].
  apply (filter_deleteOne_unique Session.user_id userId); [| exact Hu].
  intros d. apply Z.eqb_eq.
Qed.

Lemma saveSession_unique (db : Db.t) (userId : UserId) (data : SessionData.t)
  (now : Date) :
  session_unique db -> session_unique (saveSession db userId data now).
Proof.
  unfold session_unique, saveSession. db_simpl. intros Hu.
  apply (NoDup_map_upsertOne Session.user_id userId); auto.
  intros d. apply Z.eqb_eq.
Qed.

(** X9.  A user has one session slot: saving a session replaces whatever was
    there for that user and nothing of the others, and after deleting it
    the user has none. *)
Theorem session_is_a_single_slot (db : Db.t) (userId : UserId)
  (data : SessionData.t) (now : Date) :
  session_unique db ->
  getSession (saveSession db userId data now) userId = Some data
  /\ (forall other, other <> userId ->
        getSession (saveSession db userId data now) other
        = getSession db other)
  /\ getSession (deleteSession (saveSession db userId data now) userId) userId
     = None
  /\ (forall other, other <> userId ->
        getSession (deleteSession db userId) other = getSession db other).
Proof.
  intros Hu. split; [apply getSession_saveSession |]. split; [| split].
  - intros other Hne. unfold getSession, saveSession. db_simpl.
    rewrite findOne_upsertOne_other; auto.
    + intros d. now apply user_key_other.
    + cbn. now apply Z.eqb_neq.
  - apply getSession_deleteSession. now apply saveSession_unique.
  - intros other Hne. unfold getSession, deleteSession. db_simpl.
    rewrite findOne_deleteOne_other; [reflexivity |].
    intros d. now apply user_key_other.
Qed.

(** ** Users *)

Lemma set_users_same (db : Db.t) : Db.set_users (fun _ => Db.users db) db = db.
Proof. now destruct db. Qed.

(** X10.  [createUser] never resets a profile: for a user that exists the
    database is left as it is and the stored user is returned, with its
    points and counters; for a new user one document is added, with the
    three statistics at 0. *)
Theorem createUser_keeps_an_existing_user (db : Db.t) (userId : UserId)
  (username : text) (now : Date) :
  match getUser db userId with
  | Some u => createUser db userId username now = (db, Some u)
  | None =>
      exists u,
        snd (createUser db userId username now) = Some u
        /\ User.user_id u = userId /\ stats u = (0, 0, 0)
        /\ User.join_date u = now
        /\ Db.users (fst (createUser db userId username now))
           = Db.users db ++ [u]
  end.
Proof.
  unfold createUser, getUser. db_simpl.
  destruct (Mongo.findOne _ (Db.users db)) as [u|] eqn:E.
  - assert (Mongo.upsertOne (fun u0 => User.user_id u0 =? userId)
              (fun u0 => u0)
              (User.mk userId
                 (if truthy username then username
                  else of_string "user_" ++ JsString.of_Z userId) 0 0 0 now)
              (Db.users db) = Db.users db) as K.
    { rewrite upsertOne_found by (rewrite findOne_existsb; now rewrite E).
      apply updateOne_id. }
    rewrite K. destruct db. cbn in *. now rewrite E.
  - rewrite upsertOne_missing by (rewrite findOne_existsb; now rewrite E).
    eexists. rewrite findOne_insertOne, E. cbn [User.user_id].
    rewrite Z.eqb_refl. repeat split.
Qed.

(** ** Subscriptions *)

Lemma isSubscribed_unsubscribe_other (db : Db.t) (userId other : UserId)
  (questionId otherQuestion : ObjectId) :
  (other, otherQuestion) <> (userId, questionId) ->
  isSubscribed (fst (unsubscribeFromQuestion db userId questionId))
    other otherQuestion
  = isSubscribed db other otherQuestion.
Proof.
  intros Hne. unfold isSubscribed, unsubscribeFromQuestion. db_simpl.
  rewrite findOne_deleteOne_other; [reflexivity |].
  intros d Hd. apply same_subscription_key in Hd.
  destruct (same_subscription userId questionId d) eqn:E; [| reflexivity].
  apply same_subscription_key in E. congruence.
Qed.

(** X11.  Unsubscribing ends the subscription of the pair and no other: the user
    is not subscribed afterwards, is no longer among the subscribers of
    the question, and every other pair is as before. *)
Theorem unsubscribe_ends_the_subscription (db : Db.t) (userId : UserId)
  (questionId : ObjectId) :
  subscription_unique db ->
  snd (unsubscribeFromQuestion db userId questionId) = true
  /\ isSubscribed (fst (unsubscribeFromQuestion db userId questionId))
       userId questionId = false
  /\ ~ In userId
       (getSubscribers (fst (unsubscribeFromQuestion db userId questionId))
          questionId)
  /\ (forall other otherQuestion,
        (other, otherQuestion) <> (userId, questionId) ->
        isSubscribed (fst (unsubscribeFromQuestion db userId questionId))
          other otherQuestion
        = isSubscribed db other otherQuestion).
Proof.
  intros Hu.
  assert (isSubscribed (fst (unsubscribeFromQuestion db userId questionId))
            userId questionId = false) as Hgone.
  { unfold isSubscribed, unsubscribeFromQuestion. db_simpl.
    rewrite findOne_none_of_filter_nil; [reflexivity |].
    apply (filter_deleteOne_unique subscription_key (userId, questionId));
      [apply same_subscription_key | exact Hu]. }
  split; [reflexivity |]. split; [exact Hgone |]. split.
  - intros Hin.
    assert (existsb (fun s => s =? userId)
              (getSubscribers
                 (fst (unsubscribeFromQuestion db userId questionId))
                 questionId) = true) as K.
    { apply existsb_exists. exists userId. split; [exact Hin | apply Z.eqb_refl]. }
    rewrite existsb_getSubscribers, Hgone in K. discriminate.
  - intros other otherQuestion. apply isSubscribed_unsubscribe_other.
Qed.

(** X12.  The subscribers of a question are the users subscribed to it, each of
    them once. *)
Theorem subscribers_are_the_subscribed (db : Db.t) (questionId : ObjectId) :
  subscription_unique db ->
  NoDup (getSubscribers db questionId)
  /\ forall userId,
       In userId (getSubscribers db questionId)
       <-> isSubscribed db userId questionId = true.
Proof.
  intros Hu. split; [now apply getSubscribers_NoDup |].
  intros userId. rewrite <- existsb_getSubscribers, existsb_exists. split.
  - intros Hin. exists userId. split; [exact Hin | apply Z.eqb_refl].
  - intros [x [Hin E]]. apply Z.eqb_eq in E. now subst x.
Qed.

(** ** Votes *)

(** X13.  A vote that goes through is the one vote of the pair: it is the only
    vote document for the user and the answer, [getUserVote] returns its
    type whatever the user had voted before, and the votes of every other
    pair are untouched. *)
Theorem vote_replaces_the_earlier_vote (db : Db.t) (userId : UserId)
  (answerId : ObjectId) (answer : Answer.t) (voteType : VoteType) (now : Date) :
  vote_unique db ->
  getAnswerWithVotes db answerId = Some answer ->
  Answer.user_id answer <> userId ->
  snd (voteAnswer db userId answerId voteType now) = true
  /\ vote_records (fst (voteAnswer db userId answerId voteType now))
       userId answerId
     = [Vote.mk userId answerId voteType now]
  /\ getUserVote (fst (voteAnswer db userId answerId voteType now))
       userId answerId = Some voteType
  /\ (forall other otherAnswer,
        (other, otherAnswer) <> (userId, answerId) ->
        vote_records (fst (voteAnswer db userId answerId voteType now))
          other otherAnswer
        = vote_records db other otherAnswer).
Proof.
  intros Hu Ha Hne. unfold voteAnswer. rewrite Ha.
  destruct (Answer.user_id answer =? userId) eqn:E;
    [apply Z.eqb_eq in E; contradiction |].
  unfold vote_records, getUserVote, Mongo.findAll. db_simpl.
  assert (filter (same_vote userId answerId)
            (Mongo.insertOne (Vote.mk userId answerId voteType now)
               (Mongo.deleteOne (same_vote userId answerId) (Db.votes db)))
          = [Vote.mk userId answerId voteType now]) as Hone.
  { unfold Mongo.insertOne. rewrite filter_app.
    rewrite (filter_deleteOne_unique vote_key (userId, answerId));
      [| apply same_vote_key | exact Hu].
    cbn. unfold same_vote. cbn. now rewrite Z.eqb_refl, N.eqb_refl. }
  split; [reflexivity |]. split; [exact Hone |]. split.
  - unfold Mongo.findOne.
    assert (forall (c : list Vote.t) v,
              filter (same_vote userId answerId) c = [v] ->
              find (same_vote userId answerId) c = Some v) as Hfind.
    { induction c as [|d c IH]; cbn; [discriminate |].
      destruct (same_vote userId answerId d); [| exact IH].
      intros v H. now injection H as -> _. }
    now rewrite (Hfind _ _ Hone).
  - intros other otherAnswer Hother. unfold Mongo.insertOne.
    rewrite filter_app. cbn [filter].
    assert (same_vote other otherAnswer (Vote.mk userId answerId voteType now)
            = false) as Hfresh.
    { destruct (same_vote other otherAnswer _) eqn:K; [| reflexivity].
      apply same_vote_key in K. unfold vote_key in K. cbn in K. congruence. }
    rewrite Hfresh, app_nil_r. apply filter_deleteOne_other.
    intros d Hd. apply same_vote_key in Hd.
    destruct (same_vote userId answerId d) eqn:K; [| reflexivity].
    apply same_vote_key in K. congruence.
Qed.

(** X14.  Clearing a vote leaves the user without a vote on the answer, and the
    votes of every other pair untouched. *)
Theorem clearing_removes_the_vote (db : Db.t) (from : From.t)
  (answerId : ObjectId) :
  vote_unique db ->
  getUserVote (fst (on_VOTE_NONE db from answerId)) (From.id from) answerId
  = None
  /\ (forall other otherAnswer,
        (other, otherAnswer) <> (From.id from, answerId) ->
        vote_records (fst (on_VOTE_NONE db from answerId)) other otherAnswer
        = vote_records db other otherAnswer).
Proof.
  intros Hu. unfold on_VOTE_NONE, getUserVote, vote_records, Mongo.findAll.
  db_simpl. split.
  - rewrite findOne_none_of_filter_nil; [reflexivity |].
    apply (filter_deleteOne_unique vote_key (From.id from, answerId));
      [apply same_vote_key | exact Hu].
  - intros other otherAnswer Hother. apply filter_deleteOne_other.
    intros d Hd. apply same_vote_key in Hd.
    destruct (same_vote (From.id from) answerId d) eqn:K; [| reflexivity].
    apply same_vote_key in K. congruence.
Qed.

(** ** Reading notifications *)

(** X15.  Marking all as read leaves no unread notification for the user,
    changes nothing but the read flag of that user's notifications, and
    doing it again changes nothing. *)
Theorem mark_all_read_marks_the_users_notifications (db : Db.t)
  (userId : UserId) :
  Forall (fun n => Notification.user_id n = userId -> Notification.read n = true)
    (Db.notifications (fst (markAllNotificationsAsRead db userId)))
  /\ Forall2
       (fun n n' =>
          n' = if Notification.user_id n =? userId then set_read n else n)
       (Db.notifications db)
       (Db.notifications (fst (markAllNotificationsAsRead db userId)))
  /\ markAllNotificationsAsRead (fst (markAllNotificationsAsRead db userId))
       userId
     = markAllNotificationsAsRead db userId.
Proof.
  unfold markAllNotificationsAsRead, Mongo.updateMany. db_simpl.
  split; [| split].
  - apply Forall_map. apply Forall_forall. intros n _.
    destruct (Notification.user_id n =? userId) eqn:E; cbn.
    + destruct (Notification.read n) eqn:R; cbn; auto.
    + intros K. apply Z.eqb_neq in E. contradiction.
  - induction (Db.notifications db) as [|n ns IH]; cbn; constructor; auto.
    destruct (Notification.user_id n =? userId); cbn; [| reflexivity].
    destruct n as [u t d r c]. now destruct r.
  - f_equal. destruct db as [us qs ans ss subs vs ns nid]. cbn. f_equal.
    rewrite map_map. apply map_ext. intros n.
    destruct (Notification.user_id n =? userId) eqn:E; cbn.
    + destruct (Notification.read n) eqn:R; cbn; rewrite ?E, ?R; reflexivity.
    + now rewrite E.
Qed.

(** ** Flows *)

Lemma TOPICS_truthy (i : nat) (topic : text) :
  nth_error TOPICS i = Some topic -> truthy topic = true.
Proof.
  do 6 (destruct i as [|i]; [intros H; injection H as <-; reflexivity |]).
  destruct i; discriminate.
Qed.

Section Flows.
Variable ADMIN_ID : UserId.

(** X16.  The question flow.  A user who starts a question with [/ask],
    types a text that passes the filter and picks one of the listed topics
    gets, on submit, exactly one new question: pending, without channel
    message or answers, with the typed text, the picked topic and the next
    identifier.  Whatever session the user had before is overwritten.  The
    typed text does not begin with [/]: such a message is no command, so
    it is the text handler that receives it. *)
Theorem ask_flow_creates_one_pending_question (db : Db.t) (from : From.t)
  (userMessage topic : text) (topicIndex : nat) (replied forwarded edited : bool)
  (t1 t2 t3 t4 : Date) :
  startsWith userMessage (of_string "/") = false ->
  allowed (contentFilter userMessage) = true ->
  truthy userMessage = true ->
  nth_error TOPICS topicIndex = Some topic ->
  topicIndex <> 5%nat ->
  Db.questions
    (run ADMIN_ID db
       [ Ask from t1;
         Text from userMessage replied forwarded t2;
         TOPIC from topicIndex t3;
         SUBMIT_QUESTION from edited forwarded t4 ])
  = Db.questions db
    ++ [Question.mk (Db.next_id db) (From.id from)
          (or_else (From.username from) (From.first_name from))
          userMessage topic false None 0 t4].
Proof.
  intros _ Hok Htext Htopic Hcustom.
  unfold run. cbn [fold_left handle].
  unfold on_ask. cbn [fst].
  set (db1 := saveSession db (From.id from) (newSession awaiting_question) t1).
  unfold on_text at 1. unfold db1 at 1. rewrite getSession_saveSession.
  cbn [newSession SessionData.step]. rewrite Hok. cbn [negb fst].
  set (s2 := with_step awaiting_topic
               (with_question userMessage (newSession awaiting_question))).
  set (db2 := saveSession db1 (From.id from) s2 t2).
  unfold on_TOPIC at 1. unfold db2 at 1. rewrite getSession_saveSession.
  cbn [s2 with_step SessionData.step Step_eqb].
  apply Nat.eqb_neq in Hcustom. rewrite Hcustom, Htopic. cbn [fst].
  set (s3 := with_step confirm_question _).
  set (db3 := saveSession db2 (From.id from) s3 t3).
  unfold on_SUBMIT_QUESTION. unfold db3 at 1. rewrite getSession_saveSession.
  cbn [s3 s2 with_step with_topic with_question newSession
       SessionData.question SessionData.topic].
  rewrite Htext, (TOPICS_truthy _ _ Htopic), Hok. cbn [negb orb].
  unfold createQuestion. db_simpl.
  destruct edited; cbn [negb fst]; [| reflexivity].
  destruct (getUser _ (From.id from)); [| reflexivity].
  destruct forwarded; reflexivity.
Qed.

(** X17.  Submitting twice creates the question once: after a submission whose
    confirmation and forwarding went through, for a user with a profile, a
    second submission finds no session and creates nothing. *)
Theorem second_submission_creates_nothing (db : Db.t) (from : From.t)
  (user : User.t) (edited forwarded : bool) (t1 t2 : Date) :
  session_unique db ->
  getUser db (From.id from) = Some user ->
  Db.questions
    (fst (on_SUBMIT_QUESTION ADMIN_ID
            (fst (on_SUBMIT_QUESTION ADMIN_ID db from true true t1))
            from edited forwarded t2))
  = Db.questions (fst (on_SUBMIT_QUESTION ADMIN_ID db from true true t1)).
Proof.
  intros Hu Huser.
  assert (forall d e f t,
            getSession d (From.id from) = None ->
            on_SUBMIT_QUESTION ADMIN_ID d from e f t
            = (d, [editMessageText "Session expired. Please start again."]))
    as Hnone.
  { intros d e f t H. unfold on_SUBMIT_QUESTION. now rewrite H. }
  assert ((forall e f t,
             exists out, on_SUBMIT_QUESTION ADMIN_ID db from e f t = (db, out))
          \/ exists question topic,
               forall t,
                 on_SUBMIT_QUESTION ADMIN_ID db from true true t
                 = (deleteSession
                      (snd (createQuestion db (From.id from)
                              (or_else (From.username from)
                                 (From.first_name from))
                              question topic t))
                      (From.id from),
                    [editMessageText "Question Submitted!";
                     sendMessage (ToUser ADMIN_ID) "New Question for Approval";
                     answerCbQuery EmptyString])) as Hcases.
  { unfold on_SUBMIT_QUESTION.
    destruct (getSession db (From.id from)) as [session|]; [| left; eauto].
    destruct (SessionData.question session) as [question|]; [| left; eauto].
    destruct (SessionData.topic session) as [topic|]; [| left; eauto].
    destruct (negb (truthy question) || negb (truthy topic)); [left; eauto |].
    destruct (negb (allowed (contentFilter question))); [left; eauto |].
    right. exists question, topic. intros t.
    unfold createQuestion. db_simpl.
    assert (getUser
              (Db.mk (Db.users db)
                 (Mongo.insertOne
                    (Question.mk (Db.next_id db) (From.id from)
                       (or_else (From.username from) (From.first_name from))
                       question topic false None 0 t)
                    (Db.questions db))
                 (Db.answers db) (Db.sessions db) (Db.subscriptions db)
                 (Db.votes db) (Db.notifications db) (N.succ (Db.next_id db)))
              (From.id from) = Some user) as K by exact Huser.
    cbn [negb]. now rewrite K. }
  destruct Hcases as [Hsame | [question [topic E]]].
  - destruct (Hsame true true t1) as [out E]. rewrite E. cbn [fst].
    destruct (Hsame edited forwarded t2) as [out' E']. now rewrite E'.
  - rewrite E. cbn [fst]. rewrite Hnone; [reflexivity |].
    apply getSession_deleteSession. exact Hu.
Qed.

End Flows.

(** ** An answer to a question that has been deleted *)

Section Deleted.
Variable ADMIN_ID : UserId.

(** X22.  When the question of an open answer flow has been deleted, a message
    that passes the filter is still stored as an answer, with the award and
    the subscription of the answerer, and nobody is notified.  If the
    question has a subscriber other than the answerer the handler then
    fails: the user is told that an error occurred and the session stays
    open; otherwise the answer is confirmed and the session deleted. *)
Theorem answer_to_a_deleted_question (db : Db.t) (from : From.t)
  (session : SessionData.t) (questionId : ObjectId) (userMessage : text)
  (forwarded : bool) (now : Date) :
  getSession db (From.id from) = Some session ->
  SessionData.step session = awaiting_answer ->
  SessionData.questionId session = Some questionId ->
  allowed (contentFilter userMessage) = true ->
  getQuestion db questionId = None ->
  let result := on_text ADMIN_ID db from userMessage true forwarded now in
  Db.answers (fst result)
  = Db.answers db
    ++ [Answer.mk (Db.next_id db) questionId (From.id from)
          (or_else (From.username from) (From.first_name from)) userMessage
          (SessionData.channelMessageId session) 0 now]
  /\ Db.users (fst result)
     = Mongo.updateOne (fun u => User.user_id u =? From.id from)
         (award f_answers_given) (Db.users db)
  /\ isSubscribed (fst result) (From.id from) questionId = true
  /\ Db.notifications (fst result) = Db.notifications db
  /\ if existsb (fun s => negb (s =? From.id from))
          (getSubscribers db questionId)
     then snd result = [reply "An error occurred. Please try again."]
          /\ Db.sessions (fst result) = Db.sessions db
     else snd result = [reply "Answer Posted!"]
          /\ Db.sessions (fst result)
             = Mongo.deleteOne (fun s => Session.user_id s =? From.id from)
                 (Db.sessions db).
Proof.
  intros Hs Hstep Hqid Hok Hq. cbn zeta.
  unfold on_text. rewrite Hs, Hstep, Hok, Hqid. cbn [negb].
  unfold post_answer.
  pose proof (getQuestion_createAnswer db questionId (From.id from)
                (or_else (From.username from) (From.first_name from))
                userMessage (SessionData.channelMessageId session) now) as Hq1.
  rewrite Hq in Hq1. cbn [option_map] in Hq1.
  rewrite createAnswer_db in *. cbn [snd] in Hq1.
  set (db1 := updateUserStats _ (From.id from) f_answers_given 1) in *.
  pose proof (others_among_subscribers db1 (From.id from) questionId now)
    as Hothers.
  pose proof (isSubscribed_subscribeToQuestion_same db1 (From.id from)
                questionId now) as Hsub.
  assert (getQuestion (fst (subscribeToQuestion db1 (From.id from) questionId now))
            questionId = None) as Hq2 by exact Hq1.
  assert (getSubscribers db1 questionId = getSubscribers db questionId)
    as Hgs by reflexivity.
  rewrite Hgs in Hothers.
  destruct (subscribeToQuestion db1 (From.id from) questionId now) as [db2 ok]
    eqn:Hsubscribe.
  cbn [fst] in *. rewrite Hq2, notifySubscribers_missing, Hothers.
  assert (Db.answers db2 = Db.answers db1 /\ Db.users db2 = Db.users db1
          /\ Db.notifications db2 = Db.notifications db1
          /\ Db.sessions db2 = Db.sessions db1) as [Ea [Eu [En Es]]].
  { unfold subscribeToQuestion in Hsubscribe. injection Hsubscribe as <- _.
    repeat split. }
  destruct (existsb (fun s => negb (s =? From.id from))
              (getSubscribers db questionId)); cbn [negb fst snd app];
    unfold deleteSession; db_simpl; rewrite ?Ea, ?Eu, ?En, ?Es;
    repeat split; exact Hsub.
Qed.

End Deleted.

(** ** The rank *)

Lemma NoDup_map_same_key {A K : Type} (key : A -> K) (l : list A) (a b : A) :
  NoDup (map key l) -> In a l -> In b l -> key a = key b -> a = b.
Proof.
  induction l as [|d l IH]; cbn; [tauto |].
  intros H. inversion H as [|k ks Hk Hks]; subst.
  intros [-> | Ha] [-> | Hb] E; auto.
  - exfalso. apply Hk. rewrite E. now apply in_map.
  - exfalso. apply Hk. rewrite <- E. now apply in_map.
Qed.

Lemma insert_by_points_all (P : User.t -> Prop) (u : User.t) (s : list User.t) :
  P u -> Forall P s -> Forall P (insert_by_points u s).
Proof.
  intros Hu H. induction H as [|v r Hv H IH]; cbn; [now repeat constructor |].
  destruct (User.points v <=? User.points u); repeat constructor; auto.
Qed.

Lemma sort_by_points_cons (u : User.t) (l : list User.t) :
  sort_by_points (u :: l) = insert_by_points u (sort_by_points l).
Proof. reflexivity. Qed.

Lemma sort_by_points_all (P : User.t -> Prop) (l : list User.t) :
  Forall P l -> Forall P (sort_by_points l).
Proof.
  induction 1 as [|u l Hu H IH]; [constructor |].
  rewrite sort_by_points_cons. now apply insert_by_points_all.
Qed.

Lemma insert_by_points_sorted (u : User.t) (s : list User.t) :
  StronglySorted by_points_down s ->
  StronglySorted by_points_down (insert_by_points u s).
Proof.
  induction 1 as [|v r Hr IH Hv]; cbn; [repeat constructor |].
  destruct (User.points v <=? User.points u) eqn:E.
  - apply Z.leb_le in E. constructor; [now constructor |].
    constructor; [exact E |].
    eapply Forall_impl; [| exact Hv]. unfold by_points_down. intros w Hw. lia.
  - apply Z.leb_gt in E. constructor; [exact IH |].
    apply insert_by_points_all; [unfold by_points_down; lia | exact Hv].
Qed.

Lemma sort_by_points_sorted (l : list User.t) :
  StronglySorted by_points_down (sort_by_points l).
Proof.
  induction l as [|u l IH]; [constructor |].
  rewrite sort_by_points_cons. now apply insert_by_points_sorted.
Qed.

Lemma filter_length_insert (q : User.t -> bool) (u : User.t) (s : list User.t) :
  List.length (filter q (insert_by_points u s))
  = List.length (filter q (u :: s)).
Proof.
  induction s as [|v r IH]; cbn; [reflexivity |].
  destruct (User.points v <=? User.points u); cbn; [reflexivity |].
  cbn in IH. destruct (q v), (q u); cbn in *; lia.
Qed.

Lemma filter_length_sort (q : User.t -> bool) (l : list User.t) :
  List.length (filter q (sort_by_points l)) = List.length (filter q l).
Proof.
  induction l as [|u l IH]; [reflexivity |].
  rewrite sort_by_points_cons, filter_length_insert. cbn.
  destruct (q u); cbn; now rewrite IH.
Qed.

Lemma findIndex_from_shift {A : Type} (p : A -> bool) (l : list A) (i : Z) :
  findIndex_from p l i
  = if existsb p l then findIndex_from p l 0 + i else -1.
Proof.
  revert i. induction l as [|d r IH]; intros i; cbn; [reflexivity |].
  destruct (p d); cbn; [lia |].
  rewrite (IH (i + 1)), (IH 1). destruct (existsb p r); lia.
Qed.

Lemma existsb_insert (p : User.t -> bool) (u : User.t) (s : list User.t) :
  existsb p (insert_by_points u s) = p u || existsb p s.
Proof.
  induction s as [|v r IH]; cbn; [reflexivity |].
  destruct (User.points v <=? User.points u); cbn; [reflexivity |].
  rewrite IH. destruct (p v), (p u); reflexivity.
Qed.

Lemma existsb_sort (p : User.t -> bool) (l : list User.t) :
  existsb p (sort_by_points l) = existsb p l.
Proof.
  induction l as [|u l IH]; [reflexivity |].
  rewrite sort_by_points_cons, existsb_insert, IH. reflexivity.
Qed.

(** The index of the user just inserted: the users with more points. *)
Lemma findIndex_inserted (p : User.t -> bool) (u : User.t) (s : list User.t) :
  StronglySorted by_points_down s ->
  p u = true -> existsb p s = false ->
  findIndex p (insert_by_points u s)
  = Z.of_nat (List.length (filter (fun v => User.points u <? User.points v) s)).
Proof.
  unfold findIndex. intros Hs Hu.
  induction Hs as [|v r Hr IH Hv]; cbn [insert_by_points]; intros Hnone.
  - cbn. now rewrite Hu.
  - cbn in Hnone. apply orb_false_iff in Hnone as [Hpv Hnone].
    destruct (User.points v <=? User.points u) eqn:E.
    + cbn [findIndex_from]. rewrite Hu.
      apply Z.leb_le in E.
      assert (filter (fun w => User.points u <? User.points w) (v :: r) = [])
        as ->; [| reflexivity].
      apply (filter_absent_key
               (fun w => User.points u <? User.points w) true).
      * intros d. reflexivity.
      * intros Hin. apply in_map_iff in Hin as [w [Hw Hin]].
        apply Z.ltb_lt in Hw.
        destruct Hin as [<- | Hin]; [lia |].
        rewrite Forall_forall in Hv. specialize (Hv w Hin).
        unfold by_points_down in Hv. lia.
    + cbn [findIndex_from filter]. rewrite Hpv.
      apply Z.leb_gt in E.
      assert ((User.points u <? User.points v) = true) as -> by now apply Z.ltb_lt.
      rewrite findIndex_from_shift, existsb_insert, Hu. cbn [orb].
      rewrite (IH Hnone). cbn [List.length]. lia.
Qed.

(** The index of a user that was there moves by one when a user with at
    least as many points is inserted, and stays otherwise. *)
Lemma findIndex_after_insert (p : User.t -> bool) (points : Z) (u : User.t)
  (s : list User.t) :
  StronglySorted by_points_down s ->
  p u = false ->
  Forall (fun v => p v = true -> User.points v = points) s ->
  existsb p s = true ->
  findIndex p (insert_by_points u s)
  = findIndex p s + (if points <=? User.points u then 1 else 0).
Proof.
  unfold findIndex. intros Hs Hu.
  induction Hs as [|v r Hr IH Hv]; cbn [insert_by_points]; intros Hp Hex;
    [discriminate |].
  inversion Hp as [|v' r' Hpv Hpr]; subst.
  destruct (User.points v <=? User.points u) eqn:E.
  - change (findIndex_from p (u :: v :: r) 0)
      with (if p u then 0 else findIndex_from p (v :: r) (0 + 1)).
    rewrite Hu.
    rewrite (findIndex_from_shift p (v :: r) (0 + 1)), Hex.
    assert ((points <=? User.points u) = true) as ->; [| lia].
    apply Z.leb_le. apply Z.leb_le in E.
    apply existsb_exists in Hex as [w [Hin Hw]].
    rewrite Forall_forall in Hp. rewrite <- (Hp w Hin Hw).
    destruct Hin as [<- | Hin]; [exact E |].
    rewrite Forall_forall in Hv. specialize (Hv w Hin).
    unfold by_points_down in Hv. lia.
  - apply Z.leb_gt in E. cbn [findIndex_from].
    destruct (p v) eqn:Hv'.
    + rewrite <- (Hpv eq_refl).
      assert ((User.points v <=? User.points u) = false) as ->
        by (apply Z.leb_gt; lia).
      lia.
    + cbn in Hex. rewrite Hv' in Hex. cbn in Hex.
      rewrite (findIndex_from_shift p (insert_by_points u r) (0 + 1)),
        existsb_insert, Hu, Hex. cbn [orb].
      rewrite (findIndex_from_shift p r (0 + 1)), Hex.
      rewrite (IH Hpr Hex). lia.
Qed.

Lemma userRank_of_list (pre post : list User.t) (u : User.t) :
  NoDup (map User.user_id (pre ++ u :: post)) ->
  findIndex (fun v => User.user_id v =? User.user_id u)
    (sort_by_points (pre ++ u :: post))
  = Z.of_nat
      (List.length (filter (fun v => User.points u <=? User.points v) pre))
    + Z.of_nat
        (List.length (filter (fun v => User.points u <? User.points v) post)).
Proof.
  set (p := fun v => User.user_id v =? User.user_id u).
  induction pre as [|a pre IH]; cbn [app]; intros Hnd.
  - rewrite sort_by_points_cons. cbn [filter List.length].
    rewrite findIndex_inserted.
    + now rewrite filter_length_sort.
    + apply sort_by_points_sorted.
    + subst p. apply Z.eqb_refl.
    + rewrite existsb_sort. cbn in Hnd. inversion Hnd as [|k ks Hk _]; subst.
      destruct (existsb p post) eqn:E; [| reflexivity].
      exfalso. apply Hk. apply existsb_exists in E as [w [Hin Hw]].
      apply Z.eqb_eq in Hw. apply in_map_iff. now exists w.
  - cbn in Hnd. inversion Hnd as [|k ks Hk Hnd']; subst.
    rewrite sort_by_points_cons.
    rewrite (findIndex_after_insert p (User.points u)).
    + rewrite (IH Hnd'). cbn [filter].
      destruct (User.points u <=? User.points a); cbn [List.length]; lia.
    + apply sort_by_points_sorted.
    + subst p. cbn. apply Z.eqb_neq. intros E. apply Hk.
      rewrite E, map_app. apply in_or_app. right. now left.
    + apply sort_by_points_all. apply Forall_forall. intros w Hin Hw.
      apply Z.eqb_eq in Hw.
      assert (w = u) as -> ; [| reflexivity].
      apply (NoDup_map_same_key User.user_id (pre ++ u :: post)); auto.
      apply in_or_app. right. now left.
    + rewrite existsb_sort. apply existsb_exists. exists u.
      split; [apply in_or_app; right; now left | apply Z.eqb_refl].
Qed.

(** X18.  The rank shown in the profile of a stored user is one more than the
    number of users ahead: the users stored earlier with at least as many
    points and the users stored later with more points.  It lies between 1
    and the number of users. *)
Theorem userRank_counts_the_users_ahead (db : Db.t) (pre post : list User.t)
  (u : User.t) :
  user_unique db ->
  Db.users db = pre ++ u :: post ->
  userRank db (User.user_id u)
  = 1 + Z.of_nat
          (List.length
             (filter (fun v => User.points u <=? User.points v) pre))
      + Z.of_nat
          (List.length
             (filter (fun v => User.points u <? User.points v) post))
  /\ 1 <= userRank db (User.user_id u) <= totalUsers db.
Proof.
  unfold user_unique, userRank, totalUsers, getAllUsers. intros Hu E.
  rewrite E in *. rewrite (userRank_of_list pre post u Hu).
  split; [lia |].
  pose proof (filter_length_le (fun v => User.points u <=? User.points v) pre).
  pose proof (filter_length_le (fun v => User.points u <? User.points v) post).
  rewrite length_app. cbn [List.length]. lia.
Qed.

(** ** The properties on the scenario *)

Lemma reachable_db_answered : reachable operator_id db_answered.
Proof. apply reachable_run. constructor. Qed.

Lemma reachable_db_upvoted : reachable operator_id db_upvoted.
Proof. apply reachable_step. exact reachable_db_answered. Qed.

Lemma unique_indexes_hold_witness :
  reachable operator_id db_answered /\ vote_unique db_answered.
Proof.
  split; [exact reachable_db_answered |].
  exact (proj2 (proj2 (proj2
           (unique_indexes_hold operator_id db_answered reachable_db_answered)))).
Defined.

Lemma answer_count_is_number_of_answers_witness :
  reachable operator_id db_answered
  /\ In (inc_answer_count alices_question) (Db.questions db_answered)
  /\ Question.answer_count (inc_answer_count alices_question)
     = getAnswerCountForQuestion db_answered 0%N.
Proof.
  assert (In (inc_answer_count alices_question) (Db.questions db_answered))
    as Hin by (vm_compute; left; reflexivity).
  split; [exact reachable_db_answered |]. split; [exact Hin |].
  exact (answer_count_is_number_of_answers operator_id db_answered
           (inc_answer_count alices_question) reachable_db_answered Hin).
Defined.

Lemma stored_texts_passed_the_filter_witness :
  reachable operator_id db_answered
  /\ forall a, In a (Db.answers db_answered) ->
               allowed (contentFilter (Answer.answer a)) = true.
Proof.
  split; [exact reachable_db_answered |].
  exact (proj2 (stored_texts_passed_the_filter operator_id db_answered
                  reachable_db_answered)).
Defined.

Lemma approved_questions_are_published_witness :
  reachable operator_id db_answered
  /\ In (inc_answer_count alices_question) (Db.questions db_answered)
  /\ Question.approved (inc_answer_count alices_question) = true
  /\ exists message_id,
       Question.channel_message_id (inc_answer_count alices_question)
       = Some message_id.
Proof.
  assert (In (inc_answer_count alices_question) (Db.questions db_answered))
    as Hin by (vm_compute; left; reflexivity).
  split; [exact reachable_db_answered |]. split; [exact Hin |].
  split; [reflexivity |].
  exact (approved_questions_are_published operator_id db_answered
           (inc_answer_count alices_question) reachable_db_answered Hin
           eq_refl).
Defined.

Lemma no_stored_vote_is_a_self_vote_witness :
  reachable operator_id db_upvoted
  /\ In (Vote.mk 30 1%N up 110) (Db.votes db_upvoted)
  /\ exists a,
       getAnswerWithVotes db_upvoted 1%N = Some a /\ Answer.user_id a <> 30.
Proof.
  assert (In (Vote.mk 30 1%N up 110) (Db.votes db_upvoted)) as Hin
    by (vm_compute; left; reflexivity).
  split; [exact reachable_db_upvoted |]. split; [exact Hin |].
  exact (no_stored_vote_is_a_self_vote operator_id db_upvoted
           (Vote.mk 30 1%N up 110) reachable_db_upvoted Hin).
Defined.

Lemma only_the_operator_approves_or_deletes_witness :
  From.id (sender (REJECT alice 0%N true true)) <> operator_id
  /\ exists added,
       map lifecycle
         (Db.questions
            (fst (handle operator_id db_approved (REJECT alice 0%N true true))))
       = map lifecycle (Db.questions db_approved) ++ map lifecycle added
       /\ Forall (fun q => Question.approved q = false) added.
Proof.
  assert (From.id (sender (REJECT alice 0%N true true)) <> operator_id) as H
    by (vm_compute; discriminate).
  split; [exact H |].
  exact (only_the_operator_approves_or_deletes operator_id db_approved
           (REJECT alice 0%N true true) H).
Defined.

Lemma answers_are_on_approved_questions_witness :
  reachable operator_id db_answered
  /\ In bobs_answer (Db.answers db_answered)
  /\ getQuestion db_answered (Answer.question_id bobs_answer)
     = Some (inc_answer_count alices_question)
  /\ Question.approved (inc_answer_count alices_question) = true.
Proof.
  assert (In bobs_answer (Db.answers db_answered)) as Hin
    by (vm_compute; left; reflexivity).
  assert (getQuestion db_answered (Answer.question_id bobs_answer)
          = Some (inc_answer_count alices_question)) as Hq
    by (vm_compute; reflexivity).
  split; [exact reachable_db_answered |]. split; [exact Hin |].
  split; [exact Hq |].
  exact (answers_are_on_approved_questions operator_id db_answered bobs_answer
           (inc_answer_count alices_question) reachable_db_answered Hin Hq).
Defined.

Lemma session_unique_db_answering : session_unique db_answering.
Proof. vm_compute. repeat constructor. intros []. Qed.

Lemma subscription_unique_db_answering : subscription_unique db_answering.
Proof. vm_compute. repeat constructor. intros []. Qed.

Lemma vote_unique_db_upvoted : vote_unique db_upvoted.
Proof. vm_compute. repeat constructor. intros []. Qed.

Lemma session_is_a_single_slot_witness :
  session_unique db_answering
  /\ getSession
       (saveSession db_answering 20 (newSession awaiting_feedback) 200) 20
     = Some (newSession awaiting_feedback).
Proof.
  split; [exact session_unique_db_answering |].
  exact (proj1 (session_is_a_single_slot db_answering 20
                  (newSession awaiting_feedback) 200
                  session_unique_db_answering)).
Defined.

Lemma unsubscribe_ends_the_subscription_witness :
  subscription_unique db_answering
  /\ isSubscribed (fst (unsubscribeFromQuestion db_answering 30 0%N)) 30 0%N
     = false.
Proof.
  split; [exact subscription_unique_db_answering |].
  exact (proj1 (proj2 (unsubscribe_ends_the_subscription db_answering 30 0%N
                         subscription_unique_db_answering))).
Defined.

Lemma subscribers_are_the_subscribed_witness :
  subscription_unique db_answering
  /\ NoDup (getSubscribers db_answering 0%N).
Proof.
  split; [exact subscription_unique_db_answering |].
  exact (proj1 (subscribers_are_the_subscribed db_answering 0%N
                  subscription_unique_db_answering)).
Defined.

Lemma vote_replaces_the_earlier_vote_witness :
  vote_unique db_upvoted
  /\ getAnswerWithVotes db_upvoted 1%N = Some (inc_votes 1 bobs_answer)
  /\ Answer.user_id (inc_votes 1 bobs_answer) <> 30
  /\ getUserVote (fst (voteAnswer db_upvoted 30 1%N down 111)) 30 1%N
     = Some down.
Proof.
  assert (getAnswerWithVotes db_upvoted 1%N = Some (inc_votes 1 bobs_answer))
    as Ha by (vm_compute; reflexivity).
  assert (Answer.user_id (inc_votes 1 bobs_answer) <> 30) as Hne
    by (vm_compute; discriminate).
  split; [exact vote_unique_db_upvoted |]. split; [exact Ha |].
  split; [exact Hne |].
  exact (proj1 (proj2 (proj2
           (vote_replaces_the_earlier_vote db_upvoted 30 1%N
              (inc_votes 1 bobs_answer) down 111 vote_unique_db_upvoted
              Ha Hne)))).
Defined.

Lemma clearing_removes_the_vote_witness :
  vote_unique db_upvoted
  /\ getUserVote (fst (on_VOTE_NONE db_upvoted carol 1%N)) (From.id carol) 1%N
     = None.
Proof.
  split; [exact vote_unique_db_upvoted |].
  exact (proj1 (clearing_removes_the_vote db_upvoted carol 1%N
                  vote_unique_db_upvoted)).
Defined.

Lemma ask_flow_creates_one_pending_question_witness :
  startsWith (of_string "Is this normal???") (of_string "/") = false
  /\ allowed (contentFilter (of_string "Is this normal???")) = true
  /\ truthy (of_string "Is this normal???") = true
  /\ nth_error TOPICS 1 = Some (nth 1 TOPICS [])
  /\ 1%nat <> 5%nat
  /\ Db.questions
       (run operator_id db_answered
          [ Ask carol 200;
            Text carol (of_string "Is this normal???") true true 201;
            TOPIC carol 1 202;
            SUBMIT_QUESTION carol true true 203 ])
     = Db.questions db_answered
       ++ [Question.mk (Db.next_id db_answered) (From.id carol)
             (or_else (From.username carol) (From.first_name carol))
             (of_string "Is this normal???") (nth 1 TOPICS []) false None 0 203].
Proof.
  assert (startsWith (of_string "Is this normal???") (of_string "/") = false)
    as H0 by reflexivity.
  assert (allowed (contentFilter (of_string "Is this normal???")) = true) as H1
    by (vm_compute; reflexivity).
  assert (truthy (of_string "Is this normal???") = true) as H2 by reflexivity.
  assert (nth_error TOPICS 1 = Some (nth 1 TOPICS [])) as H3 by reflexivity.
  assert (1%nat <> 5%nat) as H4 by discriminate.
  split; [exact H0 |].
  split; [exact H1 |]. split; [exact H2 |]. split; [exact H3 |].
  split; [exact H4 |].
  exact (ask_flow_creates_one_pending_question operator_id db_answered carol
           (of_string "Is this normal???") (nth 1 TOPICS []) 1 true true true
           200 201 202 203 H0 H1 H2 H3 H4).
Defined.

Lemma session_unique_db_drafted : session_unique db_drafted.
Proof. vm_compute. repeat constructor. intros []. Qed.

(** Carol has drafted a question: her first submission stores it, the second
    one stores nothing. *)
Lemma second_submission_creates_nothing_witness :
  session_unique db_drafted
  /\ getUser db_drafted (From.id carol)
     = Some (User.mk 30 (of_string "Carol") 0 0 0 102)
  /\ option_map SessionData.step (getSession db_drafted (From.id carol))
     = Some confirm_question
  /\ List.length
       (Db.questions
          (fst (on_SUBMIT_QUESTION operator_id db_drafted carol true true 203)))
     = S (List.length (Db.questions db_drafted))
  /\ Db.questions
       (fst (on_SUBMIT_QUESTION operator_id
               (fst (on_SUBMIT_QUESTION operator_id db_drafted carol true true 203))
               carol true true 204))
     = Db.questions
         (fst (on_SUBMIT_QUESTION operator_id db_drafted carol true true 203)).
Proof.
  assert (getUser db_drafted (From.id carol)
          = Some (User.mk 30 (of_string "Carol") 0 0 0 102)) as Hu
    by (vm_compute; reflexivity).
  split; [exact session_unique_db_drafted |]. split; [exact Hu |].
  split; [vm_compute; reflexivity |].
  split; [vm_compute; reflexivity |].
  exact (second_submission_creates_nothing operator_id db_drafted carol
           (User.mk 30 (of_string "Carol") 0 0 0 102) true true 203 204
           session_unique_db_drafted Hu).
Defined.

Lemma user_unique_db_answered : user_unique db_answered.
Proof.
  vm_compute.
  repeat (constructor; [cbn; intuition discriminate |]). constructor.
Qed.

Lemma userRank_counts_the_users_ahead_witness :
  user_unique db_answered
  /\ Db.users db_answered
     = [User.mk 10 (of_string "alice") 5 1 0 100]
       ++ User.mk 20 (of_string "Bob") 5 0 1 101
          :: [User.mk 30 (of_string "Carol") 0 0 0 102]
  /\ userRank db_answered 20 = 2.
Proof.
  assert (Db.users db_answered
          = [User.mk 10 (of_string "alice") 5 1 0 100]
            ++ User.mk 20 (of_string "Bob") 5 0 1 101
               :: [User.mk 30 (of_string "Carol") 0 0 0 102]) as E
    by (vm_compute; reflexivity).
  split; [exact user_unique_db_answered |]. split; [exact E |].
  exact (proj1 (userRank_counts_the_users_ahead db_answered _ _ _
                  user_unique_db_answered E)).
Defined.

Lemma answers_are_kept_witness :
  getAnswerWithVotes db_answered 1%N = Some bobs_answer
  /\ exists a',
       getAnswerWithVotes
         (fst (handle operator_id db_answered (VOTE_UP carol 1%N 110))) 1%N
       = Some a'
       /\ Answer.user_id a' = Answer.user_id bobs_answer
       /\ Answer.question_id a' = Answer.question_id bobs_answer
       /\ Answer.answer a' = Answer.answer bobs_answer.
Proof.
  assert (getAnswerWithVotes db_answered 1%N = Some bobs_answer) as H
    by (vm_compute; reflexivity).
  split; [exact H |].
  exact (answers_are_kept operator_id db_answered (VOTE_UP carol 1%N 110) 1%N
           bobs_answer H).
Defined.

Lemma answer_to_a_deleted_question_witness :
  getSession db_orphaned (From.id bob) = Some bobs_session
  /\ allowed (contentFilter (of_string "Yes it is")) = true
  /\ getQuestion db_orphaned 0%N = None
  /\ Db.notifications
       (fst (on_text operator_id db_orphaned bob (of_string "Yes it is")
               true true 109))
     = Db.notifications db_orphaned.
Proof.
  assert (getSession db_orphaned (From.id bob) = Some bobs_session) as Hs
    by (vm_compute; reflexivity).
  assert (allowed (contentFilter (of_string "Yes it is")) = true) as Hf
    by (vm_compute; reflexivity).
  assert (getQuestion db_orphaned 0%N = None) as Hq
    by (vm_compute; reflexivity).
  split; [exact Hs |]. split; [exact Hf |]. split; [exact Hq |].
  exact (proj1 (proj2 (proj2 (proj2
           (answer_to_a_deleted_question operator_id db_orphaned bob
              bobs_session 0%N (of_string "Yes it is") true 109
              Hs eq_refl eq_refl Hf Hq))))).
Defined.

(** On the scenario Carol is subscribed, so Bob is told that an error
    occurred, although his answer has been stored, and his session stays
    open. *)
Example orphaned_answer_on_the_scenario :
  snd (on_text operator_id db_orphaned bob (of_string "Yes it is") true true 109)
  = [reply "An error occurred. Please try again."]
  /\ getSession
       (fst (on_text operator_id db_orphaned bob (of_string "Yes it is")
               true true 109))
       (From.id bob)
     = Some bobs_session
  /\ List.length
       (Db.answers
          (fst (on_text operator_id db_orphaned bob (of_string "Yes it is")
                  true true 109))) = 1%nat.
Proof. vm_compute. repeat split; reflexivity. Qed.
